(** * Deep research agent: job life cycle, retry loop and progress events

    A shallow embedding of [src/lib/tools/deep-research.ts]
    ([executeDeepResearch], [deepResearchTool.execute]), of the streaming
    helpers ([createRunStatus], [createSectionStatus], [formatAsDataPart],
    [createPartId]) and of the [onFinish] hook of the chat route.

    The asynchronous TypeScript code is sequential inside one call of
    [executeDeepResearch]; it is modelled by a state-and-exception monad
    over a [World] that carries the wall clock, the number of [fetch]
    calls made so far and the trace of observable actions.  The remote
    service is an environment: a function from the index of a [fetch]
    call to the latency and the outcome of that call. *)

From Stdlib Require Import ZArith List String Ascii Bool Lia DecimalString.
From Stdlib Require DecimalPos DecimalZ.
Import ListNotations.
Local Open Scope string_scope.
#[local] Set Warnings "-register-all".
Local Open Scope Z_scope.

(** ** JavaScript values used by the tool *)

(** An [Error] object, reduced to its [message]. *)
Record JsError : Type := mkError { message : string }.

(** JavaScript truthiness of a value that is a string or [undefined]. *)
Definition truthy (v : option string) : bool :=
  match v with
  | Some s => negb (String.eqb s "")
  | None => false
  end.

(** [a || b] on an optional string with a string default. *)
Definition orElse (v : option string) (d : string) : string :=
  match v with
  | Some s => if String.eqb s "" then d else s
  | None => d
  end.

(** Template-literal rendering of an integer and of a possibly undefined
    string.  The rendering of an integer is its decimal form, which is
    JavaScript's for integers below 10^21 in absolute value. *)
Definition showZ (z : Z) : string := NilZero.string_of_int (Z.to_int z).

Definition showOpt (v : option string) : string :=
  match v with
  | Some s => s
  | None => "undefined"
  end.

(** JavaScript numbers, as far as the tool computes with them: the
    integers that a double holds exactly, and [Infinity]. *)
Inductive Number : Type :=
| Finite (z : Z)
| Infinity.

Coercion Finite : Z >-> Number.

(** Every double is below [2^1024]; a non-negative result from there on
    is [Infinity]. *)
Definition overflow (z : Z) : Number :=
  if z <? 2 ^ 1024 then Finite z else Infinity.

(** [Math.pow(b, e)] on integers with [e >= 0].  The tool calls it with
    base 2, whose powers are doubles as long as they do not overflow. *)
Definition Math_pow (b e : Z) : Number := overflow (b ^ e).

(** [x * k] for an integer [k > 0].  The tool multiplies a power of two
    by 1000: the product has seven significant bits and is a double as
    long as it does not overflow. *)
Definition times (x : Number) (k : Z) : Number :=
  match x with
  | Finite z => overflow (z * k)
  | Infinity => Infinity
  end.

(** JSON values, as far as request bodies need them. *)
Inductive Json : Type :=
| JString (s : string)
| JBool (b : bool)
| JArray (items : list Json)
| JObject (fields : list (string * Json)).

Definition field (k : string) (j : Json) : option Json :=
  match j with
  | JObject fs =>
      match find (fun kv => String.eqb (fst kv) k) fs with
      | Some kv => Some (snd kv)
      | None => None
      end
  | _ => None
  end.

(** ** The Responses API, as the tool reads it *)

Record ContentPart : Type := mkPart {
  part_type : string;
  part_text : option string
}.

Record OutputItem : Type := mkItem {
  item_type : string;
  item_content : option (list ContentPart)
}.

Record Usage : Type := mkUsage {
  input_tokens : option Z;
  output_tokens : option Z;
  total_tokens : option Z
}.

(** The parsed JSON body of a submit or poll response. *)
Record ResponseData : Type := mkResponse {
  resp_id : string;
  resp_status : string;
  resp_error_message : option string;
  resp_output_text : option string;
  resp_output : option (list OutputItem);
  resp_usage : option Usage
}.

Record Request : Type := mkRequest {
  req_method : string;
  req_url : string;
  req_headers : list (string * string);
  req_body : option Json
}.

(** What one [fetch] followed by [.json()] can do. *)
Inductive FetchOutcome : Type :=
| FetchRejects (e : JsError)
    (* the fetch promise rejects: network failure *)
| NotOk (status : Z) (errorData : option string)
    (* [!response.ok]; [errorData] is the stringified body, [None] when
       the body is not JSON and the [.catch] supplies an empty object *)
| OkBadBody (e : JsError)
    (* a 2xx response whose [.json()] rejects *)
| OkJson (data : ResponseData).

(** ** Progress events (streaming-events, streaming-helpers) *)

Record RunStatusPart : Type := mkRunStatus {
  rs_runId : string;
  rs_phase : string;
  rs_phaseMessage : string;
  rs_completedSections : Z;
  rs_totalSections : Z;
  rs_timestamp : string
}.

Record SectionSpec : Type := mkSection {
  sec_id : string;
  sec_title : string;
  sec_description : string
}.

Record OutlinePart : Type := mkOutline {
  ol_runId : string;
  ol_topic : string;
  ol_sections : list SectionSpec;
  ol_timestamp : string
}.

Record Progress : Type := mkProgress {
  sourcesFound : option Z;
  keyFindings : option (list string);
  preview : option string
}.

Record SectionStatusPart : Type := mkSectionStatus {
  ss_runId : string;
  ss_sectionId : string;
  ss_sectionTitle : string;
  ss_status : string;
  ss_progress : option Progress;
  ss_error : option string;
  ss_timestamp : string
}.

Record HeartbeatPart : Type := mkHeartbeat {
  hb_runId : string;
  hb_message : string;
  hb_secondsSinceLastUpdate : Z;
  hb_timestamp : string
}.

Inductive StreamingEvent : Type :=
| RunStatus (e : RunStatusPart)
| Outline (e : OutlinePart)
| SectionStatus (e : SectionStatusPart)
| Heartbeat (e : HeartbeatPart).

Definition createRunStatus (runId phase phaseMessage : string)
    (completedSections totalSections : Z) (timestamp : string) : RunStatusPart :=
  mkRunStatus runId phase phaseMessage completedSections totalSections timestamp.

Definition createSectionStatus (runId sectionId sectionTitle status : string)
    (progress : option Progress) (error : option string) (timestamp : string)
    : SectionStatusPart :=
  mkSectionStatus runId sectionId sectionTitle status progress error timestamp.

(** [createPartId], from the listing of [streaming-events.ts] in
    PROJECT_SUMMARY.md. *)
Definition createPartId (event : StreamingEvent) : string :=
  match event with
  | RunStatus e => "run:" ++ rs_runId e
  | Outline e => "outline:" ++ ol_runId e
  | SectionStatus e => "section:" ++ ss_runId e ++ ":" ++ ss_sectionId e
  | Heartbeat e => "heartbeat:" ++ hb_runId e
  end.

Record DataPart : Type := mkDataPart {
  dp_type : string;
  dp_id : string;
  dp_data : StreamingEvent
}.

Definition formatAsDataPart (event : StreamingEvent) : DataPart :=
  let id := createPartId event in
  mkDataPart "data" id event.

(** The variant of an event and the fields that name its subject. *)
Definition eventRunId (event : StreamingEvent) : string :=
  match event with
  | RunStatus e => rs_runId e
  | Outline e => ol_runId e
  | SectionStatus e => ss_runId e
  | Heartbeat e => hb_runId e
  end.

Definition eventType (event : StreamingEvent) : string :=
  match event with
  | RunStatus _ => "run-status"
  | Outline _ => "outline"
  | SectionStatus _ => "section-status"
  | Heartbeat _ => "heartbeat"
  end.

Definition eventSectionId (event : StreamingEvent) : option string :=
  match event with
  | SectionStatus e => Some (ss_sectionId e)
  | _ => None
  end.

(** Two events describe the same logical entity. *)
Definition sameEntity (a b : StreamingEvent) : Prop :=
  eventType a = eventType b /\ eventRunId a = eventRunId b /\
  eventSectionId a = eventSectionId b.

(** ** Observable actions and the world *)

Inductive LogData : Type :=
| ToolExecution (phase : string) (attempt : option Z)
    (sectionStatus : option SectionStatusPart) (error : option string)
| ExternalApiCall (status : Z) (error : option string)
| PdfGeneration (phase : string) (error : option string).

Inductive Action : Type :=
| ASleep (ms : Number)
| AFetch (req : Request)
| ALog (data : LogData).

Record World : Type := mkWorld {
  now : Z;
  calls : nat;
  trace : list Action
}.

(** The remote service: the latency in milliseconds (a natural number,
    the clock never runs backwards) and the outcome of the n-th [fetch].
    The clock advances with timers and with calls of [fetch]; the time
    that logging and file operations take is not modelled. *)
Definition Env : Type := nat -> N * FetchOutcome.

(** ** The monad: state, exceptions, and running out of loop budget *)

Inductive Outcome (A : Type) : Type :=
| Ret (a : A)
| Throw (e : JsError)
| Diverge.
Arguments Ret {A} a.
Arguments Throw {A} e.
Arguments Diverge {A}.

Definition M (A : Type) : Type := World -> Outcome A * World.

Definition ret {A} (a : A) : M A := fun w => (Ret a, w).

Definition bind {A B} (m : M A) (k : A -> M B) : M B :=
  fun w =>
    match m w with
    | (Ret a, w') => k a w'
    | (Throw e, w') => (Throw e, w')
    | (Diverge, w') => (Diverge, w')
    end.

Definition throw {A} (e : JsError) : M A := fun w => (Throw e, w).

Definition diverge {A} : M A := fun w => (Diverge, w).

(** [try { m } catch (error) { ... }]: the exception becomes a value. *)
Definition try {A} (m : M A) : M (A + JsError) :=
  fun w =>
    match m w with
    | (Ret a, w') => (Ret (inl a), w')
    | (Throw e, w') => (Ret (inr e), w')
    | (Diverge, w') => (Diverge, w')
    end.

Declare Scope js_scope.
Delimit Scope js_scope with js.
Notation "x <- m ;; k" := (bind m (fun x => k))
  (at level 61, m at next level, right associativity) : js_scope.
Notation "m ;; k" := (bind m (fun _ => k))
  (at level 61, right associativity) : js_scope.
Local Open Scope js_scope.

Definition emit (a : Action) : M unit :=
  fun w => (Ret tt, mkWorld (now w) (calls w) (trace w ++ [a])%list).

(** [Date.now()] *)
Definition dateNow : M Z := fun w => (Ret (now w), w).

(** The longest delay of a timer in Node.js.  [setTimeout] with a delay
    above it or below 1 (or with [Infinity]) fires after 1 ms. *)
Definition TIMEOUT_MAX : Z := 2147483647.

Definition timerDelay (ms : Number) : Z :=
  match ms with
  | Finite z => if (1 <=? z) && (z <=? TIMEOUT_MAX) then z else 1
  | Infinity => 1
  end.

(** [await new Promise(resolve => setTimeout(resolve, ms))] *)
Definition sleep (ms : Number) : M unit :=
  fun w =>
    (Ret tt,
     mkWorld (now w + timerDelay ms) (calls w) (trace w ++ [ASleep ms])%list).

(** The server logger catches its own failures (logEvent), so a log call
    only records its payload.  [ToolExecution] is the payload of the
    tool [deepResearch], [PdfGeneration] that of the tool
    [pdfGenerator]. *)
Definition logToolExecution (phase : string) (attempt : option Z)
    (sectionStatus : option SectionStatusPart) (error : option string) : M unit :=
  emit (ALog (ToolExecution phase attempt sectionStatus error)).

Definition logExternalApiCall (status : Z) (error : option string) : M unit :=
  emit (ALog (ExternalApiCall status error)).

Definition logPdfGeneration (phase : string) (error : option string)
    : M unit :=
  emit (ALog (PdfGeneration phase error)).

(** ** Extraction of the report text (step 4 of an attempt) *)

Definition isTextPart (p : ContentPart) : bool :=
  String.eqb (part_type p) "output_text" || String.eqb (part_type p) "text".

(** The inner [for ... of item.content]: the first part of type
    [output_text] or [text] overwrites [content] and ends the loop. *)
Fixpoint scanParts (parts : list ContentPart) (content : option string)
    : option string :=
  match parts with
  | [] => content
  | contentItem :: rest =>
      if isTextPart contentItem then part_text contentItem
      else scanParts rest content
  end.

(** The outer [for ... of pollData.output], with [if (content) break]. *)
Fixpoint scanOutput (output : list OutputItem) (content : option string)
    : option string :=
  match output with
  | [] => content
  | item :: rest =>
      let content' :=
        match item_content item with
        | Some parts =>
            if String.eqb (item_type item) "message" then scanParts parts content
            else content
        | None => content
        end in
      if truthy content' then content' else scanOutput rest content'
  end.

Definition extractContent (pollData : ResponseData) : option string :=
  if truthy (resp_output_text pollData) then resp_output_text pollData
  else
    match resp_output pollData with
    | Some output => scanOutput output None
    | None => None
    end.

(** The extraction as the specification words it: the primary field
    first, then the first text-bearing item of the output list. *)
Definition firstTextOfItem (item : OutputItem) : option string :=
  match item_content item with
  | Some parts =>
      if String.eqb (item_type item) "message" then
        match find isTextPart parts with
        | Some p => part_text p
        | None => None
        end
      else None
  | None => None
  end.

Definition extractSpec (pollData : ResponseData) : option string :=
  if truthy (resp_output_text pollData) then resp_output_text pollData
  else
    match resp_output pollData with
    | Some output =>
        match find truthy (map firstTextOfItem output) with
        | Some text => text
        | None => None
        end
    | None => None
    end.

(** ** executeDeepResearch *)

Inductive ResultStatus : Type := completed | failed | in_progress.

Record TokenUsage : Type := mkTokenUsage {
  prompt_tokens : option Z;
  completion_tokens : option Z;
  tu_total_tokens : option Z
}.

Record DeepResearchResult : Type := mkResult {
  id : string;
  content : string;
  status : ResultStatus;
  error : option string;
  tokenUsage : option TokenUsage
}.

Definition systemPrompt : string :=
  "You are a deep research assistant. Provide comprehensive, well-researched answers with citations and sources where applicable.".

Definition POLL_INTERVAL_MS : Z := 5000.
Definition MAX_POLL_TIME_MS : Z := 600000.

(** The line feed of the template literal that joins prompt and query. *)
Definition LF : string := String (ascii_of_nat 10) EmptyString.

(** [Math.pow(2, attempt - 1) * 1000] *)
Definition backoffMs (attempt : Z) : Number :=
  times (Math_pow 2 (attempt - 1)) 1000.

(** [JSON.stringify(errorData)], where a body that is not JSON has been
    replaced by an empty object. *)
Definition stringifyErrorData (errorData : option string) : string :=
  match errorData with
  | Some s => s
  | None => "{}"
  end.

Definition isPending (st : string) : bool :=
  String.eqb st "queued" || String.eqb st "in_progress".

Definition isRemoteFailure (st : string) : bool :=
  String.eqb st "failed" || String.eqb st "cancelled".

Definition timeoutError : JsError :=
  mkError ("Deep research timed out after " ++ showZ (MAX_POLL_TIME_MS / 1000)
           ++ " seconds").

Definition noContentError : JsError :=
  mkError "No content returned from OpenAI deep research".

Definition submitError (st : Z) (errorData : option string) : JsError :=
  mkError ("OpenAI API error (" ++ showZ st ++ "): "
           ++ stringifyErrorData errorData).

Definition pollError (st : Z) (errorData : option string) : JsError :=
  mkError ("OpenAI poll error (" ++ showZ st ++ "): "
           ++ stringifyErrorData errorData).

Definition failedResult (msg : string) : DeepResearchResult :=
  mkResult "failed" "" failed (Some msg) None.

Section Tool.

(** The remote service and the module-level API key. *)
Variable env : Env.
Variable _openaiApiKey : option string.

Definition bearer : string := "Bearer " ++ showOpt _openaiApiKey.

Definition submitBody (query : string) : Json :=
  JObject
    [ ("model", JString "o4-mini-deep-research-2025-06-26");
      ("input",
        JArray
          [ JObject
              [ ("role", JString "user");
                ("content",
                  JArray
                    [ JObject
                        [ ("type", JString "input_text");
                          ("text", JString (systemPrompt ++ LF ++ LF ++ query)) ] ]) ] ]);
      ("reasoning", JObject [ ("summary", JString "auto") ]);
      ("tools", JArray [ JObject [ ("type", JString "web_search_preview") ] ]);
      ("background", JBool true) ].

Definition submitRequest (query : string) : Request :=
  mkRequest "POST" "https://api.openai.com/v1/responses"
    [ ("Content-Type", "application/json"); ("Authorization", bearer) ]
    (Some (submitBody query)).

Definition pollRequest (responseId : string) : Request :=
  mkRequest "GET" ("https://api.openai.com/v1/responses/" ++ responseId)
    [ ("Authorization", bearer) ] None.

(** One [await fetch(...)] with the reading of its body: the outcome is
    the environment's answer to this call; the clock advances by the
    latency of the call. *)
Definition fetch (req : Request) : M FetchOutcome :=
  fun w =>
    let answer := env (calls w) in
    (Ret (snd answer),
     mkWorld (now w + Z.of_N (fst answer)) (S (calls w))
             (trace w ++ [AFetch req])%list).

(** Step 2, the [while] loop.  [budget] bounds the number of polls; the
    loop asks for it only after the deadline check. *)
Fixpoint pollLoop (budget : nat) (responseId : string) (pollStartTime : Z)
    (pollData : ResponseData) (pollCount : Z) : M (ResponseData * Z) :=
  if isPending (resp_status pollData) then
    t <- dateNow ;;
    let elapsedMs := t - pollStartTime in
    if MAX_POLL_TIME_MS <? elapsedMs then throw timeoutError
    else
      match budget with
      | O => diverge
      | S budget' =>
          sleep POLL_INTERVAL_MS ;;
          let pollCount := pollCount + 1 in
          pollResponse <- fetch (pollRequest responseId) ;;
          match pollResponse with
          | FetchRejects e => throw e
          | NotOk st errorData => throw (pollError st errorData)
          | OkBadBody e => throw e
          | OkJson pollData =>
              (if pollCount mod 6 =? 0
               then logToolExecution "progress" None None None
               else ret tt) ;;
              pollLoop budget' responseId pollStartTime pollData pollCount
          end
      end
  else ret (pollData, pollCount).

(** Steps 3 and 4: the terminal status and the extraction. *)
Definition finishAttempt (responseId : string) (pollData : ResponseData)
    : M DeepResearchResult :=
  if isRemoteFailure (resp_status pollData) then
    throw (mkError (orElse (resp_error_message pollData)
                           ("Research " ++ resp_status pollData)))
  else
    let content := extractContent pollData in
    match content with
    | Some text =>
        if truthy content then
          logExternalApiCall 200 None ;;
          ret (mkResult responseId text completed None
                 (match resp_usage pollData with
                  | Some u =>
                      Some (mkTokenUsage (input_tokens u) (output_tokens u)
                                         (total_tokens u))
                  | None => None
                  end))
        else throw noContentError
    | None => throw noContentError
    end.

(** The body of the [try] block: one submit-through-terminal attempt. *)
Definition attemptOnce (budget : nat) (query : string)
    : M DeepResearchResult :=
  submitResponse <- fetch (submitRequest query) ;;
  match submitResponse with
  | FetchRejects e => throw e
  | NotOk st errorData =>
      let error := submitError st errorData in
      logExternalApiCall st (Some (message error)) ;;
      throw error
  | OkBadBody e => throw e
  | OkJson submitData =>
      let responseId := resp_id submitData in
      logToolExecution "progress" None None None ;;
      pollStartTime <- dateNow ;;
      polled <- pollLoop budget responseId pollStartTime submitData 0 ;;
      finishAttempt responseId (fst polled)
  end.

(** The wait before an attempt: nothing before the first one. *)
Definition retryBackoff (attempt : Z) : M unit :=
  if 1 <? attempt then
    logToolExecution "progress" (Some attempt) None None ;;
    sleep (backoffMs attempt)
  else ret tt.

(** The [for] loop over attempts.  [rounds] bounds the number of
    iterations; the loop asks for it only after its condition. *)
Fixpoint retryLoop (rounds budget : nat) (query : string)
    (attempt maxRetries : Z) : M DeepResearchResult :=
  if attempt <=? maxRetries then
    match rounds with
    | O => diverge
    | S rounds' =>
        retryBackoff attempt ;;
        r <- try (attemptOnce budget query) ;;
        match r with
        | inl result => ret result
        | inr error =>
            logExternalApiCall 500 (Some (message error)) ;;
            if attempt =? maxRetries then
              ret (failedResult
                     (orElse (Some (message error)) "Unknown error occurred"))
            else retryLoop rounds' budget query (attempt + 1) maxRetries
        end
    end
  else ret (failedResult "All retry attempts failed").

Definition executeDeepResearch (rounds budget : nat) (query : string)
    (maxRetries : Z) : M DeepResearchResult :=
  retryLoop rounds budget query 1 maxRetries.

End Tool.

(** Loop budgets under which no loop of [executeDeepResearch] is cut
    short (see the totality lemmas below). *)
Definition pollBudget : nat := 121.
Definition roundsFor (maxRetries : Z) : nat := Z.to_nat maxRetries.

(** The call made by the tool: the default retry ceiling. *)
Definition defaultMaxRetries : Z := 3.

(** ** deepResearchTool.execute *)

Record ToolArgs : Type := mkArgs {
  subtopic : string;
  parentTopic : string;
  sectionNumber : Z;
  sectionId : option string;
  runId : option string;
  generatePDF : bool
}.

Inductive ToolResult : Type :=
| ToolFailure (error : option string) (subtopic : string)
| ToolSuccess (subtopic markdownPath : string) (pdfPath : option string)
    (contentPreview : string).

Definition missingKeyError : JsError :=
  mkError "OPENAI_API_KEY is not set. Call setOpenAIApiKey first.".

Section Execute.

Variable env : Env.
Variable _openaiApiKey : option string.

(** [new Date().toISOString()] of a clock reading. *)
Variable toISOString : Z -> string.

(** The persistence collaborators.  [saveMarkdownReport] gives the path
    of the report or throws.  [pdfGenerator] stands for the steps of
    [generatePDF] up to the printed file (reading the report, converting
    it, printing it with the browser): they give the path of the PDF or
    throw the error that reaches the [catch]; [closeBrowser] is the
    [browser.close()] of the [finally] block after a successful print,
    which may throw as well. *)
Variable saveMarkdownReport : string -> string + JsError.
Variable pdfGenerator : string -> string + JsError.
Variable closeBrowser : string -> option JsError.

(** [generatePDF] of utils/pdf-generator.ts: the start is logged, then
    the success, and any error is logged and thrown again. *)
Definition pdf_generator_generatePDF (markdownPath : string) : M string :=
  logPdfGeneration "start" None ;;
  r <- try (match pdfGenerator markdownPath with
            | inl pdfPath =>
                logPdfGeneration "success" None ;;
                match closeBrowser markdownPath with
                | Some error => throw error
                | None => ret pdfPath
                end
            | inr error => throw error
            end) ;;
  match r with
  | inl pdfPath => ret pdfPath
  | inr error =>
      logPdfGeneration "error" (Some (message error)) ;;
      throw error
  end.

Definition timestamp : M string := fun w => (Ret (toISOString (now w)), w).

Definition emitSectionStatus (runId sectionId title st : string)
    (progress : option Progress) (error : option string) : M unit :=
  ts <- timestamp ;;
  logToolExecution "section-status" None
    (Some (createSectionStatus runId sectionId title st progress error ts))
    None.

Definition execute (args : ToolArgs) : M ToolResult :=
  let effectiveSectionId :=
    orElse (sectionId args) ("section-" ++ showZ (sectionNumber args)) in
  let effectiveRunId := orElse (runId args) "unknown" in
  logToolExecution "start" None None None ;;
  emitSectionStatus effectiveRunId effectiveSectionId (subtopic args)
    "running" None None ;;
  if negb (truthy _openaiApiKey) then
    logToolExecution "error" None None (Some (message missingKeyError)) ;;
    throw missingKeyError
  else
    result <- executeDeepResearch env _openaiApiKey
                (roundsFor defaultMaxRetries) pollBudget (subtopic args)
                defaultMaxRetries ;;
    match status result with
    | failed =>
        emitSectionStatus effectiveRunId effectiveSectionId (subtopic args)
          "error" None (error result) ;;
        logToolExecution "error" None None
          (Some (orElse (error result) "Unknown error")) ;;
        ret (ToolFailure (error result) (subtopic args))
    | _ =>
        match saveMarkdownReport (content result) with
        | inr e => throw e
        | inl filePath =>
            pdfPath <-
              (if generatePDF args then
                 generated <- try (pdf_generator_generatePDF filePath) ;;
                 match generated with
                 | inl p => ret (Some p)
                 | inr _ => ret None
                 end
               else ret None) ;;
            let contentPreview :=
              substring 0 200 (content result) ++ "..." in
            emitSectionStatus effectiveRunId effectiveSectionId
              (subtopic args) "done"
              (Some (mkProgress None None (Some contentPreview))) None ;;
            logToolExecution "success" None None None ;;
            ret (ToolSuccess (subtopic args) filePath pdfPath contentPreview)
        end
    end.

End Execute.


Definition effectiveSectionIdOf (args : ToolArgs) : string :=
  orElse (sectionId args) ("section-" ++ showZ (sectionNumber args)).

(** ** The end of a run: the [onFinish] hooks *)

(** What the stream hands to the server's [onFinish]: the finish reason
    and the results of the tool calls of the run. *)
Record StreamResult : Type := mkStreamResult {
  finishReason : string;
  toolResults : list ToolResult
}.

(** Server side (routes/api/chat/+server.ts): the final run status. *)
Definition onFinish (runId : string) (result : StreamResult)
    (timestamp : string) : RunStatusPart :=
  createRunStatus runId "complete" "Research complete" 5 5 timestamp.

(** Client side (+page.svelte): the update of the displayed run status. *)
Definition onFinishClient (runStatus : option RunStatusPart)
    : option RunStatusPart :=
  match runStatus with
  | Some rs =>
      Some (mkRunStatus (rs_runId rs) "complete" "Research complete!"
              (rs_totalSections rs) (rs_totalSections rs) (rs_timestamp rs))
  | None => None
  end.

Definition jobFailed (r : ToolResult) : bool :=
  match r with
  | ToolFailure _ _ => true
  | ToolSuccess _ _ _ _ => false
  end.

(** ** Reading a trace *)

Definition isSubmit (a : Action) : bool :=
  match a with
  | AFetch req => String.eqb (req_method req) "POST"
  | _ => false
  end.

Definition isPoll (a : Action) : bool :=
  match a with
  | AFetch req => String.eqb (req_method req) "GET"
  | _ => false
  end.

Definition isFetch (a : Action) : bool :=
  match a with
  | AFetch _ => true
  | _ => false
  end.

Definition sleeps (t : list Action) : list Number :=
  flat_map (fun a => match a with ASleep ms => [ms] | _ => [] end) t.

Definition submitCount (t : list Action) : nat := List.length (filter isSubmit t).
Definition pollCountOf (t : list Action) : nat := List.length (filter isPoll t).

Definition initialWorld : World := mkWorld 0 0 [].

(** Environments given by a finite script; past its end the service
    refuses every call. *)
Definition scripted (script : list (N * FetchOutcome)) : Env :=
  fun n => nth n script (0%N, FetchRejects (mkError "fetch failed")).

(** ** Well-formed requests and growth of the world *)

Definition header (k : string) (headers : list (string * string))
    : option string :=
  match find (fun kv => String.eqb (fst kv) k) headers with
  | Some kv => Some (snd kv)
  | None => None
  end.

(** The wire format of a submit request, as the specification of the
    outbound interface words it. *)
Definition isSubmitShape (key : option string) (query : string)
    (req : Request) : Prop :=
  req_method req = "POST" /\
  req_url req = "https://api.openai.com/v1/responses" /\
  header "Authorization" (req_headers req) = Some ("Bearer " ++ showOpt key) /\
  exists body,
    req_body req = Some body /\
    (exists model, field "model" body = Some (JString model)) /\
    field "input" body =
      Some (JArray
              [ JObject
                  [ ("role", JString "user");
                    ("content",
                      JArray
                        [ JObject
                            [ ("type", JString "input_text");
                              ("text",
                                JString (systemPrompt ++ LF ++ LF ++ query)) ] ]) ] ]) /\
    field "reasoning" body = Some (JObject [ ("summary", JString "auto") ]) /\
    field "tools" body =
      Some (JArray [ JObject [ ("type", JString "web_search_preview") ] ]) /\
    field "background" body = Some (JBool true).

(** The wire format of a poll: a [GET] of the response by its id, with
    the bearer token and no body. *)
Definition isPollShape (key : option string) (req : Request) : Prop :=
  req_method req = "GET" /\
  (exists responseId,
     req_url req = "https://api.openai.com/v1/responses/" ++ responseId) /\
  header "Authorization" (req_headers req) = Some ("Bearer " ++ showOpt key) /\
  req_body req = None.

(** The requests of one attempt: the submit request, then polls only. *)
Definition isAttemptBlock (key : option string) (query : string)
    (block : list Request) : Prop :=
  match block with
  | [] => False
  | submit :: polls =>
      isSubmitShape key query submit /\ Forall (isPollShape key) polls
  end.

(** An action that is no request, or a poll. *)
Definition pollAction (key : option string) (a : Action) : Prop :=
  match a with
  | AFetch req => isPollShape key req
  | _ => True
  end.

(** The two requests the tool ever sends. *)
Definition okAction (key : option string) (query : string) (a : Action)
    : Prop :=
  match a with
  | AFetch req =>
      req = submitRequest key query \/ exists responseId, req = pollRequest key responseId
  | _ => True
  end.

(** [w'] is [w] after some more well-formed actions; time does not go
    back. *)
Definition extends (key : option string) (query : string) (w w' : World)
    : Prop :=
  exists t,
    trace w' = (trace w ++ t)%list /\ Forall (okAction key query) t /\
    now w <= now w'.

(** The failure of a submit call, if it fails without a parsed body. *)
Definition submitFailure (o : FetchOutcome) : option JsError :=
  match o with
  | FetchRejects e => Some e
  | NotOk st errorData => Some (submitError st errorData)
  | OkBadBody e => Some e
  | OkJson _ => None
  end.

(** The result of [executeDeepResearch] is one of its two terminal
    shapes. *)
Definition wellFormedResult (r : DeepResearchResult) : Prop :=
  (status r = completed /\ content r <> "" /\ error r = None) \/
  (status r = failed /\ content r = "" /\
   exists msg, error r = Some msg /\ msg <> "").

(** The requests of a trace, in order. *)
Definition requests (t : list Action) : list Request :=
  flat_map (fun a => match a with AFetch req => [req] | _ => [] end) t.

(** ** Scenarios *)

Definition testKey : option string := Some "sk-test".

Definition response (responseId st : string) (output_text : option string)
    : ResponseData :=
  mkResponse responseId st None output_text None None.

(** The service reports [failed] for the first job and completes the
    second one. *)
Definition remoteFailureThenSuccess : Env :=
  scripted
    [ (0%N, OkJson (response "resp_1" "failed" None));
      (0%N, OkJson (response "resp_2" "completed" (Some "Report"))) ].

(** The first job is still [in_progress] when its deadline has passed;
    the second one completes at once. *)
Definition timeoutThenSuccess : Env :=
  scripted
    [ (0%N, OkJson (response "resp_1" "in_progress" None));
      (600001%N, OkJson (response "resp_1" "in_progress" None));
      (0%N, OkJson (response "resp_2" "completed" (Some "Report"))) ].

(** The first job completes without any text; the second one has text. *)
Definition noContentThenSuccess : Env :=
  scripted
    [ (0%N, OkJson (response "resp_1" "completed" None));
      (0%N, OkJson (response "resp_2" "completed" (Some "Report"))) ].

(** Every call is refused; the last error has an empty message. *)
Definition alwaysRejectsSilently : Env :=
  fun _ => (0%N, FetchRejects (mkError "")).

(** Every call is answered by a 503 with a JSON error body. *)
Definition alwaysUnavailable : Env :=
  fun _ => (0%N, NotOk 503 (Some "{}")).

(** The job never leaves [in_progress]. *)
Definition neverFinishes : Env :=
  fun _ => (0%N, OkJson (response "resp_1" "in_progress" None)).

(** The job ended in its terminal failure state after a single
    submit-through-terminal attempt. *)
Definition endsFailedAfterOneAttempt (run : Outcome DeepResearchResult * World)
    : Prop :=
  (exists r, fst run = Ret r /\ status r = failed) /\
  submitCount (trace (snd run)) = 1%nat.

Definition failedJob (title : string) : ToolResult :=
  ToolFailure (Some "Deep research timed out after 600 seconds") title.

(** A run of five sections in which every job failed. *)
Definition allJobsFailed : StreamResult :=
  mkStreamResult "stop"
    [ failedJob "one"; failedJob "two"; failedJob "three"; failedJob "four";
      failedJob "five" ].

(** The terminal phase the specification assigns to a run whose jobs
    have all ended. *)
Definition specifiedPhase (results : list ToolResult) : string :=
  if forallb jobFailed results then "error" else "complete".

Definition sectionThree : ToolArgs :=
  mkArgs "Battery chemistry" "Electric vehicles" 3 None (Some "run-1") false.

(** A clock rendering and persistence collaborators for the scenarios. *)
Definition isoOfClock (t : Z) : string := showZ t.
Definition savesTo (path : string) (content : string) : string + JsError :=
  inl path.
Definition noPdf (path : string) : string + JsError :=
  inr (mkError "PDF generation failed").
Definition closesQuietly (path : string) : option JsError := None.

(** The world in which [execute] starts the job: the start of the tool
    and the [running] status have been logged. *)
Definition announced (toISOString : Z -> string) (args : ToolArgs) (w : World)
    : World :=
  mkWorld (now w) (calls w)
    (trace w ++
     [ ALog (ToolExecution "start" None None None);
       ALog (ToolExecution "section-status" None
               (Some (createSectionStatus (orElse (runId args) "unknown")
                        (effectiveSectionIdOf args) (subtopic args) "running"
                        None None (toISOString (now w))))
               None) ])%list.

(** The [error] status event of a section. *)
Definition errorStatusEvent (toISOString : Z -> string) (args : ToolArgs)
    (cause : option string) (w : World) : Action :=
  ALog (ToolExecution "section-status" None
          (Some (createSectionStatus (orElse (runId args) "unknown")
                   (effectiveSectionIdOf args) (subtopic args) "error"
                   None cause (toISOString (now w))))
          None).

(** The outcomes of the attempts that a run makes, in order: the outcome
    of the [try] block in each iteration of the [for] loop. *)
Fixpoint attemptsOf (env : Env) (key : option string) (rounds budget : nat)
    (query : string) (attempt maxRetries : Z) (w : World)
    : list (Outcome DeepResearchResult) :=
  if attempt <=? maxRetries then
    match rounds with
    | O => []
    | S rounds' =>
        let tried :=
          attemptOnce env key budget query (snd (retryBackoff attempt w)) in
        fst tried ::
        match fst tried with
        | Throw error =>
            if attempt =? maxRetries then []
            else
              attemptsOf env key rounds' budget query (attempt + 1) maxRetries
                (snd (logExternalApiCall 500 (Some (message error))
                        (snd tried)))
        | _ => []
        end
    end
  else [].

(** The attempt returned a result. *)
Definition succeeded (o : Outcome DeepResearchResult) : bool :=
  match o with
  | Ret _ => true
  | _ => false
  end.

(** What one attempt can end with: a completed result, or an error for
    the retry loop. *)
Definition attemptOutcomeOk (o : Outcome DeepResearchResult) : Prop :=
  match o with
  | Ret r => status r = completed /\ content r <> "" /\ error r = None
  | Throw _ => True
  | Diverge => False
  end.

(** ** Counting what a run does *)

(** [w'] is [w] after some more actions, all of them in [P]. *)
Definition appends (P : Action -> Prop) (w w' : World) : Prop :=
  exists t, trace w' = (trace w ++ t)%list /\ Forall P t.

(** The statuses of the section-status events of a trace, in order. *)
Definition sectionStatuses (t : list Action) : list string :=
  flat_map
    (fun a =>
       match a with
       | ALog (ToolExecution _ _ (Some ss) _) => [ss_status ss]
       | _ => []
       end) t.

Definition notSubmit (a : Action) : Prop := isSubmit a = false.
Definition notFetch (a : Action) : Prop := isFetch a = false.
Definition notSleep (a : Action) : Prop := sleeps [a] = [].

(** The waits of [n] consecutive rounds of the retry loop, the first of
    which is round [attempt]. *)
Fixpoint retryDelays (attempt : Z) (n : nat) : list Number :=
  match n with
  | O => []
  | S n' =>
      ((if 1 <? attempt then [backoffMs attempt] else [])
       ++ retryDelays (attempt + 1) n')%list
  end.

Definition sumZ (l : list Z) : Z := fold_right Z.add 0 l.

(** The time the timers of a list of delays take. *)
Definition waited (delays : list Number) : Z := sumZ (map timerDelay delays).

(** The most polls one attempt can make: a poll every [POLL_INTERVAL_MS]
    until [MAX_POLL_TIME_MS] is exceeded. *)
Definition maxPollsPerAttempt : nat := 121.

(** The phases of the log entries of the tool [deepResearch], in
    order. *)
Definition toolPhases (t : list Action) : list string :=
  flat_map
    (fun a =>
       match a with
       | ALog (ToolExecution phase _ _ _) => [phase]
       | _ => []
       end) t.

(** The same call with another value of the [generatePDF] flag. *)
Definition withGeneratePDF (flag : bool) (args : ToolArgs) : ToolArgs :=
  mkArgs (subtopic args) (parentTopic args) (sectionNumber args)
    (sectionId args) (runId args) flag.

(** The string holds no colon (as the UUIDs used for run ids). *)
Fixpoint noColon (s : string) : bool :=
  match s with
  | EmptyString => true
  | String c s' => negb (Ascii.eqb c ":") && noColon s'
  end.


(** The preview that [execute] derives from a report. *)
Definition previewOf (content : string) : string :=
  substring 0 200 content ++ "...".

(** The [done] status event of a section. *)
Definition doneStatusEvent (toISOString : Z -> string) (args : ToolArgs)
    (content : string) (w : World) : Action :=
  ALog (ToolExecution "section-status" None
          (Some (createSectionStatus (orElse (runId args) "unknown")
                   (effectiveSectionIdOf args) (subtopic args) "done"
                   (Some (mkProgress None None (Some (previewOf content))))
                   None (toISOString (now w))))
          None).

(** The PDF path that [execute] reports. *)
Definition pdfPathOf (pdfGenerator : string -> string + JsError)
    (closeBrowser : string -> option JsError)
    (args : ToolArgs) (filePath : string) : option string :=
  if generatePDF args then
    match pdfGenerator filePath, closeBrowser filePath with
    | inl p, None => Some p
    | _, _ => None
    end
  else None.

(** What the PDF generator logs during a call of [execute]. *)
Definition pdfLogsOf (pdfGenerator : string -> string + JsError)
    (closeBrowser : string -> option JsError)
    (args : ToolArgs) (filePath : string) : list Action :=
  if generatePDF args then
    ALog (PdfGeneration "start" None) ::
    match pdfGenerator filePath with
    | inl _ =>
        ALog (PdfGeneration "success" None) ::
        match closeBrowser filePath with
        | Some e => [ALog (PdfGeneration "error" (Some (message e)))]
        | None => []
        end
    | inr e => [ALog (PdfGeneration "error" (Some (message e)))]
    end
  else [].

(** ** Report files (utils/file-operations.ts, utils/pdf-generator.ts)

    Strings are sequences of code units below 256 (Latin-1); the
    character classes of the regular expressions and [toLowerCase] are
    modelled on that range. *)

Definition codeIn (lo hi : nat) (c : ascii) : bool :=
  Nat.leb lo (nat_of_ascii c) && Nat.leb (nat_of_ascii c) hi.

(** [toLowerCase], one character at a time: A-Z, and the capital letters
    of Latin-1 (all of 192-222 but the multiplication sign). *)
Definition toLowerChar (c : ascii) : ascii :=
  if codeIn 65 90 c || codeIn 192 214 c || codeIn 216 222 c
  then ascii_of_nat (nat_of_ascii c + 32)
  else c.

Fixpoint mapString (f : ascii -> ascii) (s : string) : string :=
  match s with
  | EmptyString => EmptyString
  | String c s' => String (f c) (mapString f s')
  end.

Definition toLowerCase (s : string) : string := mapString toLowerChar s.

(** [\w]: letters, digits and the underscore. *)
Definition isWordChar (c : ascii) : bool :=
  codeIn 97 122 c || codeIn 65 90 c || codeIn 48 57 c || Ascii.eqb c "_".

(** [\s], and the characters [trim] removes: tab, line feed, vertical
    tab, form feed, carriage return, space and no-break space. *)
Definition isSpaceChar (c : ascii) : bool :=
  codeIn 9 13 c || codeIn 32 32 c || codeIn 160 160 c.

Definition isHyphen (c : ascii) : bool := Ascii.eqb c "-".

(** [replace(/[^...]/g, '')]: the characters that satisfy [keep] stay. *)
Fixpoint filterChars (keep : ascii -> bool) (s : string) : string :=
  match s with
  | EmptyString => EmptyString
  | String c s' =>
      if keep c then String c (filterChars keep s') else filterChars keep s'
  end.

(** [replace(/p+/g, '-')]: every maximal run of characters in [p]
    becomes one hyphen.  [inRun] tells that the run has begun. *)
Fixpoint collapseRuns (p : ascii -> bool) (inRun : bool) (s : string)
    : string :=
  match s with
  | EmptyString => EmptyString
  | String c s' =>
      if p c then
        if inRun then collapseRuns p true s'
        else String "-" (collapseRuns p true s')
      else String c (collapseRuns p false s')
  end.

Fixpoint trimStart (s : string) : string :=
  match s with
  | EmptyString => EmptyString
  | String c s' => if isSpaceChar c then trimStart s' else s
  end.

Fixpoint trimEnd (s : string) : string :=
  match s with
  | EmptyString => EmptyString
  | String c s' =>
      match trimEnd s' with
      | EmptyString => if isSpaceChar c then EmptyString else String c EmptyString
      | rest => String c rest
      end
  end.

Definition trim (s : string) : string := trimEnd (trimStart s).

Definition slugify (text : string) : string :=
  trim
    (collapseRuns isHyphen false
       (collapseRuns isSpaceChar false
          (filterChars (fun c => isWordChar c || isSpaceChar c || isHyphen c)
             (toLowerCase text)))).

(** [padStart(targetLength, pad)] with a pad of one character. *)
Fixpoint padding (n : nat) (pad : ascii) : string :=
  match n with
  | O => EmptyString
  | S n' => String pad (padding n' pad)
  end.

Definition padStart (targetLength : nat) (pad : ascii) (s : string) : string :=
  padding (targetLength - String.length s) pad ++ s.

(** The file name of a report in [saveMarkdownReport], without and with
    its extension, and its path in a directory given with its final
    separator. *)
Definition reportStem (sectionNumber : Z) (subtopic : string) : string :=
  padStart 2 "0" (showZ sectionNumber) ++ "_" ++ slugify subtopic.

Definition reportFileName (sectionNumber : Z) (subtopic : string) : string :=
  reportStem sectionNumber subtopic ++ ".md".

Definition reportPath (dir : string) (sectionNumber : Z) (subtopic : string)
    : string :=
  dir ++ reportFileName sectionNumber subtopic.

(** [s.replace(pattern, replacement)] with a string pattern: the first
    occurrence is replaced. *)
Fixpoint replaceFirst (pattern replacement s : string) : string :=
  if prefix pattern s then
    replacement ++ substring (String.length pattern) (String.length s) s
  else
    match s with
    | EmptyString => EmptyString
    | String c s' => String c (replaceFirst pattern replacement s')
    end.

(** The default output path of [generatePDF]. *)
Definition defaultPdfPath (markdownPath : string) : string :=
  replaceFirst ".md" ".pdf" markdownPath.

(** The pattern occurs in the string. *)
Fixpoint occurs (pattern s : string) : bool :=
  prefix pattern s ||
  match s with
  | EmptyString => false
  | String _ s' => occurs pattern s'
  end.

Fixpoint allChars (p : ascii -> bool) (s : string) : bool :=
  match s with
  | EmptyString => true
  | String c s' => p c && allChars p s'
  end.

(** The characters of a slug: lower-case letters, digits, underscore
    and hyphen. *)
Definition isSlugChar (c : ascii) : bool :=
  codeIn 97 122 c || codeIn 48 57 c || Ascii.eqb c "_" || Ascii.eqb c "-".

(** No two hyphens in a row; [prevHyphen] tells that the character
    before the string is a hyphen. *)
Fixpoint noDoubleHyphen (prevHyphen : bool) (s : string) : bool :=
  match s with
  | EmptyString => true
  | String c s' =>
      if isHyphen c then negb prevHyphen && noDoubleHyphen true s'
      else noDoubleHyphen false s'
  end.

(** A digit or the minus sign. *)
Definition isNumericChar (c : ascii) : bool :=
  codeIn 48 57 c || Ascii.eqb c "-".

(** [p] and [q] have the same length and [p] comes first in the order
    of code units. *)
Definition sortsBefore (p q : string) : bool :=
  Nat.eqb (String.length p) (String.length q) &&
  match String.compare p q with
  | Lt => true
  | _ => false
  end.

(** ** The server logger (logging/server-logger.ts): redaction *)

(** The values a log payload is made of.  Numbers are integers here:
    the logger never looks into a number.  An object is the list of its
    own enumerable entries, as [Object.entries] and [JSON.stringify] see
    it: each key once. *)
Inductive JsValue : Type :=
| JsUndefined
| JsNull
| JsBoolean (b : bool)
| JsNumber (n : Z)
| JsString (s : string)
| JsArrayOf (items : list JsValue)
| JsObjectOf (entries : list (string * JsValue)).

(** Structural induction through arrays and objects. *)
Section JsValueInduction.

Variable P : JsValue -> Prop.
Hypothesis P_undefined : P JsUndefined.
Hypothesis P_null : P JsNull.
Hypothesis P_boolean : forall b, P (JsBoolean b).
Hypothesis P_number : forall n, P (JsNumber n).
Hypothesis P_string : forall s, P (JsString s).
Hypothesis P_array : forall items, Forall P items -> P (JsArrayOf items).
Hypothesis P_object :
  forall entries, Forall (fun kv => P (snd kv)) entries -> P (JsObjectOf entries).

Fixpoint JsValue_induction (v : JsValue) : P v :=
  match v with
  | JsUndefined => P_undefined
  | JsNull => P_null
  | JsBoolean b => P_boolean b
  | JsNumber n => P_number n
  | JsString s => P_string s
  | JsArrayOf items =>
      P_array items
        ((fix all (l : list JsValue) : Forall P l :=
            match l with
            | [] => Forall_nil P
            | x :: l' => Forall_cons x (JsValue_induction x) (all l')
            end) items)
  | JsObjectOf entries =>
      P_object entries
        ((fix all (l : list (string * JsValue))
            : Forall (fun kv => P (snd kv)) l :=
            match l with
            | [] => Forall_nil _
            | kv :: l' =>
                Forall_cons kv (JsValue_induction (snd kv)) (all l')
            end) entries)
  end.

End JsValueInduction.

(** Matching without regard to the case of ASCII letters, as the [i]
    flag does for a pattern of ASCII characters. *)
Definition asciiLower (c : ascii) : ascii :=
  if codeIn 65 90 c then ascii_of_nat (nat_of_ascii c + 32) else c.

Fixpoint prefixCI (pattern s : string) : bool :=
  match pattern, s with
  | EmptyString, _ => true
  | String _ _, EmptyString => false
  | String a pattern', String b s' =>
      Ascii.eqb a (asciiLower b) && prefixCI pattern' s'
  end.

Fixpoint occursCI (pattern s : string) : bool :=
  prefixCI pattern s ||
  match s with
  | EmptyString => false
  | String _ s' => occursCI pattern s'
  end.

(** The words that [SECRET_KEY_PATTERN],
    [/api[_-]?key|auth(orization)?|token|password|secret|bearer/i],
    looks for. *)
Definition secretWords : list string :=
  [ "apikey"; "api_key"; "api-key"; "auth"; "authorization"; "token";
    "password"; "secret"; "bearer" ].

(** [SECRET_KEY_PATTERN.test(key)] *)
Definition isSecretKey (key : string) : bool :=
  existsb (fun word => occursCI word key) secretWords.

Definition REDACTED : string := "[REDACTED]".

(** [result[key] = value] on the plain object that [redactSecrets]
    builds: the entry the assignment adds.  The key [__proto__] reaches
    the setter of [Object.prototype] instead, which adds no entry. *)
Definition assigned (key : string) (value : JsValue)
    : list (string * JsValue) :=
  if String.eqb key "__proto__" then [] else [(key, value)].

Fixpoint redactSecrets (obj : JsValue) : JsValue :=
  match obj with
  | JsArrayOf items => JsArrayOf (map redactSecrets items)
  | JsObjectOf entries =>
      JsObjectOf
        (flat_map
           (fun kv : string * JsValue =>
              let (key, value) := kv in
              assigned key
                match value with
                | JsString _ =>
                    if isSecretKey key then JsString REDACTED else value
                | JsArrayOf _ | JsObjectOf _ => redactSecrets value
                | _ => value
                end)
           entries)
  | _ => obj
  end.

(** The payload without the entries whose key is [__proto__], at any
    depth. *)
Fixpoint withoutProto (v : JsValue) : JsValue :=
  match v with
  | JsArrayOf items => JsArrayOf (map withoutProto items)
  | JsObjectOf entries =>
      JsObjectOf
        (flat_map
           (fun kv : string * JsValue =>
              let (key, value) := kv in assigned key (withoutProto value))
           entries)
  | _ => v
  end.

(** No key of the payload is [__proto__]. *)
Fixpoint protoFree (v : JsValue) : bool :=
  match v with
  | JsArrayOf items => forallb protoFree items
  | JsObjectOf entries =>
      forallb
        (fun kv : string * JsValue =>
           let (key, value) := kv in
           negb (String.eqb key "__proto__") && protoFree value)
        entries
  | _ => true
  end.

(** The strings that sit directly under a secret key, in an object at
    any depth. *)
Fixpoint secretStrings (v : JsValue) : list string :=
  match v with
  | JsArrayOf items => flat_map secretStrings items
  | JsObjectOf entries =>
      flat_map
        (fun kv : string * JsValue =>
           let (key, value) := kv in
           match value with
           | JsString s => if isSecretKey key then [s] else []
           | _ => secretStrings value
           end)
        entries
  | _ => []
  end.

(** ** The page (routes/+page.svelte): progress state of the client *)

(** A JavaScript [Map] with string keys: entries in insertion order;
    [set] on a present key replaces the value in place. *)
Fixpoint mapSet {V : Type} (k : string) (v : V) (m : list (string * V))
    : list (string * V) :=
  match m with
  | [] => [(k, v)]
  | (k', v') :: m' =>
      if String.eqb k' k then (k, v) :: m' else (k', v') :: mapSet k v m'
  end.

Record ToolCallArgs : Type := mkToolCallArgs {
  tc_sectionNumber : option Z;
  tc_subtopic : option string
}.

Record ClientState : Type := mkClient {
  input : string;
  runStatus : option RunStatusPart;
  sections : list (string * SectionStatusPart)
}.

Definition initialClient : ClientState := mkClient "" None [].

(** [onToolCall] of the chat: a [deepResearch] call moves the run to
    [researching] and records the section as [running]. *)
Definition onToolCall (toolName : string) (args : option ToolCallArgs)
    (timestamp : string) (st : ClientState) : ClientState :=
  if String.eqb toolName "deepResearch" then
    let runStatus' :=
      match runStatus st with
      | Some rs =>
          if negb (String.eqb (rs_phase rs) "researching") then
            Some (mkRunStatus (rs_runId rs) "researching"
                    "Deep research in progress..." (rs_completedSections rs)
                    (rs_totalSections rs) (rs_timestamp rs))
          else Some rs
      | None => None
      end in
    let fallback := Z.of_nat (List.length (sections st)) + 1 in
    let number :=
      match args with
      | Some a =>
          match tc_sectionNumber a with
          | Some n => if n =? 0 then fallback else n
          | None => fallback
          end
      | None => fallback
      end in
    let sectionId := "section-" ++ showZ number in
    let newSection :=
      mkSectionStatus
        (orElse (option_map rs_runId runStatus') "unknown")
        sectionId
        (orElse (match args with Some a => tc_subtopic a | None => None end)
                "Research Section")
        "running" None None timestamp in
    mkClient (input st) runStatus' (mapSet sectionId newSection (sections st))
  else st.

(** [handleSubmit]: nothing happens on blank input or while a request is
    running; otherwise a new run starts in phase [planning]. *)
Definition handleSubmit (isLoading : bool) (currentRunId timestamp : string)
    (st : ClientState) : ClientState :=
  if String.eqb (trim (input st)) "" || isLoading then st
  else
    mkClient ""
      (Some (mkRunStatus currentRunId "planning" "Planning research outline..."
               0 5 timestamp))
      [].

Inductive ClientEvent : Type :=
| Typed (text : string)
| SubmitForm (isLoading : bool) (currentRunId timestamp : string)
| ToolCall (toolName : string) (args : option ToolCallArgs)
    (timestamp : string)
| Finish.

Definition clientStep (st : ClientState) (ev : ClientEvent) : ClientState :=
  match ev with
  | Typed text => mkClient text (runStatus st) (sections st)
  | SubmitForm isLoading currentRunId timestamp =>
      handleSubmit isLoading currentRunId timestamp st
  | ToolCall toolName args timestamp => onToolCall toolName args timestamp st
  | Finish => mkClient (input st) (onFinishClient (runStatus st)) (sections st)
  end.

Definition clientRun (events : list ClientEvent) : ClientState :=
  fold_left clientStep events initialClient.

(** What holds of the progress state at any time. *)
Definition sectionShown (owner : string) (kv : string * SectionStatusPart)
    : Prop :=
  fst kv = ss_sectionId (snd kv) /\ ss_status (snd kv) = "running" /\
  ss_progress (snd kv) = None /\ ss_error (snd kv) = None /\
  ss_runId (snd kv) = owner.

Definition clientInvariant (st : ClientState) : Prop :=
  NoDup (map fst (sections st)) /\
  match runStatus st with
  | Some rs =>
      rs_totalSections rs = 5 /\
      (rs_completedSections rs = 0 \/ rs_completedSections rs = 5) /\
      In (rs_phase rs) ["planning"; "researching"; "complete"] /\
      Forall (sectionShown (orElse (Some (rs_runId rs)) "unknown"))
        (sections st)
  | None => Forall (sectionShown "unknown") (sections st)
  end.

Definition isDeepResearchCall (ev : ClientEvent) : bool :=
  match ev with
  | ToolCall toolName _ _ => String.eqb toolName "deepResearch"
  | _ => false
  end.

(** ** The routes: API keys (routes/api/config, routes/api/chat) *)

Record ConfigStatus : Type := mkConfigStatus {
  openaiConfigured : bool;
  tavilyConfigured : bool;
  allConfigured : bool
}.

(** [!!key] on a string. *)
Definition truthyString (key : string) : bool := negb (String.eqb key "").

(** [GET /api/config] *)
Definition configGET (openaiKey tavilyKey : string) : ConfigStatus :=
  mkConfigStatus
    (truthyString openaiKey && Nat.ltb 0 (String.length openaiKey))
    (truthyString tavilyKey && Nat.ltb 0 (String.length tavilyKey))
    (truthyString openaiKey && truthyString tavilyKey
     && Nat.ltb 0 (String.length openaiKey)
     && Nat.ltb 0 (String.length tavilyKey)).

(** The module-level keys of the two tools. *)
Record ToolKeys : Type := mkToolKeys {
  openaiApiKey : option string;
  tavilyApiKey : option string
}.

Definition setOpenAIApiKey (key : string) (keys : ToolKeys) : ToolKeys :=
  mkToolKeys (Some key) (tavilyApiKey keys).

Definition setTavilyApiKey (key : string) (keys : ToolKeys) : ToolKeys :=
  mkToolKeys (openaiApiKey keys) (Some key).

(** The head of [POST /api/chat]: the keys are handed to the tools, and
    the request is refused with status 500 if one of them is missing. *)
Definition chatKeyCheck (openaiKey tavilyKey : string) (keys : ToolKeys)
    : ToolKeys * option Z :=
  let keys1 :=
    if truthyString openaiKey then setOpenAIApiKey openaiKey keys else keys in
  let keys2 :=
    if truthyString tavilyKey then setTavilyApiKey tavilyKey keys1 else keys1 in
  if negb (truthyString openaiKey) || negb (truthyString tavilyKey)
  then (keys2, Some 500)
  else (keys2, None).

(** * Properties *)

(** ** Strings and truthiness *)

Lemma truthy_true_iff (v : option string) :
  truthy v = true <-> exists s, v = Some s /\ s <> "".
Proof.
  destruct v as [s|]; simpl.
  - destruct (String.eqb_spec s ""); simpl; split.
    + discriminate.
    + intros (s' & [= <-] & Hne). contradiction.
    + intros _. now exists s.
    + reflexivity.
  - split; [discriminate | intros (s & [=] & _)].
Qed.

Lemma orElse_nonempty (v : option string) (d : string) :
  d <> "" -> orElse v d <> "".
Proof.
  intros Hd. destruct v as [s|]; simpl; trivial.
  destruct (String.eqb_spec s ""); trivial.
Qed.

Lemma orElse_truthy (v : option string) (d : string) :
  truthy v = true -> Some (orElse v d) = v.
Proof.
  destruct v as [s|]; simpl; [|discriminate].
  now destruct (String.eqb s "").
Qed.

Lemma append_inj_l (p a b : string) : p ++ a = p ++ b -> a = b.
Proof.
  induction p as [|c p IH]; simpl; intros H; [assumption|].
  injection H as H. auto.
Qed.

Lemma remoteFailure_not_pending (st : string) :
  isRemoteFailure st = true -> isPending st = false.
Proof.
  unfold isRemoteFailure, isPending. intros H.
  apply orb_true_iff in H as [H | H]; apply String.eqb_eq in H; subst;
    reflexivity.
Qed.

(** ** The monad *)

Lemma bind_Ret {A B} (m : M A) (k : A -> M B) (w w' : World) (a : A) :
  m w = (Ret a, w') -> bind m k w = k a w'.
Proof. unfold bind. now intros ->. Qed.

Lemma bind_Throw {A B} (m : M A) (k : A -> M B) (w w' : World) (e : JsError) :
  m w = (Throw e, w') -> bind m k w = (Throw e, w').
Proof. unfold bind. now intros ->. Qed.

(** ** Extraction: the loops against the declarative reading *)

Lemma scanParts_find (parts : list ContentPart) (content : option string) :
  scanParts parts content =
  match find isTextPart parts with
  | Some p => part_text p
  | None => content
  end.
Proof.
  induction parts as [|p parts IH]; simpl; [reflexivity|].
  destruct (isTextPart p); [reflexivity | exact IH].
Qed.

(** While nothing truthy has been found, the carried [content] is not
    truthy and the scan agrees with the first truthy contribution. *)
Lemma scanOutput_find (output : list OutputItem) (content : option string) :
  truthy content = false ->
  match find truthy (map firstTextOfItem output) with
  | Some text => scanOutput output content = text
  | None => truthy (scanOutput output content) = false
  end.
Proof.
  revert content.
  induction output as [|item output IH]; intros content Hc; simpl;
    [assumption|].
  unfold firstTextOfItem at 1 2.
  destruct (item_content item) as [parts|].
  - destruct (String.eqb (item_type item) "message").
    + rewrite scanParts_find.
      destruct (find isTextPart parts) as [p|].
      * destruct (truthy (part_text p)) eqn:Hp; [reflexivity|].
        now apply IH.
      * rewrite Hc. simpl. now apply IH.
    + rewrite Hc. simpl. now apply IH.
  - rewrite Hc. simpl. now apply IH.
Qed.

Lemma find_truthy_is_truthy (l : list (option string)) (v : option string) :
  find truthy l = Some v -> truthy v = true.
Proof. intros H. now apply find_some in H. Qed.

Lemma extractContent_spec (pollData : ResponseData) :
  truthy (extractContent pollData) = truthy (extractSpec pollData) /\
  (truthy (extractSpec pollData) = true ->
   extractContent pollData = extractSpec pollData).
Proof.
  unfold extractContent, extractSpec.
  destruct (truthy (resp_output_text pollData)) eqn:Ht; [now split|].
  destruct (resp_output pollData) as [output|]; [|now split].
  pose proof (scanOutput_find output None eq_refl) as H.
  destruct (find truthy (map firstTextOfItem output)) as [text|] eqn:Hf.
  - now rewrite H.
  - rewrite H. simpl. split; [reflexivity | discriminate].
Qed.

(** ** Growth of the world *)

#[local] Arguments timeoutError : simpl never.
#[local] Arguments noContentError : simpl never.
#[local] Arguments submitError : simpl never.
#[local] Arguments pollError : simpl never.
#[local] Arguments submitRequest : simpl never.
#[local] Arguments pollRequest : simpl never.
#[local] Arguments extractContent : simpl never.
#[local] Arguments backoffMs : simpl never.
#[local] Arguments timerDelay : simpl never.
#[local] Arguments Z.ltb : simpl never.
#[local] Arguments Z.leb : simpl never.
#[local] Arguments Z.eqb : simpl never.
#[local] Arguments Z.add : simpl never.
#[local] Arguments Z.sub : simpl never.
#[local] Arguments Z.mul : simpl never.
#[local] Arguments Z.pow : simpl never.
#[local] Arguments Z.of_nat : simpl never.
#[local] Arguments Z.of_N : simpl never.
#[local] Arguments Z.modulo : simpl never.
#[local] Arguments orElse : simpl never.

Ltac unfold_monad :=
  unfold bind, ret, throw, diverge, try, dateNow, sleep, fetch,
    logToolExecution, logExternalApiCall, logPdfGeneration, emit in *;
  change (timerDelay (Finite POLL_INTERVAL_MS)) with POLL_INTERVAL_MS in *.

Section Growth.

Variable env : Env.
Variable key : option string.
Variable query : string.

Notation "w ==> w'" := (extends key query w w') (at level 70).

Lemma extends_refl (w : World) : w ==> w.
Proof.
  exists []. rewrite app_nil_r. repeat split; [constructor | lia].
Qed.

Lemma extends_trans (w1 w2 w3 : World) : w1 ==> w2 -> w2 ==> w3 -> w1 ==> w3.
Proof.
  intros (t1 & E1 & F1 & L1) (t2 & E2 & F2 & L2).
  exists (t1 ++ t2)%list. rewrite E2, E1, app_assoc.
  repeat split; [now apply Forall_app | lia].
Qed.

Lemma extends_step (w : World) (dt : Z) (c : nat) (a : Action) :
  0 <= dt -> okAction key query a ->
  w ==> mkWorld (now w + dt) c (trace w ++ [a])%list.
Proof.
  intros Hdt Ha. exists [a]. simpl. repeat split; [|lia].
  now constructor.
Qed.

Lemma extends_log (w : World) (d : LogData) :
  w ==> mkWorld (now w) (calls w) (trace w ++ [ALog d])%list.
Proof.
  exists [ALog d]. simpl. repeat split; [|lia].
  now constructor.
Qed.

Lemma timerDelay_pos (ms : Number) : 1 <= timerDelay ms.
Proof.
  unfold timerDelay. destruct ms as [z|]; [|lia].
  destruct (Z.leb_spec 1 z); cbn [andb]; [|lia].
  destruct (z <=? TIMEOUT_MAX); lia.
Qed.

Lemma pollLoop_extends (budget : nat) :
  forall responseId pollStartTime pollData pollCount w,
    w ==> snd (pollLoop env key budget responseId pollStartTime pollData
                 pollCount w).
Proof.
  induction budget as [|budget IH]; intros; simpl;
    destruct (isPending (resp_status pollData)); unfold_monad; simpl;
    try apply extends_refl;
    destruct (MAX_POLL_TIME_MS <? now w - pollStartTime); simpl;
    try apply extends_refl.
  set (w1 := mkWorld (now w + POLL_INTERVAL_MS) (calls w)
               (trace w ++ [ASleep POLL_INTERVAL_MS])%list).
  assert (H1 : w ==> w1) by (apply extends_step; [discriminate | exact I]).
  set (w2 := mkWorld _ _ _).
  assert (H2 : w1 ==> w2).
  { apply (extends_step w1); [lia | right; now eexists]. }
  pose proof (extends_trans _ _ _ H1 H2) as H12.
  destruct (snd (env (calls w))); simpl; trivial.
  destruct (_ =? 0); simpl.
  - eapply extends_trans; [|apply IH].
    eapply extends_trans; [exact H12 | apply extends_log].
  - eapply extends_trans; [exact H12 | apply IH].
Qed.

Lemma finishAttempt_extends (responseId : string) (pollData : ResponseData)
    (w : World) :
  w ==> snd (finishAttempt responseId pollData w).
Proof.
  unfold finishAttempt.
  destruct (isRemoteFailure _); unfold_monad; simpl;
    [apply extends_refl|].
  destruct (extractContent pollData) as [text|]; [|apply extends_refl].
  destruct (truthy (Some text)); simpl;
    [apply extends_log | apply extends_refl].
Qed.

Lemma attemptOnce_extends (budget : nat) (w : World) :
  w ==> snd (attemptOnce env key budget query w).
Proof.
  unfold attemptOnce. unfold bind at 1. unfold fetch at 1.
  set (w1 := mkWorld _ _ _).
  assert (H1 : w ==> w1).
  { apply (extends_step w); [lia | now left]. }
  destruct (snd (env (calls w))); unfold_monad; simpl; trivial.
  - eapply extends_trans; [exact H1 | apply extends_log].
  - set (w2 := mkWorld _ _ _).
    assert (H2 : w ==> w2).
    { eapply extends_trans; [exact H1 | apply extends_log]. }
    pose proof (pollLoop_extends budget (resp_id data) (now w1) data 0 w2)
      as H3.
    destruct (pollLoop _ _ _ _ _ _ _ w2) as [[polled| |] w3]; simpl in *.
    + eapply extends_trans; [|apply finishAttempt_extends].
      eapply extends_trans; eassumption.
    + eapply extends_trans; eassumption.
    + eapply extends_trans; eassumption.
Qed.

Lemma retryBackoff_extends (attempt : Z) (w : World) :
  w ==> snd (retryBackoff attempt w).
Proof.
  unfold retryBackoff. destruct (1 <? attempt); unfold_monad; simpl.
  - eapply extends_trans; [apply extends_log|].
    apply (extends_step (mkWorld _ _ _));
      [pose proof (timerDelay_pos (backoffMs attempt)); lia | exact I].
  - apply extends_refl.
Qed.

Lemma retryBackoff_returns (attempt : Z) (w : World) :
  fst (retryBackoff attempt w) = Ret tt.
Proof.
  unfold retryBackoff. now destruct (1 <? attempt).
Qed.

Lemma retryLoop_extends (rounds budget : nat) :
  forall attempt maxRetries w,
    w ==> snd (retryLoop env key rounds budget query attempt maxRetries w).
Proof.
  induction rounds as [|rounds IH]; intros; simpl;
    destruct (attempt <=? maxRetries); try apply extends_refl.
  unfold bind at 1.
  pose proof (retryBackoff_extends attempt w) as H1.
  pose proof (retryBackoff_returns attempt w) as R1.
  destruct (retryBackoff attempt w) as [o w1]; simpl in *; subst o.
  unfold bind at 1, try at 1.
  pose proof (attemptOnce_extends budget w1) as H2.
  pose proof (extends_trans _ _ _ H1 H2) as H12.
  destruct (attemptOnce env key budget query w1) as [[r|e|] w2]; simpl in *;
    trivial.
  unfold_monad; simpl.
  set (w3 := mkWorld _ _ _).
  assert (H3 : w ==> w3).
  { eapply extends_trans; [exact H12 | apply extends_log]. }
  destruct (attempt =? maxRetries); simpl; trivial.
  eapply extends_trans; [exact H3 | apply IH].
Qed.

Lemma executeDeepResearch_extends (rounds budget : nat) (maxRetries : Z)
    (w : World) :
  w ==> snd (executeDeepResearch env key rounds budget query maxRetries w).
Proof. apply retryLoop_extends. Qed.

End Growth.

(** ** Termination and the shape of the result *)

Section Totality.

Variable env : Env.
Variable key : option string.

(** Every iteration of the poll loop sleeps for the poll interval, so
    the deadline is reached within the budget. *)
Lemma pollLoop_total (budget : nat) :
  forall responseId pollStartTime pollData pollCount w,
    MAX_POLL_TIME_MS <
      now w - pollStartTime + POLL_INTERVAL_MS * Z.of_nat budget ->
    fst (pollLoop env key budget responseId pollStartTime pollData
           pollCount w) <> Diverge.
Proof.
  induction budget as [|budget IH]; intros * Hb; simpl;
    destruct (isPending (resp_status pollData)); unfold_monad; simpl;
    try discriminate;
    destruct (Z.ltb_spec MAX_POLL_TIME_MS (now w - pollStartTime)); simpl;
    try discriminate.
  - lia.
  - destruct (env (calls w)) as [latency [e|st ed|e|d]]; simpl;
      try discriminate.
    destruct (_ =? 0); simpl; apply IH; simpl;
      unfold POLL_INTERVAL_MS in *; lia.
Qed.

Lemma finishAttempt_outcome (responseId : string) (pollData : ResponseData)
    (w : World) :
  attemptOutcomeOk (fst (finishAttempt responseId pollData w)).
Proof.
  unfold finishAttempt.
  destruct (isRemoteFailure _); unfold_monad; simpl; trivial.
  destruct (extractContent pollData) as [text|]; simpl; trivial.
  destruct (String.eqb_spec text ""); simpl; auto.
Qed.

Lemma attemptOnce_outcome (budget : nat) (query : string) (w : World) :
  (pollBudget <= budget)%nat ->
  attemptOutcomeOk (fst (attemptOnce env key budget query w)).
Proof.
  intros Hb. unfold attemptOnce. unfold bind at 1. unfold fetch at 1.
  destruct (env (calls w)) as [latency [e|st ed|e|d]]; unfold_monad; simpl;
    trivial.
  set (w1 := mkWorld _ _ _).
  pose proof (pollLoop_total budget (resp_id d)
                (now w + Z.of_N latency) d 0 w1) as Hp.
  destruct (pollLoop _ _ _ _ _ _ _ w1) as [[polled|e|] w2]; simpl in *.
  - apply finishAttempt_outcome.
  - exact I.
  - apply Hp; [|reflexivity].
    unfold pollBudget, MAX_POLL_TIME_MS, POLL_INTERVAL_MS in *. lia.
Qed.

Lemma failedResult_wellFormed (msg : string) :
  msg <> "" -> wellFormedResult (failedResult msg).
Proof. intros H. right. simpl. repeat split. now exists msg. Qed.

Lemma retryLoop_total (budget : nat) (query : string) (rounds : nat) :
  forall attempt maxRetries w,
    (pollBudget <= budget)%nat ->
    maxRetries - attempt + 1 <= Z.of_nat rounds ->
    exists r w',
      retryLoop env key rounds budget query attempt maxRetries w = (Ret r, w')
      /\ wellFormedResult r.
Proof.
  induction rounds as [|rounds IH]; intros * Hb Hr; simpl;
    destruct (Z.leb_spec attempt maxRetries);
    try (eexists _, _; split;
         [reflexivity | now apply failedResult_wellFormed]).
  - lia.
  - unfold bind at 1.
    pose proof (retryBackoff_returns attempt w) as R1.
    destruct (retryBackoff attempt w) as [o w1]; simpl in *; subst o.
    unfold bind at 1, try at 1.
    pose proof (attemptOnce_outcome budget query w1 Hb) as Ho.
    destruct (attemptOnce env key budget query w1) as [[r|e|] w2];
      simpl in *; [| |contradiction].
    + exists r, w2. split; [reflexivity | now left].
    + unfold_monad; simpl.
      destruct (attempt =? maxRetries).
      * eexists _, _; split; [reflexivity|].
        apply failedResult_wellFormed, orElse_nonempty. discriminate.
      * apply IH; [assumption | lia].
Qed.

End Totality.

(** ** The retry loop, one round at a time *)

Section RetryLoop.

Variable env : Env.
Variable key : option string.
Variable query : string.

Lemma extends_requests (w w' : World) :
  extends key query w w' ->
  exists rs, requests (trace w') = (requests (trace w) ++ rs)%list.
Proof.
  intros (t & E & _). exists (requests t).
  unfold requests. now rewrite E, flat_map_app.
Qed.

Lemma submitCount_app (t1 t2 : list Action) :
  submitCount (t1 ++ t2) = (submitCount t1 + submitCount t2)%nat.
Proof. unfold submitCount. now rewrite filter_app, length_app. Qed.

Lemma extends_submitCount (w w' : World) :
  extends key query w w' ->
  (submitCount (trace w) <= submitCount (trace w'))%nat.
Proof. intros (t & E & _). rewrite E, submitCount_app. lia. Qed.

(** An attempt starts with a submit request. *)
Lemma attemptOnce_submits (budget : nat) (w : World) :
  (submitCount (trace w) <
   submitCount (trace (snd (attemptOnce env key budget query w))))%nat.
Proof.
  pose proof (attemptOnce_extends env key query budget w) as H.
  unfold attemptOnce in *. unfold bind at 1 in H. unfold bind at 1.
  unfold fetch at 1 in H. unfold fetch at 1.
  set (w1 := mkWorld _ _ _) in *.
  assert (H1 : submitCount (trace w1) = S (submitCount (trace w))).
  { subst w1. cbn [trace]. rewrite submitCount_app.
    change (submitCount [AFetch (submitRequest key query)]) with 1%nat.
    lia. }
  assert (H2 : extends key query w1
            (snd (match snd (env (calls w)) with
                  | FetchRejects e => throw e
                  | NotOk st errorData =>
                      (logExternalApiCall st
                         (Some (message (submitError st errorData))) ;;
                       throw (submitError st errorData))
                  | OkBadBody e => throw e
                  | OkJson submitData =>
                      (logToolExecution "progress" None None None ;;
                       pollStartTime <- dateNow ;;
                       polled <- pollLoop env key budget (resp_id submitData)
                                   pollStartTime submitData 0 ;;
                       finishAttempt (resp_id submitData) (fst polled))
                  end w1))).
  { destruct (snd (env (calls w))); unfold_monad; simpl.
    - apply extends_refl.
    - apply extends_log.
    - apply extends_refl.
    - set (w2 := mkWorld _ _ _).
      assert (H2 : extends key query w1 w2) by apply extends_log.
      pose proof (pollLoop_extends env key query budget (resp_id data)
                    (now w1) data 0 w2) as H3.
      destruct (pollLoop _ _ _ _ _ _ _ w2) as [[polled| |] w3]; simpl in *.
      + eapply extends_trans; [|apply finishAttempt_extends].
        eapply extends_trans; eassumption.
      + eapply extends_trans; eassumption.
      + eapply extends_trans; eassumption. }
  apply extends_submitCount in H2. rewrite H1 in H2. exact H2.
Qed.

Lemma retryLoop_catch (rounds budget : nat) (attempt maxRetries : Z)
    (w w1 : World) (e : JsError) :
  attempt <= maxRetries ->
  attemptOnce env key budget query (snd (retryBackoff attempt w))
    = (Throw e, w1) ->
  retryLoop env key (S rounds) budget query attempt maxRetries w =
  let w2 := snd (logExternalApiCall 500 (Some (message e)) w1) in
  if attempt =? maxRetries then
    (Ret (failedResult (orElse (Some (message e)) "Unknown error occurred")),
     w2)
  else retryLoop env key rounds budget query (attempt + 1) maxRetries w2.
Proof.
  intros Hle Ha. cbn [retryLoop].
  apply Z.leb_le in Hle. rewrite Hle.
  unfold bind at 1.
  pose proof (retryBackoff_returns attempt w) as R1.
  destruct (retryBackoff attempt w) as [o w0]; simpl in *; subst o.
  unfold bind at 1, try at 1. rewrite Ha.
  unfold bind at 1. unfold logExternalApiCall at 1, emit at 1.
  cbn [fst snd]. unfold logExternalApiCall, emit. cbn [snd].
  destruct (attempt =? maxRetries); reflexivity.
Qed.

Lemma retryLoop_return (rounds budget : nat) (attempt maxRetries : Z)
    (w w1 : World) (r : DeepResearchResult) :
  attempt <= maxRetries ->
  attemptOnce env key budget query (snd (retryBackoff attempt w))
    = (Ret r, w1) ->
  retryLoop env key (S rounds) budget query attempt maxRetries w = (Ret r, w1).
Proof.
  intros Hle Ha. cbn [retryLoop].
  apply Z.leb_le in Hle. rewrite Hle.
  unfold bind at 1.
  pose proof (retryBackoff_returns attempt w) as R1.
  destruct (retryBackoff attempt w) as [o w0]; simpl in *; subst o.
  unfold bind at 1, try at 1. now rewrite Ha.
Qed.

End RetryLoop.

(** ** Retries *)

Section Retries.

Variable env : Env.
Variable key : option string.
Variable query : string.

(** A round that is entered issues a submit request. *)
Lemma retryLoop_submits (rounds budget : nat) (attempt maxRetries : Z)
    (w : World) :
  attempt <= maxRetries ->
  (submitCount (trace w) <
   submitCount
     (trace (snd (retryLoop env key (S rounds) budget query attempt
                    maxRetries w))))%nat.
Proof.
  intros Hle. cbn [retryLoop]. apply Z.leb_le in Hle. rewrite Hle.
  unfold bind at 1.
  pose proof (retryBackoff_extends key query attempt w) as H0.
  apply extends_submitCount in H0.
  pose proof (retryBackoff_returns attempt w) as R1.
  destruct (retryBackoff attempt w) as [o w0]; simpl in *; subst o.
  unfold bind at 1, try at 1.
  pose proof (attemptOnce_submits env key query budget w0) as H1.
  destruct (attemptOnce env key budget query w0) as [[r|e|] w1];
    simpl in *; try lia.
  unfold bind at 1. unfold logExternalApiCall at 1, emit at 1.
  set (w2 := mkWorld _ _ _).
  assert (H2 : (submitCount (trace w1) <= submitCount (trace w2))%nat).
  { apply (extends_submitCount key query), extends_log. }
  clearbody w2.
  destruct (attempt =? maxRetries); unfold ret; cbn [snd]; [lia|].
  pose proof (retryLoop_extends env key query rounds budget (attempt + 1)
                maxRetries w2) as H3.
  apply extends_submitCount in H3. lia.
Qed.

(** A submit call that fails ends the attempt at once. *)
Lemma attemptOnce_submitFailure (budget : nat) (w : World) (e : JsError) :
  submitFailure (snd (env (calls w))) = Some e ->
  exists w1,
    attemptOnce env key budget query w = (Throw e, w1) /\
    calls w1 = S (calls w) /\
    requests (trace w1) = (requests (trace w) ++ [submitRequest key query])%list.
Proof.
  intros He. unfold attemptOnce. unfold bind at 1, fetch at 1.
  destruct (snd (env (calls w))); simpl in He; inversion He; subst;
    unfold_monad; simpl; eexists; (split; [reflexivity|]); simpl;
    unfold requests; rewrite ?flat_map_app; simpl;
    rewrite ?app_nil_r; auto.
Qed.

Lemma retryBackoff_quiet (attempt : Z) (w : World) :
  calls (snd (retryBackoff attempt w)) = calls w /\
  requests (trace (snd (retryBackoff attempt w))) = requests (trace w).
Proof.
  unfold retryBackoff. destruct (1 <? attempt); unfold_monad; simpl;
    [|now split].
  split; [reflexivity|].
  unfold requests. rewrite !flat_map_app. simpl. now rewrite !app_nil_r.
Qed.

(** A round whose submit call fails: the error is caught and, unless
    this was the last attempt, the loop goes on. *)
Lemma retryLoop_submitFailure (rounds budget : nat) (attempt maxRetries : Z)
    (w : World) (e : JsError) :
  attempt <= maxRetries ->
  submitFailure (snd (env (calls w))) = Some e ->
  exists w2,
    calls w2 = S (calls w) /\
    requests (trace w2) = (requests (trace w) ++ [submitRequest key query])%list /\
    retryLoop env key (S rounds) budget query attempt maxRetries w =
    if attempt =? maxRetries then
      (Ret (failedResult (orElse (Some (message e)) "Unknown error occurred")),
       w2)
    else retryLoop env key rounds budget query (attempt + 1) maxRetries w2.
Proof.
  intros Hle He.
  destruct (retryBackoff_quiet attempt w) as [Hc Hr].
  rewrite <- Hc in He.
  destruct (attemptOnce_submitFailure budget _ e He) as (w1 & Ha & Hc1 & Hr1).
  rewrite (retryLoop_catch env key query rounds budget attempt maxRetries
             w w1 e Hle Ha).
  eexists. split; [|split; [|reflexivity]].
  - unfold logExternalApiCall, emit. simpl. congruence.
  - unfold logExternalApiCall, emit. cbn [snd trace].
    unfold requests in *. rewrite flat_map_app, Hr1, Hr. simpl.
    now rewrite app_nil_r.
Qed.

End Retries.

(** C1, as amended.  A failed attempt is retried whatever its error is:
    when an attempt that is not the last one ([attempt < maxRetries])
    throws any error [e] -- a transport or non-2xx error, a status
    [failed] or [cancelled] reported by the service, the exceeded poll
    deadline, or missing content -- the loop goes on and issues a further
    submit request; the job ends in its terminal failure state, with the
    cause taken from [e], only when the failing attempt is the last one
    ([attempt = maxRetries]), and then no further request is made. *)
Theorem C1_failed_attempt_is_retried
    (env : Env) (key : option string) (query : string) (rounds budget : nat)
    (attempt maxRetries : Z) (w w1 : World) (e : JsError) :
  attempt <= maxRetries ->
  attemptOnce env key budget query (snd (retryBackoff attempt w))
    = (Throw e, w1) ->
  (attempt < maxRetries ->
   (submitCount (trace w1) <
    submitCount
      (trace (snd (retryLoop env key (S (S rounds)) budget query attempt
                     maxRetries w))))%nat) /\
  (attempt = maxRetries ->
   exists w2,
     retryLoop env key (S rounds) budget query attempt maxRetries w =
       (Ret (failedResult (orElse (Some (message e)) "Unknown error occurred")),
        w2) /\
     requests (trace w2) = requests (trace w1)).
Proof.
  intros Hle Ha. split; intros Hlast.
  - rewrite (retryLoop_catch env key query (S rounds) budget attempt
               maxRetries w w1 e Hle Ha).
    cbv zeta. destruct (Z.eqb_spec attempt maxRetries) as [->|_]; [lia|].
    eapply Nat.le_lt_trans; [|apply retryLoop_submits; lia].
    apply (extends_submitCount key query). apply extends_log.
  - rewrite (retryLoop_catch env key query rounds budget attempt
               maxRetries w w1 e Hle Ha).
    cbv zeta. destruct (Z.eqb_spec attempt maxRetries) as [_|]; [|lia].
    eexists. split; [reflexivity|].
    unfold logExternalApiCall, emit, requests. cbn [snd trace].
    rewrite flat_map_app. simpl. now rewrite app_nil_r.
Qed.

(** The attempt of the run [remoteFailureThenSuccess] that receives the
    status [failed] is the first of three, and is followed by a second
    submit request. *)
Lemma C1_failed_attempt_is_retried_witness :
  let w1 := snd (attemptOnce remoteFailureThenSuccess testKey pollBudget "q"
                   (snd (retryBackoff 1 initialWorld))) in
  (1 <= 3 /\
   attemptOnce remoteFailureThenSuccess testKey pollBudget "q"
     (snd (retryBackoff 1 initialWorld))
   = (Throw (mkError "Research failed"), w1)) /\
  (submitCount (trace w1) <
   submitCount
     (trace (snd (retryLoop remoteFailureThenSuccess testKey 2 pollBudget "q"
                    1 3 initialWorld))))%nat.
Proof.
  intros w1.
  assert (Hle : 1 <= 3) by lia.
  assert (Ha : attemptOnce remoteFailureThenSuccess testKey pollBudget "q"
                 (snd (retryBackoff 1 initialWorld))
               = (Throw (mkError "Research failed"), w1))
    by (vm_compute; reflexivity).
  split; [split; assumption|].
  apply (proj1 (C1_failed_attempt_is_retried remoteFailureThenSuccess testKey
                  "q" 0 pollBudget 1 3 initialWorld w1
                  (mkError "Research failed") Hle Ha)).
  lia.
Defined.

(** C1, as the claim states it, fails: the service reports the terminal
    status [failed] for the first job, and the tool submits a second job,
    whose report it returns. *)
Lemma C1_remote_failure_counterexample :
  let run := executeDeepResearch remoteFailureThenSuccess testKey
               (roundsFor 3) pollBudget "q" 3 initialWorld in
  fst run = Ret (mkResult "resp_2" "Report" completed None None) /\
  submitCount (trace (snd run)) = 2%nat /\
  ~ endsFailedAfterOneAttempt run.
Proof.
  vm_compute. repeat split.
  intros [_ H]. discriminate H.
Qed.

(** C2, as amended.  If the service fails every interaction with a
    transport error (the fetch is refused, the response is not 2xx, or
    its body cannot be read), [executeDeepResearch] with retry ceiling 3
    sends exactly three requests, all of them submit requests, and
    returns the terminal failed result whose cause is the message of the
    last observed error -- or "Unknown error occurred" when that message
    is empty. *)
Theorem C2_three_attempts_then_failed
    (env : Env) (key : option string) (query : string) (budget : nat)
    (w : World) :
  (forall n, submitFailure (snd (env n)) <> None) ->
  exists e w',
    submitFailure (snd (env (2 + calls w)%nat)) = Some e /\
    executeDeepResearch env key (roundsFor 3) budget query 3 w =
      (Ret (failedResult (orElse (Some (message e)) "Unknown error occurred")),
       w') /\
    calls w' = (3 + calls w)%nat /\
    requests (trace w') =
      (requests (trace w)
       ++ [submitRequest key query; submitRequest key query;
           submitRequest key query])%list.
Proof.
  intros Hfail.
  assert (Hsome : forall n, exists e, submitFailure (snd (env n)) = Some e).
  { intros n. specialize (Hfail n).
    destruct (submitFailure (snd (env n))) as [e|]; [now exists e | easy]. }
  unfold executeDeepResearch. change (roundsFor 3) with 3%nat.
  destruct (Hsome (calls w)) as [e1 He1].
  destruct (retryLoop_submitFailure env key query 2 budget 1 3 w e1)
    as (w1 & Hc1 & Hr1 & ->); [lia | assumption |].
  change (1 =? 3) with false. cbv iota.
  destruct (Hsome (calls w1)) as [e2 He2].
  destruct (retryLoop_submitFailure env key query 1 budget (1 + 1) 3 w1 e2)
    as (w2 & Hc2 & Hr2 & ->); [lia | assumption |].
  change (1 + 1 =? 3) with false. cbv iota.
  destruct (Hsome (calls w2)) as [e3 He3].
  destruct (retryLoop_submitFailure env key query 0 budget (1 + 1 + 1) 3 w2 e3)
    as (w3 & Hc3 & Hr3 & ->); [lia | assumption |].
  change (1 + 1 + 1 =? 3) with true. cbv iota.
  exists e3, w3. repeat split.
  - rewrite <- He3. do 3 f_equal. lia.
  - lia.
  - rewrite Hr3, Hr2, Hr1, <- !app_assoc. reflexivity.
Qed.

Lemma C2_three_attempts_then_failed_witness :
  (forall n, submitFailure (snd (alwaysUnavailable n)) <> None) /\
  exists e w',
    submitFailure (snd (alwaysUnavailable 2%nat)) = Some e /\
    executeDeepResearch alwaysUnavailable testKey (roundsFor 3) pollBudget
      "q" 3 initialWorld =
      (Ret (failedResult (orElse (Some (message e)) "Unknown error occurred")),
       w') /\
    calls w' = 3%nat /\
    requests (trace w') =
      [submitRequest testKey "q"; submitRequest testKey "q";
       submitRequest testKey "q"].
Proof.
  assert (H : forall n, submitFailure (snd (alwaysUnavailable n)) <> None)
    by (intros n; discriminate).
  split; [exact H|].
  exact (C2_three_attempts_then_failed alwaysUnavailable testKey "q"
           pollBudget initialWorld H).
Defined.

(** C2, as the claim states it, fails when the last error carries an
    empty message: the cause of the result is then the fallback text and
    not that message. *)
Lemma C2_empty_message_counterexample :
  let run := executeDeepResearch alwaysRejectsSilently testKey (roundsFor 3)
               pollBudget "q" 3 initialWorld in
  submitFailure (snd (alwaysRejectsSilently 2%nat)) = Some (mkError "") /\
  fst run = Ret (failedResult "Unknown error occurred") /\
  fst run <> Ret (failedResult (message (mkError ""))).
Proof.
  vm_compute. repeat split. discriminate.
Qed.

(** ** The poll deadline *)

(** C5, as amended.  While the status is [queued] or [in_progress], the
    deadline (600000 ms after the start of polling) is checked before
    each poll; once it has passed, the poll loop of that attempt ends
    with the timed-out error and leaves the world as it is -- no request
    is sent, whatever the service would have answered.  When this
    happens in the last attempt, the job ends failed with the timed-out
    message; in an earlier attempt the error is handled by the retry
    loop. *)
Theorem C5_deadline_precedes_poll
    (env : Env) (key : option string) (budget : nat) (responseId : string)
    (pollStartTime : Z) (pollData : ResponseData) (pollCount : Z) (w : World) :
  isPending (resp_status pollData) = true ->
  MAX_POLL_TIME_MS < now w - pollStartTime ->
  pollLoop env key budget responseId pollStartTime pollData pollCount w
    = (Throw timeoutError, w) /\
  message timeoutError = "Deep research timed out after 600 seconds" /\
  forall query rounds attemptBudget maxRetries w0 w1,
    attemptOnce env key attemptBudget query (snd (retryBackoff maxRetries w0))
      = (Throw timeoutError, w1) ->
    fst (retryLoop env key (S rounds) attemptBudget query maxRetries
           maxRetries w0)
    = Ret (failedResult "Deep research timed out after 600 seconds").
Proof.
  intros Hp Hd. split; [|split; [reflexivity|]].
  - apply Z.ltb_lt in Hd.
    destruct budget; simpl; rewrite Hp; unfold_monad; simpl; now rewrite Hd.
  - intros query rounds attemptBudget maxRetries w0 w1 Ha.
    rewrite (retryLoop_catch env key query rounds attemptBudget maxRetries
               maxRetries w0 w1 timeoutError (Z.le_refl _) Ha).
    cbv zeta. now rewrite Z.eqb_refl.
Qed.

Lemma C5_deadline_precedes_poll_witness :
  let d := response "resp_1" "in_progress" None in
  let w := mkWorld 600001 1 [] in
  (isPending (resp_status d) = true /\ MAX_POLL_TIME_MS < now w - 0) /\
  pollLoop neverFinishes testKey pollBudget "resp_1" 0 d 0 w
    = (Throw timeoutError, w).
Proof.
  intros d w.
  assert (Hp : isPending (resp_status d) = true) by reflexivity.
  assert (Hd : MAX_POLL_TIME_MS < now w - 0) by (vm_compute; reflexivity).
  split; [split; assumption|].
  exact (proj1 (C5_deadline_precedes_poll neverFinishes testKey pollBudget
                  "resp_1" 0 d 0 w Hp Hd)).
Defined.

(** C5, as the claim states it, fails: the deadline of the first job
    passes while the service still reports [in_progress]; the job does
    not end timed out, a second job is submitted and its report is
    returned. *)
Lemma C5_timeout_is_retried_counterexample :
  let run := executeDeepResearch timeoutThenSuccess testKey (roundsFor 3)
               pollBudget "q" 3 initialWorld in
  fst run = Ret (mkResult "resp_2" "Report" completed None None) /\
  map req_method (requests (trace (snd run))) = ["POST"; "GET"; "POST"] /\
  sleeps (trace (snd run)) = [Finite POLL_INTERVAL_MS; backoffMs 2] /\
  ~ endsFailedAfterOneAttempt run.
Proof.
  vm_compute. repeat split.
  intros [_ H]. discriminate H.
Qed.

(** ** The terminal phase of a run *)

(** C3, as amended.  When the stream of a run finishes, the terminal
    phase is [complete] whatever the jobs did -- also when every job
    failed -- and all sections are counted as completed: on the server
    the final run status is [complete] with 5 of 5 sections, on the
    client the displayed run status becomes [complete] with
    [completedSections = totalSections].  No path sets the phase to
    [error] from the outcomes of the jobs. *)
Theorem C3_terminal_phase_is_complete
    (runId : string) (result : StreamResult) (timestamp : string)
    (shown : RunStatusPart) :
  rs_phase (onFinish runId result timestamp) = "complete" /\
  rs_completedSections (onFinish runId result timestamp) = 5 /\
  rs_totalSections (onFinish runId result timestamp) = 5 /\
  (exists shown',
     onFinishClient (Some shown) = Some shown' /\
     rs_phase shown' = "complete" /\
     rs_completedSections shown' = rs_totalSections shown /\
     rs_totalSections shown' = rs_totalSections shown) /\
  (specifiedPhase (toolResults result) = "complete" ->
   rs_phase (onFinish runId result timestamp)
   = specifiedPhase (toolResults result)).
Proof.
  repeat split.
  - eexists. repeat split.
  - intros ->. reflexivity.
Qed.

Lemma C3_terminal_phase_is_complete_witness :
  let result := mkStreamResult "stop"
                  [ failedJob "one";
                    ToolSuccess "two" "research-output/t/02_two.md" None
                      "Report..." ] in
  specifiedPhase (toolResults result) = "complete" /\
  rs_phase (onFinish "run-1" result "2025-12-31T00:00:00.000Z")
  = specifiedPhase (toolResults result).
Proof.
  intros result.
  assert (H : specifiedPhase (toolResults result) = "complete")
    by reflexivity.
  split; [exact H|].
  exact (proj2 (proj2 (proj2 (proj2
           (C3_terminal_phase_is_complete "run-1" result
              "2025-12-31T00:00:00.000Z"
              (createRunStatus "run-1" "planning" "Planning" 0 5 "t")))))
           H).
Defined.

(** C3, as the claim states it, fails: all five jobs of the run failed,
    and the terminal phase is [complete], not [error]. *)
Lemma C3_all_failed_counterexample :
  forallb jobFailed (toolResults allJobsFailed) = true /\
  specifiedPhase (toolResults allJobsFailed) = "error" /\
  rs_phase (onFinish "run-1" allJobsFailed "2025-12-31T00:00:00.000Z")
  = "complete" /\
  rs_phase (onFinish "run-1" allJobsFailed "2025-12-31T00:00:00.000Z")
  <> specifiedPhase (toolResults allJobsFailed).
Proof.
  repeat split. discriminate.
Qed.

(** ** Extraction *)

Example extract_primary_field :
  extractContent
    (mkResponse "resp_1" "completed" None (Some "Primary")
       (Some [ mkItem "message" (Some [ mkPart "text" (Some "Fallback") ]) ])
       None)
  = Some "Primary".
Proof. reflexivity. Qed.

Example extract_empty_primary_falls_back :
  extractContent
    (mkResponse "resp_1" "completed" None (Some "")
       (Some [ mkItem "message" (Some [ mkPart "text" (Some "Fallback") ]) ])
       None)
  = Some "Fallback".
Proof. reflexivity. Qed.

Example extract_skips_item_without_text :
  extractContent
    (mkResponse "resp_1" "completed" None None
       (Some [ mkItem "message"
                 (Some [ mkPart "output_text" (Some "");
                         mkPart "text" (Some "Hidden") ]);
               mkItem "message" (Some [ mkPart "text" (Some "Second") ]) ])
       None)
  = Some "Second".
Proof. reflexivity. Qed.

(** C4, as amended.  For a poll response with a terminal status other
    than [failed] and [cancelled], the content is [output_text] when that
    field is present and not empty; otherwise each message item of
    [output] that has a content list contributes the text of its first
    [output_text] or [text] part, and the content is the first non-empty
    contribution in the order of the items; if there is none, the attempt
    throws the error "No content returned from OpenAI deep research";
    the job ends failed with that cause when this happens in the last
    attempt, and in an earlier attempt the retry loop handles the error. *)
Theorem C4_extraction_order
    (responseId : string) (pollData : ResponseData) (w : World) :
  isRemoteFailure (resp_status pollData) = false ->
  (truthy (extractSpec pollData) = true ->
   exists text r w',
     extractSpec pollData = Some text /\
     finishAttempt responseId pollData w = (Ret r, w') /\
     content r = text /\ status r = completed /\ id r = responseId) /\
  (truthy (extractSpec pollData) = false ->
   finishAttempt responseId pollData w = (Throw noContentError, w) /\
   message noContentError = "No content returned from OpenAI deep research") /\
  (forall env key query rounds budget maxRetries w0 w1,
     attemptOnce env key budget query (snd (retryBackoff maxRetries w0))
       = (Throw noContentError, w1) ->
     fst (retryLoop env key (S rounds) budget query maxRetries maxRetries w0)
     = Ret (failedResult "No content returned from OpenAI deep research")).
Proof.
  intros Hs.
  assert (Hlast : forall env key query rounds budget maxRetries w0 w1,
     attemptOnce env key budget query (snd (retryBackoff maxRetries w0))
       = (Throw noContentError, w1) ->
     fst (retryLoop env key (S rounds) budget query maxRetries maxRetries w0)
     = Ret (failedResult "No content returned from OpenAI deep research")).
  { intros env key query rounds budget maxRetries w0 w1 Ha.
    rewrite (retryLoop_catch env key query rounds budget maxRetries
               maxRetries w0 w1 noContentError (Z.le_refl _) Ha).
    cbv zeta. now rewrite Z.eqb_refl. }
  unfold finishAttempt. rewrite Hs.
  destruct (extractContent_spec pollData) as [Ht He].
  split; [|split; [|exact Hlast]]; intros H.
  - rewrite (He H).
    destruct (truthy_true_iff (extractSpec pollData)) as [Hx _].
    destruct (Hx H) as (text & Hsome & _).
    rewrite Hsome in *. rewrite H.
    unfold_monad. simpl. eexists _, _, _. repeat split.
  - split; [|reflexivity].
    rewrite H in Ht.
    destruct (extractContent pollData) as [text|]; [|reflexivity].
    now rewrite Ht.
Qed.

Lemma C4_extraction_order_witness :
  let pollData :=
    mkResponse "resp_1" "completed" None None
      (Some [ mkItem "reasoning" None;
              mkItem "message"
                (Some [ mkPart "refusal" None;
                        mkPart "output_text" (Some "Findings") ]) ])
      None in
  (isRemoteFailure (resp_status pollData) = false /\
   truthy (extractSpec pollData) = true) /\
  exists text r w',
    extractSpec pollData = Some text /\
    finishAttempt "resp_1" pollData initialWorld = (Ret r, w') /\
    content r = text /\ status r = completed /\ id r = "resp_1".
Proof.
  intros pollData.
  assert (Hs : isRemoteFailure (resp_status pollData) = false)
    by reflexivity.
  assert (Ht : truthy (extractSpec pollData) = true) by reflexivity.
  split; [split; assumption|].
  exact (proj1 (C4_extraction_order "resp_1" pollData initialWorld Hs) Ht).
Defined.

(** C4, as the claim states it, fails: the first job completes with
    neither [output_text] nor [output]; the job does not end failed, a
    second job is submitted and its report is returned. *)
Lemma C4_no_content_counterexample :
  let run := executeDeepResearch noContentThenSuccess testKey (roundsFor 3)
               pollBudget "q" 3 initialWorld in
  extractContent (response "resp_1" "completed" None) = None /\
  fst run = Ret (mkResult "resp_2" "Report" completed None None) /\
  ~ endsFailedAfterOneAttempt run.
Proof.
  vm_compute. repeat split.
  intros [_ H]. discriminate H.
Qed.

(** ** The tool around the job *)



(** ** Identity keys *)

(** C7.  The identity key is a function of the entity an event describes:
    two events of the same variant with the same [runId] (and, for
    section-status events, the same [sectionId]) have the same key,
    whatever their timestamps and other fields are, and the key is the
    [id] of the data part sent to the consumer; two section-status
    events of one run with different [sectionId]s have different keys. *)
Theorem C7_identity_key_stable_and_injective :
  (forall a b : StreamingEvent,
     sameEntity a b ->
     createPartId a = createPartId b /\
     dp_id (formatAsDataPart a) = dp_id (formatAsDataPart b)) /\
  (forall a b : SectionStatusPart,
     ss_runId a = ss_runId b ->
     ss_sectionId a <> ss_sectionId b ->
     createPartId (SectionStatus a) <> createPartId (SectionStatus b)).
Proof.
  split.
  - intros a b (Ht & Hr & Hs).
    assert (H : createPartId a = createPartId b).
    { destruct a, b; simpl in *; try discriminate; congruence. }
    now split.
  - intros a b Hr Hs H. simpl in H. rewrite Hr in H.
    apply (append_inj_l "section:") in H.
    apply append_inj_l in H.
    apply (append_inj_l ":") in H. contradiction.
Qed.

Lemma C7_identity_key_stable_and_injective_witness :
  let running :=
    createSectionStatus "run-1" "section-3" "Battery chemistry" "running"
      None None "2025-12-31T10:00:00.000Z" in
  let done :=
    createSectionStatus "run-1" "section-3" "Battery chemistry" "done"
      (Some (mkProgress None None (Some "Report..."))) None
      "2025-12-31T10:07:30.000Z" in
  let other :=
    createSectionStatus "run-1" "section-4" "Charging networks" "running"
      None None "2025-12-31T10:00:00.000Z" in
  (sameEntity (SectionStatus running) (SectionStatus done) /\
   ss_runId running = ss_runId other /\
   ss_sectionId running <> ss_sectionId other) /\
  createPartId (SectionStatus running) = createPartId (SectionStatus done) /\
  createPartId (SectionStatus running) <> createPartId (SectionStatus other).
Proof.
  intros running done other.
  assert (He : sameEntity (SectionStatus running) (SectionStatus done))
    by (repeat split).
  assert (Hr : ss_runId running = ss_runId other) by reflexivity.
  assert (Hs : ss_sectionId running <> ss_sectionId other) by discriminate.
  split; [repeat split; assumption|].
  split.
  - exact (proj1 (proj1 C7_identity_key_stable_and_injective _ _ He)).
  - exact (proj2 C7_identity_key_stable_and_injective running other Hr Hs).
Defined.

(** ** Backoff *)

Lemma pow2_1024 : 2 ^ 1024 = 1024 * 2 ^ 1014.
Proof. reflexivity. Qed.

(** Up to attempt 1015 the delay is the exact product. *)
Lemma backoffMs_finite (attempt : Z) :
  1 <= attempt <= 1015 ->
  backoffMs attempt = Finite (1000 * 2 ^ (attempt - 1)).
Proof.
  intros Ha. unfold backoffMs, Math_pow, times, overflow.
  assert (H0 : 0 < 2 ^ (attempt - 1)) by (apply Z.pow_pos_nonneg; lia).
  assert (H1 : 2 ^ (attempt - 1) <= 2 ^ 1014)
    by (apply Z.pow_le_mono_r; lia).
  assert (H2 : 0 < 2 ^ 1014) by (apply Z.pow_pos_nonneg; lia).
  rewrite pow2_1024.
  destruct (Z.ltb_spec (2 ^ (attempt - 1)) (1024 * 2 ^ 1014)); [|lia].
  destruct (Z.ltb_spec (2 ^ (attempt - 1) * 1000) (1024 * 2 ^ 1014)); [|lia].
  f_equal. lia.
Qed.

(** From attempt 1016 on the product is no double any more. *)
Lemma backoffMs_infinite (attempt : Z) :
  1016 <= attempt -> backoffMs attempt = Infinity.
Proof.
  intros Ha. unfold backoffMs, Math_pow, times, overflow.
  assert (H1 : 2 ^ 1015 <= 2 ^ (attempt - 1))
    by (apply Z.pow_le_mono_r; lia).
  assert (H2 : 0 < 2 ^ 1014) by (apply Z.pow_pos_nonneg; lia).
  assert (H3 : 2 ^ 1015 = 2 * 2 ^ 1014) by reflexivity.
  rewrite pow2_1024.
  destruct (Z.ltb_spec (2 ^ (attempt - 1)) (1024 * 2 ^ 1014)); [|reflexivity].
  destruct (Z.ltb_spec (2 ^ (attempt - 1) * 1000) (1024 * 2 ^ 1014));
    [lia | reflexivity].
Qed.

(** The timer waits the delay up to attempt 22; from attempt 23 on the
    delay is beyond [TIMEOUT_MAX] and the timer fires after 1 ms. *)
Lemma timerDelay_backoffMs (attempt : Z) :
  1 <= attempt ->
  timerDelay (backoffMs attempt)
  = if attempt <=? 22 then 1000 * 2 ^ (attempt - 1) else 1.
Proof.
  intros Ha.
  destruct (Z.leb_spec attempt 22) as [H22|H22].
  - rewrite backoffMs_finite by lia. unfold timerDelay, TIMEOUT_MAX.
    assert (H0 : 0 < 2 ^ (attempt - 1)) by (apply Z.pow_pos_nonneg; lia).
    assert (H1 : 2 ^ (attempt - 1) <= 2 ^ 21)
      by (apply Z.pow_le_mono_r; lia).
    change (2 ^ 21) with 2097152 in H1.
    destruct (Z.leb_spec 1 (1000 * 2 ^ (attempt - 1))); [|lia].
    destruct (Z.leb_spec (1000 * 2 ^ (attempt - 1)) 2147483647); [|lia].
    reflexivity.
  - destruct (Z.le_gt_cases attempt 1015) as [H|H].
    + rewrite backoffMs_finite by lia. unfold timerDelay, TIMEOUT_MAX.
      assert (H1 : 2 ^ 22 <= 2 ^ (attempt - 1))
        by (apply Z.pow_le_mono_r; lia).
      change (2 ^ 22) with 4194304 in H1.
      destruct (Z.leb_spec 1 (1000 * 2 ^ (attempt - 1))); [|reflexivity].
      destruct (Z.leb_spec (1000 * 2 ^ (attempt - 1)) 2147483647);
        [lia | reflexivity].
    + rewrite backoffMs_infinite by lia. reflexivity.
Qed.

(** C8, as amended.  The delay expression [Math.pow(2, n - 1) * 1000] is
    a pure value for every positive attempt number [n], with no ceiling
    of its own: it is [1000 * 2^(n-1)] milliseconds for [n] up to 1015,
    and [Infinity] from 1016 on, where the double overflows.  It is
    handed to the timer before every attempt [n >= 2] (nothing is waited
    before attempt 1); the timer waits it up to attempt 22, and 1 ms
    from attempt 23 on, where the delay exceeds the longest timer.  The
    retry ceiling is enforced by the loop: past it, the loop makes no
    attempt and waits for nothing. *)
Theorem C8_backoff_before_retries (attempt : Z) (w : World) :
  1 <= attempt ->
  (attempt <= 1015 -> backoffMs attempt = Finite (1000 * 2 ^ (attempt - 1))) /\
  (1016 <= attempt -> backoffMs attempt = Infinity) /\
  timerDelay (backoffMs attempt)
  = (if attempt <=? 22 then 1000 * 2 ^ (attempt - 1) else 1) /\
  retryBackoff attempt w =
    (if attempt =? 1 then (Ret tt, w)
     else
       (Ret tt,
        mkWorld (now w + timerDelay (backoffMs attempt)) (calls w)
          (trace w ++
           [ ALog (ToolExecution "progress" (Some attempt) None None);
             ASleep (backoffMs attempt) ])%list)) /\
  (forall env key rounds budget query maxRetries,
     maxRetries < attempt ->
     retryLoop env key rounds budget query attempt maxRetries w
     = (Ret (failedResult "All retry attempts failed"), w)).
Proof.
  intros Ha.
  split; [intros Hle; apply backoffMs_finite; lia|].
  split; [apply backoffMs_infinite|].
  split; [now apply timerDelay_backoffMs|].
  split.
  - unfold retryBackoff.
    destruct (Z.eqb_spec attempt 1) as [->|Hne]; [reflexivity|].
    destruct (Z.ltb_spec 1 attempt); [|lia].
    unfold bind, logToolExecution, emit, sleep. cbn [now calls trace].
    now rewrite <- app_assoc.
  - intros env key rounds budget query maxRetries Hlt.
    destruct rounds; cbn [retryLoop];
      (destruct (Z.leb_spec attempt maxRetries); [lia | reflexivity]).
Qed.

Lemma C8_backoff_before_retries_witness :
  1 <= 3 /\
  backoffMs 3 = Finite 4000 /\
  retryBackoff 3 initialWorld =
    (Ret tt,
     mkWorld 4000 0
       [ ALog (ToolExecution "progress" (Some 3) None None); ASleep 4000 ]).
Proof.
  assert (Ha : 1 <= 3) by lia.
  assert (Hle : 3 <= 1015) by lia.
  split; [exact Ha|]. split.
  - exact (proj1 (C8_backoff_before_retries 3 initialWorld Ha) Hle).
  - exact (proj1 (proj2 (proj2 (proj2
             (C8_backoff_before_retries 3 initialWorld Ha))))).
Defined.

(** C8, as the claim states it, fails for large attempt numbers: at
    attempt 1016 the delay expression is [Infinity] and not
    [1000 * 2^1015], and already the delay of attempt 23, 4194304000 ms,
    is beyond the longest timer, so that 1 ms is waited. *)
Lemma C8_large_attempt_counterexample :
  backoffMs 1016 = Infinity /\
  backoffMs 1016 <> Finite (1000 * 2 ^ (1016 - 1)) /\
  backoffMs 23 = Finite 4194304000 /\
  timerDelay (backoffMs 23) = 1 /\
  sleeps (trace (snd (retryBackoff 23 initialWorld))) = [Finite 4194304000] /\
  now (snd (retryBackoff 23 initialWorld)) = 1.
Proof.
  vm_compute. repeat split. discriminate.
Qed.

(** ** The wire format *)

Lemma submitRequest_shape (key : option string) (query : string) :
  isSubmitShape key query (submitRequest key query).
Proof.
  unfold isSubmitShape, submitRequest, submitBody, bearer.
  cbn [req_method req_url req_headers req_body].
  repeat split.
  eexists. split; [reflexivity|].
  repeat split. now eexists.
Qed.

(** * Further properties of the job *)

(** ** Frames: what the loops add to the trace *)

Lemma appends_refl (P : Action -> Prop) (w : World) : appends P w w.
Proof. exists []. now rewrite app_nil_r. Qed.

Lemma appends_trans (P : Action -> Prop) (w1 w2 w3 : World) :
  appends P w1 w2 -> appends P w2 w3 -> appends P w1 w3.
Proof.
  intros (t1 & E1 & F1) (t2 & E2 & F2).
  exists (t1 ++ t2)%list. rewrite E2, E1, app_assoc.
  split; [reflexivity | now apply Forall_app].
Qed.

Lemma appends_one (P : Action -> Prop) (w : World) (t : Z) (c : nat)
    (a : Action) :
  P a -> appends P w (mkWorld t c (trace w ++ [a])%list).
Proof. intros Ha. exists [a]. split; [reflexivity | now constructor]. Qed.

Section Frame.

Variable env : Env.
Variable key : option string.
Variable query : string.
Variable P : Action -> Prop.

Hypothesis P_sleep : forall ms, P (ASleep ms).
Hypothesis P_tool :
  forall phase attempt error, P (ALog (ToolExecution phase attempt None error)).
Hypothesis P_api : forall st error, P (ALog (ExternalApiCall st error)).
Hypothesis P_poll : forall responseId, P (AFetch (pollRequest key responseId)).

Lemma pollLoop_appends (budget : nat) :
  forall responseId pollStartTime pollData pollCount w,
    appends P w
      (snd (pollLoop env key budget responseId pollStartTime pollData
              pollCount w)).
Proof.
  induction budget as [|budget IH]; intros; simpl;
    destruct (isPending (resp_status pollData)); unfold_monad; simpl;
    try apply appends_refl;
    destruct (MAX_POLL_TIME_MS <? now w - pollStartTime); simpl;
    try apply appends_refl.
  set (w1 := mkWorld (now w + POLL_INTERVAL_MS) (calls w)
               (trace w ++ [ASleep POLL_INTERVAL_MS])%list).
  assert (H1 : appends P w w1) by (apply appends_one, P_sleep).
  set (w2 := mkWorld _ _ _).
  assert (H2 : appends P w1 w2) by (apply (appends_one P w1), P_poll).
  pose proof (appends_trans _ _ _ _ H1 H2) as H12.
  destruct (snd (env (calls w))); simpl; trivial.
  destruct (_ =? 0); simpl.
  - eapply appends_trans; [|apply IH].
    eapply appends_trans; [exact H12 | apply (appends_one P w2), P_tool].
  - eapply appends_trans; [exact H12 | apply IH].
Qed.

Lemma finishAttempt_appends (responseId : string) (pollData : ResponseData)
    (w : World) :
  appends P w (snd (finishAttempt responseId pollData w)).
Proof.
  unfold finishAttempt.
  destruct (isRemoteFailure _); unfold_monad; simpl; [apply appends_refl|].
  destruct (extractContent pollData) as [text|]; [|apply appends_refl].
  destruct (truthy (Some text)); simpl;
    [apply appends_one, P_api | apply appends_refl].
Qed.

(** An attempt is one submit request followed by actions in [P]. *)
Lemma attemptOnce_appends (budget : nat) (w : World) :
  appends P
    (mkWorld (now w + Z.of_N (fst (env (calls w)))) (S (calls w))
       (trace w ++ [AFetch (submitRequest key query)])%list)
    (snd (attemptOnce env key budget query w)).
Proof.
  unfold attemptOnce. unfold bind at 1. unfold fetch at 1.
  set (w1 := mkWorld _ _ _).
  destruct (snd (env (calls w))); unfold_monad; simpl;
    try apply appends_refl.
  - apply (appends_one P w1), P_api.
  - set (w2 := mkWorld _ _ _).
    assert (H2 : appends P w1 w2) by (apply (appends_one P w1), P_tool).
    pose proof (pollLoop_appends budget (resp_id data) (now w1) data 0 w2)
      as H3.
    destruct (pollLoop _ _ _ _ _ _ _ w2) as [[polled| |] w3]; simpl in *.
    + eapply appends_trans; [|apply finishAttempt_appends].
      eapply appends_trans; eassumption.
    + eapply appends_trans; eassumption.
    + eapply appends_trans; eassumption.
Qed.


Hypothesis P_submit : P (AFetch (submitRequest key query)).


End Frame.

(** ** Bounds on the requests of a job *)

Lemma pollCountOf_app (t1 t2 : list Action) :
  pollCountOf (t1 ++ t2) = (pollCountOf t1 + pollCountOf t2)%nat.
Proof. unfold pollCountOf. now rewrite filter_app, length_app. Qed.

Lemma submitCount_notSubmit (t : list Action) :
  Forall notSubmit t -> submitCount t = 0%nat.
Proof.
  unfold submitCount. induction 1 as [|a t Ha _ IH]; [reflexivity|].
  simpl. unfold notSubmit in Ha. now rewrite Ha.
Qed.

Lemma notSubmit_poll (key : option string) (responseId : string) :
  notSubmit (AFetch (pollRequest key responseId)).
Proof. reflexivity. Qed.

#[local] Arguments Nat.mul : simpl never.

Section Bounds.

Variable env : Env.
Variable key : option string.
Variable query : string.

(** The polls of the poll loop are [POLL_INTERVAL_MS] apart and stop
    once the deadline has passed. *)
Lemma pollLoop_poll_bound (budget : nat) :
  forall responseId pollStartTime pollData pollCount w,
    exists k,
      pollCountOf
        (trace (snd (pollLoop env key budget responseId pollStartTime
                       pollData pollCount w)))
      = (pollCountOf (trace w) + k)%nat /\
      (k = 0%nat \/
       Z.of_nat k * POLL_INTERVAL_MS + (now w - pollStartTime)
       <= MAX_POLL_TIME_MS + POLL_INTERVAL_MS).
Proof.
  induction budget as [|budget IH]; intros; simpl;
    destruct (isPending (resp_status pollData)); unfold_monad; simpl;
    try (exists 0%nat; split; [lia | now left]);
    destruct (Z.ltb_spec MAX_POLL_TIME_MS (now w - pollStartTime)); simpl;
    try (exists 0%nat; split; [lia | now left]).
  assert (Hone : forall o : Outcome (ResponseData * Z),
            exists k,
              pollCountOf
                (trace
                   (snd (o,
                         mkWorld
                           (now w + POLL_INTERVAL_MS
                            + Z.of_N (fst (env (calls w))))
                           (S (calls w))
                           ((trace w ++ [ASleep POLL_INTERVAL_MS])
                            ++ [AFetch (pollRequest key responseId)])%list)))
              = (pollCountOf (trace w) + k)%nat /\
              (k = 0%nat \/
               Z.of_nat k * POLL_INTERVAL_MS + (now w - pollStartTime)
               <= MAX_POLL_TIME_MS + POLL_INTERVAL_MS)).
  { intros o. exists 1%nat. cbn [snd trace]. rewrite !pollCountOf_app.
    change (pollCountOf [AFetch (pollRequest key responseId)]) with 1%nat.
    change (pollCountOf [ASleep POLL_INTERVAL_MS]) with 0%nat.
    split; [lia | right].
    unfold POLL_INTERVAL_MS, MAX_POLL_TIME_MS in *. lia. }
  destruct (snd (env (calls w))) as [e|st ed|e|d]; simpl;
    try exact (Hone Diverge).
  destruct (_ =? 0); simpl;
    match goal with
    | |- context [pollLoop _ _ _ _ _ _ _ ?w3] =>
        destruct (IH responseId pollStartTime d (pollCount + 1) w3)
          as (k & Hk & Hb)
    end;
    exists (S k); rewrite Hk; cbn [trace now] in *;
    rewrite !pollCountOf_app;
    change (pollCountOf [AFetch (pollRequest key responseId)]) with 1%nat;
    change (pollCountOf [ASleep POLL_INTERVAL_MS]) with 0%nat;
    change (pollCountOf [ALog (ToolExecution "progress" None None None)])
      with 0%nat;
    (split; [lia | right]);
    unfold POLL_INTERVAL_MS, MAX_POLL_TIME_MS in *; lia.
Qed.

Lemma finishAttempt_polls (responseId : string) (pollData : ResponseData)
    (w : World) :
  pollCountOf (trace (snd (finishAttempt responseId pollData w)))
  = pollCountOf (trace w).
Proof.
  unfold finishAttempt.
  destruct (isRemoteFailure _); unfold_monad; simpl; trivial.
  destruct (extractContent pollData) as [text|]; trivial.
  destruct (truthy (Some text)); simpl; trivial.
  rewrite pollCountOf_app. cbn. lia.
Qed.

Lemma attemptOnce_counts (budget : nat) (w : World) :
  submitCount (trace (snd (attemptOnce env key budget query w)))
  = S (submitCount (trace w)) /\
  (pollCountOf (trace (snd (attemptOnce env key budget query w)))
   <= pollCountOf (trace w) + maxPollsPerAttempt)%nat.
Proof.
  split.
  - destruct (attemptOnce_appends env key query notSubmit
                ltac:(reflexivity) ltac:(reflexivity) ltac:(reflexivity)
                (notSubmit_poll key) budget w) as (t & Et & Ft).
    rewrite Et. cbn [trace]. rewrite !submitCount_app.
    rewrite (submitCount_notSubmit t Ft).
    change (submitCount [AFetch (submitRequest key query)]) with 1%nat. lia.
  - unfold attemptOnce. unfold bind at 1. unfold fetch at 1.
    destruct (snd (env (calls w))) as [e|st ed|e|d]; unfold_monad; simpl;
      rewrite ?pollCountOf_app;
      change (pollCountOf [AFetch (submitRequest key query)]) with 0%nat;
      try (cbn; lia).
    set (w2 := mkWorld _ _ _).
    destruct (pollLoop_poll_bound budget (resp_id d)
                (now w + Z.of_N (fst (env (calls w)))) d 0 w2)
      as (k & Hk & Hb).
    assert (Hk121 : (k <= maxPollsPerAttempt)%nat).
    { destruct Hb as [-> | Hb]; [unfold maxPollsPerAttempt; lia|].
      subst w2. cbn [now] in Hb.
      unfold POLL_INTERVAL_MS, MAX_POLL_TIME_MS, maxPollsPerAttempt in *.
      lia. }
    assert (Hw2 : pollCountOf (trace w2) = pollCountOf (trace w)).
    { subst w2. cbn [trace]. rewrite !pollCountOf_app.
      change (pollCountOf [AFetch (submitRequest key query)]) with 0%nat.
      cbn. lia. }
    destruct (pollLoop _ _ _ _ _ _ _ w2) as [[polled| |] w3]; simpl in *;
      rewrite ?finishAttempt_polls; lia.
Qed.

Lemma retryBackoff_counts (attempt : Z) (w : World) :
  submitCount (trace (snd (retryBackoff attempt w))) = submitCount (trace w) /\
  pollCountOf (trace (snd (retryBackoff attempt w))) = pollCountOf (trace w).
Proof.
  unfold retryBackoff. destruct (1 <? attempt); unfold_monad; simpl;
    [|now split].
  rewrite !submitCount_app, !pollCountOf_app. cbn. lia.
Qed.

Lemma retryLoop_counts (rounds budget : nat) :
  forall attempt maxRetries w w',
    w' = snd (retryLoop env key rounds budget query attempt maxRetries w) ->
    (submitCount (trace w')
     <= submitCount (trace w) + Z.to_nat (maxRetries - attempt + 1))%nat /\
    (pollCountOf (trace w')
     <= pollCountOf (trace w)
        + maxPollsPerAttempt * Z.to_nat (maxRetries - attempt + 1))%nat.
Proof.
  unfold maxPollsPerAttempt.
  induction rounds as [|rounds IH]; intros attempt maxRetries w w' E;
    cbn [retryLoop] in E;
    destruct (Z.leb_spec attempt maxRetries); unfold ret, diverge in E;
    cbn [snd] in E; try (subst w'; lia).
  unfold bind at 1 in E.
  destruct (retryBackoff_counts attempt w) as [Hs0 Hp0].
  pose proof (retryBackoff_returns attempt w) as R1.
  destruct (retryBackoff attempt w) as [o w1]; cbn [fst snd] in *; subst o.
  unfold bind at 1, try at 1 in E.
  destruct (attemptOnce_counts budget w1) as [Hs1 Hp1].
  unfold maxPollsPerAttempt in Hp1.
  assert (Hn : Z.to_nat (maxRetries - attempt + 1)
               = S (Z.to_nat (maxRetries - (attempt + 1) + 1))) by lia.
  destruct (attemptOnce env key budget query w1) as [[r|e|] w2];
    cbn [fst snd] in *; try (subst w'; lia).
  unfold bind, logExternalApiCall, emit in E. cbn [fst snd] in E.
  assert (Hlog : forall d : LogData,
            submitCount (trace w2 ++ [ALog d]) = submitCount (trace w2) /\
            pollCountOf (trace w2 ++ [ALog d]) = pollCountOf (trace w2)).
  { intros d. rewrite submitCount_app, pollCountOf_app.
    change (submitCount [ALog d]) with 0%nat.
    change (pollCountOf [ALog d]) with 0%nat. lia. }
  destruct (Hlog (ExternalApiCall 500 (Some (message e)))) as [Hs3 Hp3].
  destruct (attempt =? maxRetries); cbn [snd trace] in E;
    [subst w'; cbn [trace]; lia|].
  destruct (IH (attempt + 1) maxRetries _ _ E) as [Hs Hp].
  cbn [trace] in Hs, Hp. lia.
Qed.

End Bounds.

(** X1.  One attempt sends exactly one submit request and at most 121
    poll requests, whatever the service answers and however long its
    answers take. *)
Theorem attempt_sends_one_submit_and_bounded_polls
    (env : Env) (key : option string) (query : string) (budget : nat)
    (w : World) :
  let w' := snd (attemptOnce env key budget query w) in
  submitCount (trace w') = S (submitCount (trace w)) /\
  (pollCountOf (trace w') <= pollCountOf (trace w) + 121)%nat.
Proof.
  cbv zeta.
  destruct (attemptOnce_counts env key query budget w) as [Hsubmit Hpoll].
  unfold maxPollsPerAttempt in Hpoll.
  split; [exact Hsubmit | exact Hpoll].
Qed.

(** X2.  A job never exceeds its retry ceiling: [executeDeepResearch]
    sends at most [maxRetries] submit requests and at most
    [121 * maxRetries] poll requests; with a ceiling of zero or less it
    sends nothing. *)
Theorem job_requests_bounded_by_ceiling
    (env : Env) (key : option string) (query : string) (rounds budget : nat)
    (maxRetries : Z) (w : World) :
  let w' := snd (executeDeepResearch env key rounds budget query maxRetries w)
  in
  (submitCount (trace w') <= submitCount (trace w) + Z.to_nat maxRetries)%nat /\
  (pollCountOf (trace w')
   <= pollCountOf (trace w) + 121 * Z.to_nat maxRetries)%nat.
Proof.
  unfold executeDeepResearch.
  pose proof (retryLoop_counts env key query rounds budget 1 maxRetries w
                _ eq_refl) as H.
  replace (maxRetries - 1 + 1) with maxRetries in H by lia. exact H.
Qed.

(** ** A job that only meets transport failures *)

Lemma sleeps_app (t1 t2 : list Action) :
  sleeps (t1 ++ t2) = (sleeps t1 ++ sleeps t2)%list.
Proof. unfold sleeps. apply flat_map_app. Qed.

Lemma requests_app (t1 t2 : list Action) :
  requests (t1 ++ t2) = (requests t1 ++ requests t2)%list.
Proof. unfold requests. apply flat_map_app. Qed.

Lemma sumZ_app (l1 l2 : list Z) : sumZ (l1 ++ l2) = sumZ l1 + sumZ l2.
Proof.
  unfold sumZ. induction l1 as [|x l1 IH]; simpl; [reflexivity|].
  rewrite IH. lia.
Qed.

Lemma waited_app (l1 l2 : list Number) :
  waited (l1 ++ l2) = waited l1 + waited l2.
Proof. unfold waited. now rewrite map_app, sumZ_app. Qed.

Lemma retryDelays_app (n1 n2 : nat) :
  forall a,
    retryDelays a (n1 + n2)
    = (retryDelays a n1 ++ retryDelays (a + Z.of_nat n1) n2)%list.
Proof.
  induction n1 as [|n1 IH]; intros a.
  - cbn [retryDelays Nat.add app]. f_equal. lia.
  - cbn [retryDelays Nat.add]. rewrite IH, <- app_assoc.
    do 3 f_equal. lia.
Qed.

(** Up to attempt 22 the waits before attempts [a], ..., [a + n - 1] add
    up to a difference of two powers of two. *)
Lemma retryDelays_waited (n : nat) :
  forall a, 2 <= a -> a + Z.of_nat n - 1 <= 22 ->
    waited (retryDelays a n)
    = 1000 * (2 ^ (a + Z.of_nat n - 1) - 2 ^ (a - 1)).
Proof.
  induction n as [|n IH]; intros a Ha Hb.
  - cbn [retryDelays]. unfold waited. cbn [map sumZ fold_right].
    replace (a + Z.of_nat 0 - 1) with (a - 1) by lia.
    lia.
  - cbn [retryDelays]. destruct (Z.ltb_spec 1 a); [|lia].
    rewrite waited_app, IH by lia.
    unfold waited. cbn [map sumZ fold_right].
    rewrite timerDelay_backoffMs by lia.
    destruct (Z.leb_spec a 22); [|lia].
    replace (a + 1 + Z.of_nat n - 1) with (a + Z.of_nat (S n) - 1) by lia.
    replace (a + 1 - 1) with (Z.succ (a - 1)) by lia.
    rewrite Z.pow_succ_r by lia. lia.
Qed.

(** From attempt 23 on every wait is 1 ms. *)
Lemma retryDelays_clamped (n : nat) :
  forall a, 23 <= a -> waited (retryDelays a n) = Z.of_nat n.
Proof.
  induction n as [|n IH]; intros a Ha.
  - reflexivity.
  - cbn [retryDelays]. destruct (Z.ltb_spec 1 a); [|lia].
    rewrite waited_app, IH by lia.
    unfold waited. cbn [map sumZ fold_right].
    rewrite timerDelay_backoffMs by lia.
    destruct (Z.leb_spec a 22); lia.
Qed.

(** The time waited by a job that uses all of its [m] attempts. *)
Lemma retryDelays_total (m : Z) :
  1 <= m ->
  waited (retryDelays 1 (Z.to_nat m))
  = if m <=? 22 then 1000 * (2 ^ m - 2)
    else 1000 * (2 ^ 22 - 2) + (m - 22).
Proof.
  intros Hm.
  assert (Hsplit : forall n, retryDelays 1 (S n) = retryDelays 2 n).
  { intros n. cbn [retryDelays]. change (1 <? 1) with false. reflexivity. }
  destruct (Z.leb_spec m 22) as [H22|H22].
  - replace (Z.to_nat m) with (S (Z.to_nat (m - 1))) by lia.
    rewrite Hsplit, retryDelays_waited by lia.
    replace (2 + Z.of_nat (Z.to_nat (m - 1)) - 1) with m by lia.
    change (2 ^ (2 - 1)) with 2. reflexivity.
  - replace (Z.to_nat m) with (S (21 + Z.to_nat (m - 22))) by lia.
    rewrite Hsplit, retryDelays_app, waited_app.
    rewrite retryDelays_waited by lia.
    rewrite retryDelays_clamped by lia.
    change (2 + Z.of_nat 21 - 1) with 22.
    change (2 ^ (2 - 1)) with 2. lia.
Qed.

Section Exhaustion.

Variable env : Env.
Variable key : option string.
Variable query : string.

Lemma failed_round (rounds budget : nat) (attempt maxRetries : Z)
    (w : World) (e : JsError) :
  attempt <= maxRetries ->
  submitFailure (snd (env (calls w))) = Some e ->
  exists w2,
    calls w2 = S (calls w) /\
    requests (trace w2) = (requests (trace w) ++ [submitRequest key query])%list /\
    sleeps (trace w2)
    = (sleeps (trace w)
       ++ (if 1 <? attempt then [backoffMs attempt] else []))%list /\
    retryLoop env key (S rounds) budget query attempt maxRetries w =
    if attempt =? maxRetries then
      (Ret (failedResult (orElse (Some (message e)) "Unknown error occurred")),
       w2)
    else retryLoop env key rounds budget query (attempt + 1) maxRetries w2.
Proof.
  intros Hle He.
  assert (Hb : exists w0,
            retryBackoff attempt w = (Ret tt, w0) /\ calls w0 = calls w /\
            requests (trace w0) = requests (trace w) /\
            sleeps (trace w0)
            = (sleeps (trace w)
               ++ (if 1 <? attempt then [backoffMs attempt] else []))%list).
  { unfold retryBackoff. destruct (1 <? attempt); unfold_monad; simpl;
      eexists; (split; [reflexivity|]); cbn [calls trace];
      rewrite ?requests_app, ?sleeps_app, ?app_nil_r; cbn;
      rewrite ?app_nil_r; auto. }
  destruct Hb as (w0 & Eb & Hc0 & Hr0 & Hs0).
  assert (Ha : exists w1,
            attemptOnce env key budget query w0 = (Throw e, w1) /\
            calls w1 = S (calls w0) /\
            requests (trace w1)
            = (requests (trace w0) ++ [submitRequest key query])%list /\
            sleeps (trace w1) = sleeps (trace w0)).
  { rewrite <- Hc0 in He.
    unfold attemptOnce. unfold bind at 1, fetch at 1.
    destruct (snd (env (calls w0))); simpl in He; inversion He; subst;
      unfold_monad; simpl; eexists; (split; [reflexivity|]);
      cbn [calls trace]; rewrite ?requests_app, ?sleeps_app; cbn;
      rewrite ?app_nil_r; auto. }
  destruct Ha as (w1 & Ea & Hc1 & Hr1 & Hs1).
  assert (Ea' : attemptOnce env key budget query (snd (retryBackoff attempt w))
                = (Throw e, w1)) by (rewrite Eb; exact Ea).
  rewrite (retryLoop_catch env key query rounds budget attempt maxRetries
             w w1 e Hle Ea').
  eexists. split; [|split; [|split; [|reflexivity]]];
    unfold logExternalApiCall, emit; cbn [snd calls trace];
    rewrite ?requests_app, ?sleeps_app; cbn; rewrite ?app_nil_r; congruence.
Qed.

Lemma failed_rounds (budget : nat) (n : nat) :
  forall attempt w,
    (forall k, submitFailure (snd (env k)) <> None) ->
    exists e w',
      submitFailure (snd (env (calls w + n)%nat)) = Some e /\
      retryLoop env key (S n) budget query attempt (attempt + Z.of_nat n) w =
        (Ret (failedResult (orElse (Some (message e)) "Unknown error occurred")),
         w') /\
      calls w' = (calls w + S n)%nat /\
      requests (trace w')
      = (requests (trace w) ++ repeat (submitRequest key query) (S n))%list /\
      sleeps (trace w') = (sleeps (trace w) ++ retryDelays attempt (S n))%list.
Proof.
  induction n as [|n IH]; intros attempt w Hfail.
  - destruct (submitFailure (snd (env (calls w)))) as [e|] eqn:He;
      [|now destruct (Hfail (calls w))].
    destruct (failed_round 0 budget attempt (attempt + Z.of_nat 0) w e
                ltac:(lia) He) as (w2 & Hc & Hr & Hs & ->).
    replace (attempt =? attempt + Z.of_nat 0) with true
      by (symmetry; apply Z.eqb_eq; lia).
    exists e, w2. rewrite Nat.add_0_r. repeat split; trivial; try lia.
    cbn [retryDelays]. now rewrite app_nil_r.
  - destruct (submitFailure (snd (env (calls w)))) as [e|] eqn:He;
      [|now destruct (Hfail (calls w))].
    destruct (failed_round (S n) budget attempt (attempt + Z.of_nat (S n)) w e
                ltac:(lia) He) as (w2 & Hc & Hr & Hs & ->).
    replace (attempt =? attempt + Z.of_nat (S n)) with false
      by (symmetry; apply Z.eqb_neq; lia).
    destruct (IH (attempt + 1) w2 Hfail) as (e' & w' & He' & Hrun & Hc' & Hr' & Hs').
    replace (attempt + 1 + Z.of_nat n) with (attempt + Z.of_nat (S n)) in Hrun
      by lia.
    exists e', w'. repeat split.
    + rewrite <- He'. do 3 f_equal. lia.
    + exact Hrun.
    + lia.
    + rewrite Hr', Hr, <- app_assoc. reflexivity.
    + rewrite Hs', Hs, <- app_assoc. reflexivity.
Qed.

End Exhaustion.

(** X3.  For every retry ceiling [m >= 1]: if every submit call meets a
    transport failure, the job makes exactly [m] attempts -- [m] submit
    requests and no poll --, sets a timer with the backoff delay before
    each attempt [n >= 2], and ends failed with the message of the last
    error (or the fallback text if that message is empty).  The timers
    take [1000 * (2^m - 2)] ms in all for [m] up to 22; every further
    attempt adds 1 ms only, its delay being beyond the longest timer. *)
Theorem job_exhausts_ceiling_on_transport_failures
    (env : Env) (key : option string) (query : string) (budget : nat)
    (maxRetries : Z) (w : World) :
  1 <= maxRetries ->
  (forall n, submitFailure (snd (env n)) <> None) ->
  exists e w',
    submitFailure (snd (env (calls w + Z.to_nat maxRetries - 1)%nat)) = Some e /\
    executeDeepResearch env key (roundsFor maxRetries) budget query
      maxRetries w =
      (Ret (failedResult (orElse (Some (message e)) "Unknown error occurred")),
       w') /\
    requests (trace w')
    = (requests (trace w)
       ++ repeat (submitRequest key query) (Z.to_nat maxRetries))%list /\
    sleeps (trace w')
    = (sleeps (trace w) ++ retryDelays 1 (Z.to_nat maxRetries))%list /\
    waited (retryDelays 1 (Z.to_nat maxRetries))
    = (if maxRetries <=? 22 then 1000 * (2 ^ maxRetries - 2)
       else 1000 * (2 ^ 22 - 2) + (maxRetries - 22)).
Proof.
  intros Hm Hfail. unfold executeDeepResearch, roundsFor.
  pose proof (retryDelays_total maxRetries Hm) as Hwait.
  destruct (Z.to_nat maxRetries) as [|n] eqn:En; [lia|].
  destruct (failed_rounds env key query budget n 1 w Hfail)
    as (e & w' & He & Hrun & _ & Hr & Hs).
  replace (1 + Z.of_nat n) with maxRetries in Hrun by lia.
  exists e, w'. repeat split; trivial.
  rewrite <- He. do 3 f_equal. lia.
Qed.

Lemma job_exhausts_ceiling_on_transport_failures_witness :
  (1 <= 5 /\ forall n, submitFailure (snd (alwaysUnavailable n)) <> None) /\
  exists e w',
    submitFailure (snd (alwaysUnavailable 4%nat)) = Some e /\
    executeDeepResearch alwaysUnavailable testKey (roundsFor 5) pollBudget
      "q" 5 initialWorld =
      (Ret (failedResult (orElse (Some (message e)) "Unknown error occurred")),
       w') /\
    requests (trace w') = repeat (submitRequest testKey "q") 5 /\
    sleeps (trace w') = retryDelays 1 5 /\
    waited (retryDelays 1 5) = 1000 * (2 ^ 5 - 2).
Proof.
  assert (Hm : 1 <= 5) by lia.
  assert (H : forall n, submitFailure (snd (alwaysUnavailable n)) <> None)
    by (intros n; discriminate).
  split; [split; assumption|].
  exact (job_exhausts_ceiling_on_transport_failures alwaysUnavailable testKey
           "q" pollBudget 5 initialWorld Hm H).
Defined.

(** ** The job as a sequence of attempts *)

Lemma pollRequest_shape (key : option string) (responseId : string) :
  isPollShape key (pollRequest key responseId).
Proof.
  unfold isPollShape, pollRequest, bearer.
  cbn [req_method req_url req_headers req_body].
  repeat split. now exists responseId.
Qed.

Lemma requests_polls (key : option string) (t : list Action) :
  Forall (pollAction key) t -> Forall (isPollShape key) (requests t).
Proof.
  induction 1 as [|a t Ha _ IH]; [constructor|].
  destruct a as [ms|req|d]; cbn; try exact IH.
  constructor; [exact Ha | exact IH].
Qed.

Section Attempts.

Variable env : Env.
Variable key : option string.
Variable query : string.

(** The requests of an attempt: its submit request, then polls. *)
Lemma attemptOnce_block (budget : nat) (w : World) :
  exists polls,
    requests (trace (snd (attemptOnce env key budget query w)))
    = (requests (trace w) ++ submitRequest key query :: polls)%list /\
    Forall (isPollShape key) polls.
Proof.
  destruct (attemptOnce_appends env key query (pollAction key)
              (fun _ => I) (fun _ _ _ => I) (fun _ _ => I)
              (pollRequest_shape key) budget w) as (t & Et & Ft).
  exists (requests t). split; [|now apply requests_polls].
  rewrite Et. cbn [trace]. rewrite !requests_app. cbn.
  now rewrite <- app_assoc.
Qed.

Lemma retryLoop_blocks (rounds budget : nat) :
  forall attempt maxRetries w w',
    w' = snd (retryLoop env key rounds budget query attempt maxRetries w) ->
    exists blocks,
      requests (trace w') = (requests (trace w) ++ List.concat blocks)%list /\
      Forall (isAttemptBlock key query) blocks /\
      (attempt <= maxRetries -> (0 < rounds)%nat -> blocks <> []) /\
      (List.length blocks <= Z.to_nat (maxRetries - attempt + 1))%nat.
Proof.
  induction rounds as [|rounds IH]; intros attempt maxRetries w w' E;
    cbn [retryLoop] in E;
    destruct (Z.leb_spec attempt maxRetries); unfold ret, diverge in E;
    cbn [snd] in E;
    try (subst w'; exists []; cbn [List.concat List.length];
         rewrite app_nil_r; repeat split; [constructor | lia | lia]).
  unfold bind at 1 in E.
  destruct (retryBackoff_quiet attempt w) as [_ Hr0].
  pose proof (retryBackoff_returns attempt w) as R1.
  destruct (retryBackoff attempt w) as [o w1]; cbn [fst snd] in *; subst o.
  unfold bind at 1, try at 1 in E.
  destruct (attemptOnce_block budget w1) as (polls & Hr1 & Fp).
  rewrite Hr0 in Hr1.
  assert (Hblock : isAttemptBlock key query (submitRequest key query :: polls))
    by (split; [apply submitRequest_shape | exact Fp]).
  assert (Hone : forall w2,
            requests (trace w2)
            = (requests (trace w) ++ submitRequest key query :: polls)%list ->
            exists blocks,
              requests (trace w2) = (requests (trace w) ++ List.concat blocks)%list /\
              Forall (isAttemptBlock key query) blocks /\
              (attempt <= maxRetries -> (0 < S rounds)%nat -> blocks <> []) /\
              (List.length blocks <= Z.to_nat (maxRetries - attempt + 1))%nat).
  { intros w2 Hw2. exists [submitRequest key query :: polls].
    cbn [List.concat List.length]. rewrite app_nil_r.
    repeat split; [exact Hw2 | now constructor | discriminate | lia]. }
  destruct (attemptOnce env key budget query w1) as [[r|e|] w2];
    cbn [fst snd] in *; try (subst w'; now apply Hone).
  unfold bind, logExternalApiCall, emit in E. cbn [fst snd] in E.
  destruct (attempt =? maxRetries); cbn [snd] in E.
  - subst w'. apply Hone. cbn [trace]. rewrite requests_app. cbn.
    now rewrite app_nil_r.
  - destruct (IH (attempt + 1) maxRetries _ _ E)
      as (blocks & Hreq & Fb & _ & Hlen).
    exists ((submitRequest key query :: polls) :: blocks).
    cbn [trace] in Hreq. rewrite requests_app in Hreq. cbn in Hreq.
    rewrite app_nil_r, Hr1 in Hreq.
    repeat split.
    + rewrite Hreq. cbn [List.concat]. now rewrite <- !app_assoc.
    + now constructor.
    + discriminate.
    + cbn [List.length]. lia.
Qed.

(** The run returns the result of its successful attempt, or a failed
    result when it has none; it makes one submit request for each
    attempt. *)
Lemma retryLoop_attempts (budget : nat) (rounds : nat) :
  forall attempt maxRetries w r w',
    retryLoop env key rounds budget query attempt maxRetries w = (Ret r, w') ->
    let attempts :=
      attemptsOf env key rounds budget query attempt maxRetries w in
    (forall r0, In (Ret r0) attempts -> r = r0) /\
    (existsb succeeded attempts = false -> status r = failed) /\
    submitCount (trace w')
    = (submitCount (trace w) + List.length attempts)%nat /\
    (attempt <= maxRetries -> attempts <> []).
Proof.
  induction rounds as [|rounds IH]; intros attempt maxRetries w r w';
    cbn [retryLoop attemptsOf];
    destruct (Z.leb_spec attempt maxRetries); unfold ret, diverge;
    try discriminate;
    try (intros [= <- <-]; cbn [In existsb List.length];
         repeat split; [contradiction | lia | lia]).
  unfold bind at 1.
  destruct (retryBackoff_counts attempt w) as [Hs0 _].
  pose proof (retryBackoff_returns attempt w) as R1.
  destruct (retryBackoff attempt w) as [o w1]; cbn [fst snd] in *; subst o.
  unfold bind at 1, try at 1.
  destruct (attemptOnce_counts env key query budget w1) as [Hs1 _].
  destruct (attemptOnce env key budget query w1) as [[r1|e|] w2];
    cbn [fst snd] in *; try discriminate.
  - intros [= <- <-]. cbn [In existsb succeeded List.length orb].
    repeat split; try discriminate; try lia.
    intros r0 [[= <-]|[]]. reflexivity.
  - unfold bind at 1. unfold logExternalApiCall at 1, emit at 1.
    cbn [fst snd].
    destruct (attempt =? maxRetries).
    + unfold ret. intros [= <- <-].
      cbn [In existsb succeeded List.length orb trace].
      rewrite submitCount_app. cbn.
      repeat split; try discriminate; try lia.
      intros r0 [[=]|[]].
    + intros Hrun.
      destruct (IH (attempt + 1) maxRetries _ r w' Hrun)
        as (Hin & Hnone & Hcount & _).
      unfold logExternalApiCall, emit. cbn [snd].
      cbn [In existsb succeeded List.length orb trace] in *.
      rewrite submitCount_app in Hcount. cbn in Hcount.
      repeat split; try discriminate; try lia.
      * intros r0 [[=]|Hr0]. now apply Hin.
      * exact Hnone.
Qed.

End Attempts.

(** C9.  The requests of a job are those of its attempts, one after the
    other, and the requests of an attempt are its submit request
    followed by polls only.  Every submit request is a [POST] to the
    [/responses] endpoint with the bearer token of the API key in its
    [Authorization] header and a JSON body that holds a model identifier
    string, an [input] array with one user turn whose content part
    carries the instruction and the query, [reasoning] equal to
    [{summary: "auto"}], a [tools] array enabling web search, and
    [background: true]; a poll is a [GET] without a body.  A job with a
    retry ceiling of at least 1 sends at least one submit request. *)
Theorem C9_submit_request_shape
    (env : Env) (key : option string) (query : string) (rounds budget : nat)
    (maxRetries : Z) (w : World) :
  exists blocks : list (list Request),
    requests
      (trace (snd (executeDeepResearch env key rounds budget query
                     maxRetries w)))
    = (requests (trace w) ++ List.concat blocks)%list /\
    Forall (isAttemptBlock key query) blocks /\
    (1 <= maxRetries -> (0 < rounds)%nat -> blocks <> []) /\
    (List.length blocks <= Z.to_nat maxRetries)%nat /\
    (forall req,
       In req (List.concat blocks) -> req_method req = "POST" ->
       isSubmitShape key query req).
Proof.
  unfold executeDeepResearch.
  destruct (retryLoop_blocks env key query rounds budget 1 maxRetries w _
              eq_refl) as (blocks & Hreq & Fb & Hne & Hlen).
  exists blocks. split; [exact Hreq|]. split; [exact Fb|].
  split; [exact Hne|]. split; [lia|].
  intros req Hin Hpost.
  apply in_concat in Hin. destruct Hin as (block & Hblock & Hin).
  rewrite Forall_forall in Fb. specialize (Fb block Hblock).
  destruct block as [|submit polls]; [contradiction|].
  destruct Fb as [Hsubmit Hpolls].
  destruct Hin as [<-|Hin]; [exact Hsubmit|].
  rewrite Forall_forall in Hpolls.
  destruct (Hpolls req Hin) as (Hget & _).
  rewrite Hpost in Hget. discriminate Hget.
Qed.

Lemma C9_submit_request_shape_witness :
  (1 <= 3 /\ (0 < roundsFor 3)%nat) /\
  exists blocks : list (list Request),
    requests
      (trace (snd (executeDeepResearch remoteFailureThenSuccess testKey
                     (roundsFor 3) pollBudget "q" 3 initialWorld)))
    = List.concat blocks /\
    Forall (isAttemptBlock testKey "q") blocks /\
    blocks <> [].
Proof.
  assert (Hm : 1 <= 3) by lia.
  assert (Hr : (0 < roundsFor 3)%nat) by (vm_compute; lia).
  split; [split; assumption|].
  destruct (C9_submit_request_shape remoteFailureThenSuccess testKey "q"
              (roundsFor 3) pollBudget 3 initialWorld)
    as (blocks & Hreq & Fb & Hne & _).
  exists blocks. split; [exact Hreq|]. split; [exact Fb|].
  exact (Hne Hm Hr).
Defined.

(** ** Totality *)

(** C10.  For every environment, query, API key and retry ceiling
    [maxRetries >= 1], [executeDeepResearch] returns a result: it neither
    throws nor runs for ever (the loop budgets [roundsFor maxRetries] and
    any poll budget from [pollBudget] on are never exhausted).  The
    result is either a completed one with non-empty content or a failed
    one with a non-empty error message.  The run makes at least one
    attempt and one submit request for each attempt; the result is that
    of its successful attempt if it has one, and it is a failed one
    whenever no attempt of the run succeeds. *)
Theorem C10_executeDeepResearch_total
    (env : Env) (key : option string) (query : string) (maxRetries : Z)
    (budget : nat) (w : World) :
  1 <= maxRetries ->
  (pollBudget <= budget)%nat ->
  let attempts :=
    attemptsOf env key (roundsFor maxRetries) budget query 1 maxRetries w in
  exists r w',
    executeDeepResearch env key (roundsFor maxRetries) budget query
      maxRetries w = (Ret r, w') /\
    wellFormedResult r /\
    attempts <> [] /\
    submitCount (trace w')
    = (submitCount (trace w) + List.length attempts)%nat /\
    (forall r0, In (Ret r0) attempts -> r = r0) /\
    (existsb succeeded attempts = false ->
     status r = failed /\ exists msg, error r = Some msg /\ msg <> "").
Proof.
  intros Hm Hb. cbv zeta. unfold executeDeepResearch.
  destruct (retryLoop_total env key budget query (roundsFor maxRetries) 1
              maxRetries w Hb) as (r & w' & Hrun & Hwf).
  { unfold roundsFor. lia. }
  destruct (retryLoop_attempts env key query budget _ _ _ _ _ _ Hrun)
    as (Hin & Hnone & Hcount & Hne).
  exists r, w'. split; [exact Hrun|]. split; [exact Hwf|].
  split; [apply Hne; lia|]. split; [exact Hcount|]. split; [exact Hin|].
  intros Hno. specialize (Hnone Hno). split; [exact Hnone|].
  destruct Hwf as [(Hc & _) | (_ & _ & Hmsg)]; [congruence | exact Hmsg].
Qed.

(** The only attempt of this run meets a job that the service reports as
    [failed]; the service would complete a second job, but the ceiling
    of 1 allows none. *)
Lemma C10_executeDeepResearch_total_witness :
  let attempts :=
    attemptsOf remoteFailureThenSuccess testKey (roundsFor 1) pollBudget "q"
      1 1 initialWorld in
  (1 <= 1 /\ (pollBudget <= pollBudget)%nat /\
   existsb succeeded attempts = false) /\
  exists r w',
    executeDeepResearch remoteFailureThenSuccess testKey (roundsFor 1)
      pollBudget "q" 1 initialWorld = (Ret r, w') /\
    status r = failed /\ exists msg, error r = Some msg /\ msg <> "".
Proof.
  intros attempts.
  assert (Hm : 1 <= 1) by lia.
  assert (Hb : (pollBudget <= pollBudget)%nat) by apply Nat.le_refl.
  assert (Hno : existsb succeeded attempts = false) by reflexivity.
  split; [repeat split; assumption|].
  destruct (C10_executeDeepResearch_total remoteFailureThenSuccess testKey
              "q" 1 pollBudget initialWorld Hm Hb)
    as (r & w' & Hrun & _ & _ & _ & _ & Hfailed).
  exists r, w'. split; [exact Hrun | exact (Hfailed Hno)].
Defined.

(** ** The cause of a failure reported by the service *)

Lemma orElse_Some_nonempty (s d : string) : s <> "" -> orElse (Some s) d = s.
Proof.
  intros H. unfold orElse. destruct (String.eqb_spec s ""); congruence.
Qed.

Lemma research_status_nonempty (st : string) : "Research " ++ st <> "".
Proof. discriminate. Qed.

(** X4.  When the submit response of the last attempt already carries
    the status [failed] or [cancelled], the job ends failed at once: no
    poll is sent, and the cause is the error message of the service when
    it has a non-empty one, and "Research failed" or "Research
    cancelled" otherwise. *)
Theorem remote_failure_ends_last_attempt
    (env : Env) (key : option string) (query : string) (rounds budget : nat)
    (maxRetries : Z) (w : World) (pollData : ResponseData) :
  snd (env (calls w)) = OkJson pollData ->
  isRemoteFailure (resp_status pollData) = true ->
  exists w',
    retryLoop env key (S rounds) budget query maxRetries maxRetries w =
      (Ret (failedResult
              (orElse (resp_error_message pollData)
                      ("Research " ++ resp_status pollData))),
       w') /\
    requests (trace w') = (requests (trace w) ++ [submitRequest key query])%list.
Proof.
  intros He Hf.
  assert (Hb : exists w0,
            retryBackoff maxRetries w = (Ret tt, w0) /\ calls w0 = calls w /\
            requests (trace w0) = requests (trace w)).
  { unfold retryBackoff. destruct (1 <? maxRetries); unfold_monad; simpl;
      eexists; (split; [reflexivity|]); cbn [calls trace];
      rewrite ?requests_app; cbn; rewrite ?app_nil_r; auto. }
  destruct Hb as (w0 & Eb & Hc0 & Hr0).
  set (e := mkError (orElse (resp_error_message pollData)
                            ("Research " ++ resp_status pollData))).
  assert (Ha : exists w1,
            attemptOnce env key budget query w0 = (Throw e, w1) /\
            requests (trace w1)
            = (requests (trace w0) ++ [submitRequest key query])%list).
  { rewrite <- Hc0 in He.
    unfold attemptOnce. unfold bind at 1, fetch at 1. rewrite He.
    unfold bind at 1. unfold logToolExecution at 1, emit at 1.
    unfold bind at 1. unfold dateNow at 1.
    unfold bind at 1.
    assert (Hp : forall b id t0 n w2,
              pollLoop env key b id t0 pollData n w2 = (Ret (pollData, n), w2)).
    { intros b id t0 n w2.
      destruct b; simpl; now rewrite (remoteFailure_not_pending _ Hf). }
    rewrite Hp. cbn [fst]. unfold finishAttempt. rewrite Hf.
    unfold throw. eexists. split; [reflexivity|].
    cbn [trace]. rewrite !requests_app. cbn. now rewrite app_nil_r. }
  destruct Ha as (w1 & Ea & Hr1).
  assert (Ea' : attemptOnce env key budget query
                  (snd (retryBackoff maxRetries w)) = (Throw e, w1))
    by (rewrite Eb; exact Ea).
  rewrite (retryLoop_catch env key query rounds budget maxRetries maxRetries
             w w1 e (Z.le_refl _) Ea').
  cbv zeta. rewrite Z.eqb_refl.
  subst e. cbn [message].
  rewrite orElse_Some_nonempty
    by (apply orElse_nonempty, research_status_nonempty).
  eexists. split; [reflexivity|].
  unfold logExternalApiCall, emit. cbn [snd trace].
  rewrite requests_app, Hr1, Hr0. cbn. now rewrite app_nil_r.
Qed.

Lemma remote_failure_ends_last_attempt_witness :
  let pollData := mkResponse "resp_1" "cancelled" (Some "") None None None in
  let env := scripted [ (0%N, OkJson pollData) ] in
  (snd (env (calls initialWorld)) = OkJson pollData /\
   isRemoteFailure (resp_status pollData) = true) /\
  exists w',
    retryLoop env testKey 1 pollBudget "q" 1 1 initialWorld =
      (Ret (failedResult "Research cancelled"), w') /\
    requests (trace w') = [submitRequest testKey "q"].
Proof.
  intros pollData env.
  assert (He : snd (env (calls initialWorld)) = OkJson pollData)
    by reflexivity.
  assert (Hf : isRemoteFailure (resp_status pollData) = true) by reflexivity.
  split; [split; assumption|].
  exact (remote_failure_ends_last_attempt env testKey "q" 0 pollBudget 1
           initialWorld pollData He Hf).
Defined.

(** ** The tool, case by case *)

Section ExecuteCases.

Variable env : Env.
Variable key : option string.
Variable toISOString : Z -> string.
Variable saveMarkdownReport pdfGenerator : string -> string + JsError.
Variable closeBrowser : string -> option JsError.

(** The optional PDF step: the generator's log entries are added, and
    its failure is swallowed. *)
Lemma pdf_step (args : ToolArgs) (filePath : string) (w : World) :
  (if generatePDF args then
     generated <- try (pdf_generator_generatePDF pdfGenerator closeBrowser
                         filePath) ;;
     match generated with
     | inl p => ret (Some p)
     | inr _ => ret None
     end
   else ret None) w
  = (Ret (pdfPathOf pdfGenerator closeBrowser args filePath),
     mkWorld (now w) (calls w)
       (trace w ++ pdfLogsOf pdfGenerator closeBrowser args filePath)%list).
Proof.
  unfold pdfPathOf, pdfLogsOf, pdf_generator_generatePDF.
  destruct w as [t c tr].
  destruct (generatePDF args); [|unfold ret; now rewrite app_nil_r].
  destruct (pdfGenerator filePath) as [p|e];
    [destruct (closeBrowser filePath) as [e|]|];
    unfold bind, try, ret, throw, logPdfGeneration, emit;
    cbn [now calls trace]; rewrite <- ?app_assoc; reflexivity.
Qed.

Lemma execute_unfold (args : ToolArgs) (w : World) :
  execute env key toISOString saveMarkdownReport pdfGenerator closeBrowser
    args w =
  let w0 := announced toISOString args w in
  if truthy key then
    match executeDeepResearch env key (roundsFor defaultMaxRetries) pollBudget
            (subtopic args) defaultMaxRetries w0 with
    | (Ret result, w1) =>
        match status result with
        | failed =>
            (Ret (ToolFailure (error result) (subtopic args)),
             mkWorld (now w1) (calls w1)
               (trace w1
                ++ [ errorStatusEvent toISOString args (error result) w1;
                     ALog (ToolExecution "error" None None
                             (Some (orElse (error result) "Unknown error"))) ])%list)
        | _ =>
            match saveMarkdownReport (content result) with
            | inr e => (Throw e, w1)
            | inl filePath =>
                (Ret (ToolSuccess (subtopic args) filePath
                        (pdfPathOf pdfGenerator closeBrowser args filePath)
                        (previewOf (content result))),
                 mkWorld (now w1) (calls w1)
                   (trace w1
                    ++ pdfLogsOf pdfGenerator closeBrowser args filePath
                    ++ [ doneStatusEvent toISOString args (content result) w1;
                         ALog (ToolExecution "success" None None None) ])%list)
            end
        end
    | (Throw e, w1) => (Throw e, w1)
    | (Diverge, w1) => (Diverge, w1)
    end
  else
    (Throw missingKeyError,
     mkWorld (now w0) (calls w0)
       (trace w0
        ++ [ ALog (ToolExecution "error" None None
                     (Some (message missingKeyError))) ])%list).
Proof.
  cbv zeta.
  unfold execute, emitSectionStatus, timestamp.
  unfold bind at 1. unfold logToolExecution at 1, emit at 1.
  unfold bind at 1. unfold bind at 1. cbn [now calls trace].
  unfold bind at 1. unfold logToolExecution at 1, emit at 1.
  cbn [now calls trace].
  match goal with
  | |- context [mkWorld (now w) (calls w) ?t] =>
      replace (mkWorld (now w) (calls w) t) with (announced toISOString args w)
        by (unfold announced, effectiveSectionIdOf; now rewrite <- app_assoc)
  end.
  destruct (truthy key); cbn [negb].
  - unfold bind at 1.
    destruct (executeDeepResearch _ _ _ _ _ _ _) as [[result| |] w1]; trivial.
    assert (Hsave :
      match saveMarkdownReport (content result) with
      | inl filePath =>
          (pdfPath <-
             (if generatePDF args then
                generated <- try (pdf_generator_generatePDF pdfGenerator
                                    closeBrowser filePath) ;;
                match generated with
                | inl p => ret (Some p)
                | inr _ => ret None
                end
              else ret None) ;;
           emitSectionStatus toISOString
             (orElse (runId args) "unknown")
             (orElse (sectionId args) ("section-" ++ showZ (sectionNumber args)))
             (subtopic args) "done"
             (Some (mkProgress None None
                      (Some (substring 0 200 (content result) ++ "..."))))
             None ;;
           logToolExecution "success" None None None ;;
           ret (ToolSuccess (subtopic args) filePath pdfPath
                  (substring 0 200 (content result) ++ "...")))
      | inr e => throw e
      end w1
      = match saveMarkdownReport (content result) with
        | inr e => (Throw e, w1)
        | inl filePath =>
            (Ret (ToolSuccess (subtopic args) filePath
                    (pdfPathOf pdfGenerator closeBrowser args filePath)
                    (previewOf (content result))),
             mkWorld (now w1) (calls w1)
               (trace w1
                ++ pdfLogsOf pdfGenerator closeBrowser args filePath
                ++ [ doneStatusEvent toISOString args (content result) w1;
                     ALog (ToolExecution "success" None None None) ])%list)
        end).
    { destruct (saveMarkdownReport (content result)) as [filePath|e];
        [|reflexivity].
      unfold bind at 1. rewrite pdf_step.
      unfold emitSectionStatus, timestamp.
      unfold_monad. cbn [now calls trace fst snd].
      unfold doneStatusEvent, previewOf, effectiveSectionIdOf.
      now rewrite <- !app_assoc. }
    destruct (status result).
    + exact Hsave.
    + unfold_monad. cbn [now calls trace fst snd].
      unfold errorStatusEvent, effectiveSectionIdOf.
      now rewrite <- app_assoc.
    + exact Hsave.
  - unfold_monad. cbn [now calls trace]. reflexivity.
Qed.

End ExecuteCases.

(** ** What the tool announces and returns *)

Lemma sectionStatuses_app (t1 t2 : list Action) :
  sectionStatuses (t1 ++ t2) = (sectionStatuses t1 ++ sectionStatuses t2)%list.
Proof. unfold sectionStatuses. apply flat_map_app. Qed.





Lemma notFetch_counts (t : list Action) :
  Forall notFetch t ->
  submitCount t = 0%nat /\ pollCountOf t = 0%nat /\ requests t = [].
Proof.
  induction 1 as [|a t Ha _ (IHs & IHp & IHr)]; [now repeat split|].
  destruct a as [ms|req|d]; try discriminate Ha;
    unfold submitCount, pollCountOf, requests in *; cbn; auto.
Qed.

Section PdfLogs.

Variable pdfGenerator : string -> string + JsError.
Variable closeBrowser : string -> option JsError.
Variable args : ToolArgs.
Variable filePath : string.

Let pdfLogs : list Action :=
  pdfLogsOf pdfGenerator closeBrowser args filePath.

(** The log entries of the PDF generator are neither requests nor
    section statuses nor entries of the tool [deepResearch]. *)
Lemma pdfLogs_quiet :
  Forall notFetch pdfLogs /\ sectionStatuses pdfLogs = [] /\
  toolPhases pdfLogs = [].
Proof.
  unfold pdfLogs, pdfLogsOf.
  destruct (generatePDF args); [|now repeat split].
  destruct (pdfGenerator filePath) as [p|e];
    [destruct (closeBrowser filePath) as [e|]|];
    (split; [repeat constructor | split; reflexivity]).
Qed.

Lemma pdfLogs_counts :
  submitCount pdfLogs = 0%nat /\ pollCountOf pdfLogs = 0%nat /\
  requests pdfLogs = [].
Proof. apply notFetch_counts, pdfLogs_quiet. Qed.

End PdfLogs.


Lemma toolPhases_app (t1 t2 : list Action) :
  toolPhases (t1 ++ t2) = (toolPhases t1 ++ toolPhases t2)%list.
Proof. unfold toolPhases. apply flat_map_app. Qed.

(** X6.  A failure of PDF generation never fails the tool: when
    [generatePDF] raises -- the print fails, or the browser cannot be
    closed --, a call that asks for a PDF gives the same result as the
    same call without one, sends the same requests, and announces the
    same section statuses and the same phases of the tool; only the log
    entries of the PDF generator itself come on top. *)
Theorem pdf_failure_is_not_fatal
    (env : Env) (key : option string) (toISOString : Z -> string)
    (saveMarkdownReport pdfGenerator : string -> string + JsError)
    (closeBrowser : string -> option JsError)
    (args : ToolArgs) (w : World) :
  (forall path,
     (exists e, pdfGenerator path = inr e) \/
     (exists e, closeBrowser path = Some e)) ->
  let withPdf :=
    execute env key toISOString saveMarkdownReport pdfGenerator closeBrowser
      (withGeneratePDF true args) w in
  let without :=
    execute env key toISOString saveMarkdownReport pdfGenerator closeBrowser
      (withGeneratePDF false args) w in
  fst withPdf = fst without /\
  requests (trace (snd withPdf)) = requests (trace (snd without)) /\
  sectionStatuses (trace (snd withPdf))
  = sectionStatuses (trace (snd without)) /\
  toolPhases (trace (snd withPdf)) = toolPhases (trace (snd without)).
Proof.
  intros Hpdf. cbv zeta. rewrite !execute_unfold. cbv zeta.
  change (announced toISOString (withGeneratePDF true args) w)
    with (announced toISOString args w).
  change (announced toISOString (withGeneratePDF false args) w)
    with (announced toISOString args w).
  cbn [subtopic withGeneratePDF].
  destruct (truthy key); [|now repeat split].
  destruct (executeDeepResearch _ _ _ _ _ _ _) as [[result| |] w1];
    try (now repeat split).
  assert (Hpath : forall filePath,
            pdfPathOf pdfGenerator closeBrowser (withGeneratePDF true args)
              filePath
            = pdfPathOf pdfGenerator closeBrowser (withGeneratePDF false args)
                filePath).
  { intros filePath. unfold pdfPathOf. cbn [generatePDF withGeneratePDF].
    destruct (Hpdf filePath) as [[e ->] | [e He]]; [reflexivity|].
    rewrite He. now destruct (pdfGenerator filePath). }
  destruct (status result); try (now repeat split);
    destruct (saveMarkdownReport (content result)) as [filePath|e];
    try (now repeat split);
    cbn [fst snd trace]; rewrite Hpath;
    (split; [reflexivity|]);
    rewrite !requests_app, !sectionStatuses_app, !toolPhases_app;
    destruct (pdfLogs_quiet pdfGenerator closeBrowser
                (withGeneratePDF true args) filePath) as (_ & -> & ->);
    destruct (pdfLogs_quiet pdfGenerator closeBrowser
                (withGeneratePDF false args) filePath) as (_ & -> & ->);
    destruct (pdfLogs_counts pdfGenerator closeBrowser
                (withGeneratePDF true args) filePath) as (_ & _ & ->);
    destruct (pdfLogs_counts pdfGenerator closeBrowser
                (withGeneratePDF false args) filePath) as (_ & _ & ->);
    repeat split.
Qed.

Lemma pdf_failure_is_not_fatal_witness :
  let save :=
    savesTo "research-output/electric-vehicles/03_battery-chemistry.md" in
  let env :=
    scripted [ (0%N, OkJson (response "resp_1" "completed" (Some "Report"))) ]
  in
  (forall path,
     (exists e, noPdf path = inr e) \/ (exists e, closesQuietly path = Some e))
  /\
  fst (execute env testKey isoOfClock save noPdf closesQuietly
         (withGeneratePDF true sectionThree) initialWorld)
  = fst (execute env testKey isoOfClock save noPdf closesQuietly
           (withGeneratePDF false sectionThree) initialWorld).
Proof.
  intros save env.
  assert (H : forall path,
            (exists e, noPdf path = inr e) \/
            (exists e, closesQuietly path = Some e))
    by (intros path; left; now eexists).
  split; [exact H|].
  exact (proj1 (pdf_failure_is_not_fatal env testKey isoOfClock save noPdf
                  closesQuietly sectionThree initialWorld H)).
Defined.

Lemma length_append (s1 s2 : string) :
  String.length (s1 ++ s2) = (String.length s1 + String.length s2)%nat.
Proof. induction s1 as [|c s1 IH]; simpl; [reflexivity | now rewrite IH]. Qed.

Lemma length_substring_0 (n : nat) (s : string) :
  (String.length (substring 0 n s) <= n)%nat.
Proof.
  revert s. induction n as [|n IH]; intros [|c s]; simpl; try lia.
  specialize (IH s). lia.
Qed.

Lemma substring_0_all (n : nat) (s : string) :
  (String.length s <= n)%nat -> substring 0 n s = s.
Proof.
  revert s. induction n as [|n IH]; intros [|c s]; simpl; intros H;
    try reflexivity; try lia.
  rewrite IH by lia. reflexivity.
Qed.

(** X7.  The preview returned with a success is short and comes from a
    non-empty report: it is the first 200 characters of the report
    followed by an ellipsis, so never longer than 203 characters, and
    the whole report when that has at most 200 characters. *)
Theorem execute_preview_is_bounded
    (env : Env) (key : option string) (toISOString : Z -> string)
    (saveMarkdownReport pdfGenerator : string -> string + JsError)
    (closeBrowser : string -> option JsError)
    (args : ToolArgs) (w w' : World) (title path preview : string)
    (pdfPath : option string) :
  execute env key toISOString saveMarkdownReport pdfGenerator closeBrowser
    args w
    = (Ret (ToolSuccess title path pdfPath preview), w') ->
  (String.length preview <= 203)%nat /\
  exists report,
    report <> "" /\
    saveMarkdownReport report = inl path /\
    preview = substring 0 200 report ++ "..." /\
    ((String.length report <= 200)%nat -> preview = report ++ "...").
Proof.
  rewrite execute_unfold. cbv zeta.
  destruct (truthy key); [|discriminate].
  destruct (retryLoop_total env key pollBudget (subtopic args)
              (roundsFor defaultMaxRetries) 1 defaultMaxRetries
              (announced toISOString args w) (Nat.le_refl _))
    as (result & w1 & Hrun & Hwf).
  { vm_compute. discriminate. }
  unfold executeDeepResearch. rewrite Hrun.
  assert (Hok : status result <> failed ->
            match saveMarkdownReport (content result) with
            | inl filePath =>
                (Ret (ToolSuccess (subtopic args) filePath
                        (pdfPathOf pdfGenerator closeBrowser args filePath)
                        (previewOf (content result))),
                 mkWorld (now w1) (calls w1)
                   (trace w1
                    ++ pdfLogsOf pdfGenerator closeBrowser args filePath
                    ++ [ doneStatusEvent toISOString args (content result) w1;
                         ALog (ToolExecution "success" None None None) ])%list)
            | inr e => (Throw e, w1)
            end = (Ret (ToolSuccess title path pdfPath preview), w') ->
            (String.length preview <= 203)%nat /\
            exists report,
              report <> "" /\
              saveMarkdownReport report = inl path /\
              preview = substring 0 200 report ++ "..." /\
              ((String.length report <= 200)%nat -> preview = report ++ "...")).
  { intros Hnf.
    destruct (saveMarkdownReport (content result)) as [filePath|e] eqn:Es;
      [|discriminate].
    intros [= _ <- _ <- _]. unfold previewOf. split.
    - rewrite length_append. pose proof (length_substring_0 200 (content result)).
      cbn [String.length]. lia.
    - exists (content result). repeat split; trivial.
      + destruct Hwf as [(_ & Hc & _) | (Hf & _)]; [exact Hc | contradiction].
      + intros Hl. now rewrite substring_0_all.
  }
  destruct (status result); [apply Hok | discriminate | apply Hok];
    discriminate.
Qed.

Lemma execute_preview_is_bounded_witness :
  let save :=
    savesTo "research-output/electric-vehicles/03_battery-chemistry.md" in
  let env :=
    scripted [ (0%N, OkJson (response "resp_1" "completed" (Some "Report"))) ]
  in
  let run := execute env testKey isoOfClock save noPdf closesQuietly
               sectionThree initialWorld in
  run = (Ret (ToolSuccess "Battery chemistry"
                "research-output/electric-vehicles/03_battery-chemistry.md"
                None "Report..."), snd run) /\
  (String.length "Report..." <= 203)%nat.
Proof.
  intros save env run.
  assert (H : run = (Ret (ToolSuccess "Battery chemistry"
                "research-output/electric-vehicles/03_battery-chemistry.md"
                None "Report..."), snd run)) by (vm_compute; reflexivity).
  split; [exact H|].
  exact (proj1 (execute_preview_is_bounded env testKey isoOfClock save noPdf
                  closesQuietly sectionThree initialWorld (snd run) _ _ _ _
                  H)).
Defined.

(** X8.  One call of the tool sends at most 3 submit requests and at
    most 363 poll requests to the service, and none at all when the API
    key is not set. *)
Theorem execute_requests_are_bounded
    (env : Env) (key : option string) (toISOString : Z -> string)
    (saveMarkdownReport pdfGenerator : string -> string + JsError)
    (closeBrowser : string -> option JsError)
    (args : ToolArgs) (w : World) :
  let w' :=
    snd (execute env key toISOString saveMarkdownReport pdfGenerator
           closeBrowser args w)
  in
  (submitCount (trace w') <= submitCount (trace w) + 3)%nat /\
  (pollCountOf (trace w') <= pollCountOf (trace w) + 363)%nat /\
  (truthy key = false -> requests (trace w') = requests (trace w)).
Proof.
  cbv zeta. rewrite execute_unfold. cbv zeta.
  assert (Ha : submitCount (trace (announced toISOString args w))
               = submitCount (trace w) /\
               pollCountOf (trace (announced toISOString args w))
               = pollCountOf (trace w) /\
               requests (trace (announced toISOString args w))
               = requests (trace w)).
  { unfold announced. cbn [trace].
    rewrite submitCount_app, pollCountOf_app, requests_app. cbn.
    rewrite app_nil_r. repeat split; lia. }
  destruct Ha as (Hs0 & Hp0 & Hr0).
  destruct (truthy key).
  - pose proof (retryLoop_counts env key (subtopic args)
                  (roundsFor defaultMaxRetries) pollBudget 1 defaultMaxRetries
                  (announced toISOString args w) _ eq_refl) as [Hs Hp].
    change (Z.to_nat (defaultMaxRetries - 1 + 1)) with 3%nat in Hs, Hp.
    unfold maxPollsPerAttempt in Hp.
    unfold executeDeepResearch.
    destruct (retryLoop _ _ _ _ _ _ _ _) as [[result| |] w1];
      cbn [snd] in *;
      try (split; [lia | split; [lia | discriminate]]).
    assert (Hlog : forall a b : LogData,
              submitCount (trace w1 ++ [ALog a; ALog b]) = submitCount (trace w1)
              /\ pollCountOf (trace w1 ++ [ALog a; ALog b])
                 = pollCountOf (trace w1)).
    { intros a b. rewrite submitCount_app, pollCountOf_app. cbn. lia. }
    destruct (status result);
      try (destruct (saveMarkdownReport (content result)) as [filePath|e]);
      cbn [snd trace];
      unfold errorStatusEvent, doneStatusEvent;
      rewrite ?app_assoc;
      try (match goal with
           | |- context [(?t ++ [ALog ?a; ALog ?b])%list] =>
               rewrite !(submitCount_app t), !(pollCountOf_app t);
               change (submitCount [ALog a; ALog b]) with 0%nat;
               change (pollCountOf [ALog a; ALog b]) with 0%nat
           end);
      rewrite ?submitCount_app, ?pollCountOf_app;
      try (destruct (pdfLogs_counts pdfGenerator closeBrowser args filePath)
             as (-> & -> & _));
      (split; [lia | split; [lia | discriminate]]).
  - cbn [snd trace]. rewrite submitCount_app, pollCountOf_app, requests_app.
    change (submitCount [ALog (ToolExecution "error" None None
                                 (Some (message missingKeyError)))])
      with 0%nat.
    change (pollCountOf [ALog (ToolExecution "error" None None
                                 (Some (message missingKeyError)))])
      with 0%nat.
    change (requests [ALog (ToolExecution "error" None None
                              (Some (message missingKeyError)))])
      with (@nil Request).
    rewrite app_nil_r. split; [lia | split; [lia | intros _; exact Hr0]].
Qed.

Lemma execute_requests_are_bounded_witness :
  truthy (@None string) = false /\
  requests
    (trace (snd (execute alwaysUnavailable None isoOfClock
                   (savesTo "research-output/electric-vehicles/03_battery-chemistry.md")
                   noPdf closesQuietly sectionThree initialWorld)))
  = requests (trace initialWorld).
Proof.
  assert (H : truthy (@None string) = false) by reflexivity.
  split; [exact H|].
  exact (proj2 (proj2 (execute_requests_are_bounded alwaysUnavailable None
                         isoOfClock
                         (savesTo "research-output/electric-vehicles/03_battery-chemistry.md")
                         noPdf closesQuietly sectionThree initialWorld)) H).
Defined.

(** ** Identity keys of the sections of a run *)

Lemma to_int_not_nil (z : Z) :
  Z.to_int z <> Decimal.Pos Decimal.Nil /\ Z.to_int z <> Decimal.Neg Decimal.Nil.
Proof.
  destruct z as [|p|p]; simpl; split; try discriminate;
    intros [= H]; exact (DecimalPos.Unsigned.to_uint_nonnil p H).
Qed.

(** The decimal rendering of integers is injective. *)
Lemma showZ_inj (a b : Z) : showZ a = showZ b -> a = b.
Proof.
  unfold showZ. intros H.
  apply DecimalZ.to_int_inj.
  destruct (to_int_not_nil a) as [Ha1 Ha2].
  destruct (to_int_not_nil b) as [Hb1 Hb2].
  pose proof (NilZero.isi (Z.to_int a) Ha1 Ha2) as Ia.
  pose proof (NilZero.isi (Z.to_int b) Hb1 Hb2) as Ib.
  rewrite H in Ia. congruence.
Qed.

(** X9.  Sections that are given no id get distinct identities: two
    calls of the tool for the same run with different section numbers
    and no (or an empty) [sectionId] use section ids, and hence progress
    identity keys, that differ. *)
Theorem default_section_ids_are_distinct
    (a b : ToolArgs) (run : string) (sa sb : SectionStatusPart) :
  truthy (sectionId a) = false ->
  truthy (sectionId b) = false ->
  sectionNumber a <> sectionNumber b ->
  ss_runId sa = run -> ss_runId sb = run ->
  ss_sectionId sa = effectiveSectionIdOf a ->
  ss_sectionId sb = effectiveSectionIdOf b ->
  effectiveSectionIdOf a <> effectiveSectionIdOf b /\
  createPartId (SectionStatus sa) <> createPartId (SectionStatus sb).
Proof.
  intros Ha Hb Hn Hra Hrb Hsa Hsb.
  assert (Hid : forall x : ToolArgs,
            truthy (sectionId x) = false ->
            effectiveSectionIdOf x = "section-" ++ showZ (sectionNumber x)).
  { intros x Hx. unfold effectiveSectionIdOf, orElse.
    destruct (sectionId x) as [s|]; [|reflexivity].
    simpl in Hx. now destruct (String.eqb s ""). }
  assert (Hne : effectiveSectionIdOf a <> effectiveSectionIdOf b).
  { rewrite (Hid a Ha), (Hid b Hb). intros H.
    apply (append_inj_l "section-") in H. now apply showZ_inj in H. }
  split; [exact Hne|].
  cbn [createPartId]. rewrite Hra, Hrb, Hsa, Hsb. intros H.
  apply (append_inj_l "section:") in H.
  apply append_inj_l in H.
  apply (append_inj_l ":") in H. contradiction.
Qed.

Lemma default_section_ids_are_distinct_witness :
  let a := mkArgs "Battery chemistry" "Electric vehicles" 3 None None false in
  let b := mkArgs "Charging networks" "Electric vehicles" 4 (Some "") None
             false in
  let sa := createSectionStatus "unknown" (effectiveSectionIdOf a)
              "Battery chemistry" "running" None None "t1" in
  let sb := createSectionStatus "unknown" (effectiveSectionIdOf b)
              "Charging networks" "running" None None "t2" in
  (truthy (sectionId a) = false /\ truthy (sectionId b) = false /\
   sectionNumber a <> sectionNumber b) /\
  effectiveSectionIdOf a <> effectiveSectionIdOf b /\
  createPartId (SectionStatus sa) <> createPartId (SectionStatus sb).
Proof.
  intros a b sa sb.
  assert (Ha : truthy (sectionId a) = false) by reflexivity.
  assert (Hb : truthy (sectionId b) = false) by reflexivity.
  assert (Hn : sectionNumber a <> sectionNumber b) by discriminate.
  split; [repeat split; assumption|].
  exact (default_section_ids_are_distinct a b "unknown" sa sb Ha Hb Hn
           eq_refl eq_refl eq_refl eq_refl).
Defined.

Lemma colon_split (r1 r2 s1 s2 : string) :
  noColon r1 = true -> noColon r2 = true ->
  r1 ++ ":" ++ s1 = r2 ++ ":" ++ s2 -> r1 = r2 /\ s1 = s2.
Proof.
  revert r2. induction r1 as [|c r1 IH]; intros [|c2 r2] H1 H2 H; simpl in *.
  - injection H as H. now split.
  - injection H as Hc _. subst c2.
    apply andb_true_iff in H2 as [H2 _]. discriminate H2.
  - injection H as Hc _. subst c.
    apply andb_true_iff in H1 as [H1 _]. discriminate H1.
  - injection H as Hc H. subst c2.
    apply andb_true_iff in H1 as [_ H1].
    apply andb_true_iff in H2 as [_ H2].
    destruct (IH r2 H1 H2 H) as [-> ->]. now split.
Qed.

(** X10.  For events whose run ids hold no colon (the UUIDs and the
    default "unknown" do not), the identity key tells entities apart
    exactly: two events have the same key if and only if they are of the
    same variant, have the same [runId] and, for section-status events,
    the same [sectionId]. *)
Theorem identity_key_characterises_entity (a b : StreamingEvent) :
  noColon (eventRunId a) = true ->
  noColon (eventRunId b) = true ->
  (createPartId a = createPartId b <-> sameEntity a b).
Proof.
  intros Ha Hb. split.
  - intros H. unfold sameEntity.
    destruct a as [a|a|a|a], b as [b|b|b|b]; cbn in H; try discriminate H;
      cbn [eventType eventRunId eventSectionId] in *.
    + apply (append_inj_l "run:") in H. now rewrite H.
    + apply (append_inj_l "outline:") in H. now rewrite H.
    + apply (append_inj_l "section:") in H.
      destruct (colon_split _ _ _ _ Ha Hb H) as [-> ->]. now repeat split.
    + apply (append_inj_l "heartbeat:") in H. now rewrite H.
  - intros (Ht & Hr & Hs).
    destruct a, b; simpl in *; try discriminate; congruence.
Qed.

Lemma identity_key_characterises_entity_witness :
  let a := SectionStatus
             (createSectionStatus "9f1c2d3e-run" "section-1" "One" "running"
                None None "t1") in
  let b := RunStatus
             (createRunStatus "9f1c2d3e-run" "researching" "Researching" 0 5
                "t2") in
  (noColon (eventRunId a) = true /\ noColon (eventRunId b) = true) /\
  (createPartId a = createPartId b <-> sameEntity a b).
Proof.
  intros a b.
  assert (Ha : noColon (eventRunId a) = true) by reflexivity.
  assert (Hb : noColon (eventRunId b) = true) by reflexivity.
  split; [split; assumption|].
  exact (identity_key_characterises_entity a b Ha Hb).
Defined.

(** * Report files *)

(** ** Character classes *)

Ltac each_char c :=
  destruct c as [[] [] [] [] [] [] [] []]; try reflexivity; try discriminate.

Lemma lowered_kept_is_slug_or_space (c : ascii) :
  isWordChar (toLowerChar c) || isSpaceChar (toLowerChar c)
  || isHyphen (toLowerChar c) = true ->
  isSlugChar (toLowerChar c) || isSpaceChar (toLowerChar c) = true.
Proof. each_char c. Qed.

Lemma slugChar_facts (c : ascii) :
  isSlugChar c = true ->
  toLowerChar c = c /\ isSpaceChar c = false /\
  isWordChar c || isSpaceChar c || isHyphen c = true.
Proof. each_char c; intros _; repeat split. Qed.

Lemma isHyphen_eq (c : ascii) : isHyphen c = true -> c = "-"%char.
Proof. unfold isHyphen. now destruct (Ascii.eqb_spec c "-"). Qed.

(** ** The stages of [slugify] *)

Lemma allChars_impl (p q : ascii -> bool) (s : string) :
  (forall c, p c = true -> q c = true) ->
  allChars p s = true -> allChars q s = true.
Proof.
  intros Hpq. induction s as [|c s IH]; simpl; [trivial|].
  intros H. apply andb_true_iff in H as [Hc Hs].
  now rewrite (Hpq c Hc), IH.
Qed.

Lemma filter_lowered (s : string) :
  allChars (fun c => isSlugChar c || isSpaceChar c)
    (filterChars (fun c => isWordChar c || isSpaceChar c || isHyphen c)
       (toLowerCase s)) = true.
Proof.
  unfold toLowerCase. induction s as [|c s IH]; simpl; [reflexivity|].
  destruct (isWordChar (toLowerChar c) || isSpaceChar (toLowerChar c)
            || isHyphen (toLowerChar c)) eqn:Hk; [|exact IH].
  simpl. now rewrite (lowered_kept_is_slug_or_space c Hk), IH.
Qed.

Lemma collapse_spaces_slug (b : bool) (s : string) :
  allChars (fun c => isSlugChar c || isSpaceChar c) s = true ->
  allChars isSlugChar (collapseRuns isSpaceChar b s) = true.
Proof.
  revert b. induction s as [|c s IH]; intros b; simpl; [reflexivity|].
  intros H. apply andb_true_iff in H as [Hc Hs].
  destruct (isSpaceChar c) eqn:Hsp.
  - destruct b; simpl; now rewrite ?IH.
  - simpl. rewrite orb_false_r in Hc. now rewrite Hc, IH.
Qed.

Lemma collapse_hyphens_slug (b : bool) (s : string) :
  allChars isSlugChar s = true ->
  allChars isSlugChar (collapseRuns isHyphen b s) = true.
Proof.
  revert b. induction s as [|c s IH]; intros b; simpl; [reflexivity|].
  intros H. apply andb_true_iff in H as [Hc Hs].
  destruct (isHyphen c).
  - destruct b; simpl; now rewrite ?IH.
  - simpl. now rewrite Hc, IH.
Qed.

Lemma collapse_hyphens_noDouble (b : bool) (s : string) :
  noDoubleHyphen b (collapseRuns isHyphen b s) = true.
Proof.
  revert b. induction s as [|c s IH]; intros b; simpl; [reflexivity|].
  destruct (isHyphen c) eqn:Hh.
  - destruct b; simpl; now rewrite ?IH.
  - simpl. now rewrite Hh, IH.
Qed.

Lemma trimStart_id (s : string) :
  allChars isSlugChar s = true -> trimStart s = s.
Proof.
  destruct s as [|c s]; simpl; [reflexivity|].
  intros H. apply andb_true_iff in H as [Hc _].
  destruct (slugChar_facts c Hc) as (_ & -> & _). reflexivity.
Qed.

Lemma trimEnd_id (s : string) :
  allChars isSlugChar s = true -> trimEnd s = s.
Proof.
  induction s as [|c s IH]; simpl; [reflexivity|].
  intros H. apply andb_true_iff in H as [Hc Hs].
  rewrite (IH Hs). destruct (slugChar_facts c Hc) as (_ & -> & _).
  now destruct s.
Qed.

Lemma trim_id (s : string) : allChars isSlugChar s = true -> trim s = s.
Proof.
  intros H. unfold trim. rewrite (trimStart_id s H). now apply trimEnd_id.
Qed.

Lemma slugify_slug (text : string) :
  allChars isSlugChar (slugify text) = true /\
  noDoubleHyphen false (slugify text) = true.
Proof.
  unfold slugify.
  set (h := collapseRuns isHyphen false _).
  assert (Hh : allChars isSlugChar h = true).
  { apply collapse_hyphens_slug, collapse_spaces_slug, filter_lowered. }
  rewrite (trim_id h Hh). split; [exact Hh|].
  apply collapse_hyphens_noDouble.
Qed.

Lemma toLowerCase_id (s : string) :
  allChars isSlugChar s = true -> toLowerCase s = s.
Proof.
  unfold toLowerCase. induction s as [|c s IH]; simpl; [reflexivity|].
  intros H. apply andb_true_iff in H as [Hc Hs].
  destruct (slugChar_facts c Hc) as (-> & _). now rewrite IH.
Qed.

Lemma filterChars_id (s : string) :
  allChars isSlugChar s = true ->
  filterChars (fun c => isWordChar c || isSpaceChar c || isHyphen c) s = s.
Proof.
  induction s as [|c s IH]; simpl; [reflexivity|].
  intros H. apply andb_true_iff in H as [Hc Hs].
  destruct (slugChar_facts c Hc) as (_ & _ & ->). now rewrite IH.
Qed.

Lemma collapse_spaces_id (s : string) :
  allChars isSlugChar s = true -> collapseRuns isSpaceChar false s = s.
Proof.
  induction s as [|c s IH]; simpl; [reflexivity|].
  intros H. apply andb_true_iff in H as [Hc Hs].
  destruct (slugChar_facts c Hc) as (_ & -> & _). now rewrite IH.
Qed.

Lemma collapse_hyphens_id (b : bool) (s : string) :
  noDoubleHyphen b s = true -> collapseRuns isHyphen b s = s.
Proof.
  revert b. induction s as [|c s IH]; intros b; simpl; [reflexivity|].
  destruct (isHyphen c) eqn:Hh; intros H.
  - apply andb_true_iff in H as [Hb Hs]. destruct b; [discriminate|].
    rewrite (IH true Hs). now rewrite (isHyphen_eq c Hh).
  - now rewrite (IH false H).
Qed.

(** X11.  A slug is safe as a path component: whatever the text, it
    holds only lower-case letters, digits, underscores and hyphens -- in
    particular no path separator, no dot and no white space -- and
    never two hyphens in a row. *)
Theorem slugify_is_path_safe (text : string) :
  allChars isSlugChar (slugify text) = true /\
  noDoubleHyphen false (slugify text) = true /\
  occurs "/" (slugify text) = false /\
  occurs "." (slugify text) = false.
Proof.
  destruct (slugify_slug text) as [Hs Hd].
  split; [exact Hs|]. split; [exact Hd|].
  assert (Hno : forall p : ascii,
            isSlugChar p = false ->
            forall s, allChars isSlugChar s = true ->
                      occurs (String p EmptyString) s = false).
  { intros p Hp s. induction s as [|c s IH]; simpl; [reflexivity|].
    intros H. apply andb_true_iff in H as [Hc Hs'].
    rewrite (IH Hs'), orb_false_r.
    destruct (ascii_dec p c) as [->|Hne]; [congruence|reflexivity]. }
  split; apply Hno; trivial.
Qed.

(** X12.  [slugify] is idempotent: a slug is its own slug. *)
Theorem slugify_idempotent (text : string) :
  slugify (slugify text) = slugify text.
Proof.
  destruct (slugify_slug text) as [Hs Hd].
  set (x := slugify text) in *.
  unfold slugify.
  rewrite (toLowerCase_id x Hs), (filterChars_id x Hs),
    (collapse_spaces_id x Hs), (collapse_hyphens_id false x Hd).
  now apply trim_id.
Qed.

(** ** File names *)

Lemma compare_app_lt (p q r1 r2 : string) :
  sortsBefore p q = true -> String.compare (p ++ r1) (q ++ r2) = Lt.
Proof.
  unfold sortsBefore. revert q.
  induction p as [|c p IH]; intros [|d q] H; simpl in *; try discriminate.
  destruct (Ascii.compare c d);
    [now apply IH | reflexivity | rewrite andb_false_r in H; discriminate].
Qed.

Lemma two_digit_prefixes_sort :
  forallb
    (fun a =>
       forallb
         (fun b =>
            if Nat.ltb a b then
              sortsBefore (padStart 2 "0" (showZ (Z.of_nat a)) ++ "_")
                          (padStart 2 "0" (showZ (Z.of_nat b)) ++ "_")
            else true)
         (seq 0 100))
    (seq 0 100) = true.
Proof. vm_compute. reflexivity. Qed.

(** X13.  Reports sort by section: for section numbers from 0 to 99, the
    file name of a lower section comes before the file name of a higher
    one in the order of code units, whatever the two subtopics are. *)
Theorem report_files_sort_by_section (a b : Z) (subtopicA subtopicB : string) :
  0 <= a -> a < b -> b <= 99 ->
  String.compare (reportFileName a subtopicA) (reportFileName b subtopicB) = Lt.
Proof.
  intros Ha Hab Hb.
  pose proof two_digit_prefixes_sort as H.
  rewrite forallb_forall in H.
  specialize (H (Z.to_nat a)). rewrite forallb_forall in H.
  specialize (H ltac:(apply in_seq; lia) (Z.to_nat b) ltac:(apply in_seq; lia)).
  destruct (Nat.ltb_spec (Z.to_nat a) (Z.to_nat b)); [|lia].
  rewrite !Z2Nat.id in H by lia.
  unfold reportFileName, reportStem.
  change (padStart 2 "0" (showZ a) ++ "_" ++ slugify subtopicA)
    with (padStart 2 "0" (showZ a) ++ ("_" ++ slugify subtopicA)).
  assert (Hassoc : forall x y z : string, (x ++ y) ++ z = x ++ (y ++ z)).
  { intros x y z. induction x as [|c x IH]; simpl; [reflexivity|].
    now rewrite IH. }
  assert (Hshape : forall n s,
            (padStart 2 "0" (showZ n) ++ "_" ++ slugify s) ++ ".md"
            = (padStart 2 "0" (showZ n) ++ "_") ++ (slugify s ++ ".md")).
  { intros n s. now rewrite !Hassoc. }
  rewrite !Hshape. now apply compare_app_lt.
Qed.

Lemma report_files_sort_by_section_witness :
  (0 <= 2 /\ 2 < 10 /\ 10 <= 99) /\
  String.compare (reportFileName 2 "Zeta potentials")
                 (reportFileName 10 "Alpha decay") = Lt.
Proof.
  assert (Ha : 0 <= 2) by lia.
  assert (Hab : 2 < 10) by lia.
  assert (Hb : 10 <= 99) by lia.
  split; [repeat split; assumption|].
  exact (report_files_sort_by_section 2 10 "Zeta potentials" "Alpha decay"
           Ha Hab Hb).
Defined.

(** ** The path of the PDF *)

Lemma string_of_uint_numeric (d : Decimal.uint) :
  allChars isNumericChar (NilEmpty.string_of_uint d) = true.
Proof. induction d; simpl; trivial. Qed.

Lemma showZ_numeric (n : Z) :
  allChars isNumericChar (showZ n) = true /\ showZ n <> "".
Proof.
  unfold showZ, NilZero.string_of_int.
  destruct (Z.to_int n) as [d|d]; simpl.
  - unfold NilZero.string_of_uint. destruct d; simpl;
      rewrite ?string_of_uint_numeric; split; trivial; discriminate.
  - unfold NilZero.string_of_uint. destruct d; simpl;
      rewrite ?string_of_uint_numeric; split; trivial; discriminate.
Qed.

Lemma numeric_is_slug (c : ascii) :
  isNumericChar c = true ->
  isSlugChar c = true /\ c <> "m"%char /\ c <> "d"%char /\ c <> "."%char.
Proof. each_char c; intros _; repeat split; discriminate. Qed.

Lemma allChars_append (p : ascii -> bool) (s1 s2 : string) :
  allChars p (s1 ++ s2) = allChars p s1 && allChars p s2.
Proof.
  induction s1 as [|c s1 IH]; simpl; [reflexivity|].
  now rewrite IH, andb_assoc.
Qed.

Lemma allChars_padding (p : ascii -> bool) (n : nat) (c : ascii) :
  p c = true -> allChars p (padding n c) = true.
Proof. intros H. induction n; simpl; [reflexivity | now rewrite H]. Qed.

(** The stem of a report starts with a digit or a minus sign and holds
    the characters of slugs only. *)
Lemma reportStem_shape (n : Z) (subtopic : string) :
  allChars isSlugChar (reportStem n subtopic) = true /\
  exists c rest,
    reportStem n subtopic = String c rest /\ isNumericChar c = true.
Proof.
  destruct (showZ_numeric n) as [Hn Hne].
  unfold reportStem, padStart. split.
  - rewrite !allChars_append.
    rewrite (allChars_padding isSlugChar _ "0" eq_refl).
    rewrite (allChars_impl isNumericChar isSlugChar (showZ n)
               (fun c H => proj1 (numeric_is_slug c H)) Hn).
    now rewrite (proj1 (slugify_slug subtopic)).
  - destruct (showZ n) as [|c0 s0] eqn:E; [congruence|].
    simpl in Hn. apply andb_true_iff in Hn as [Hc0 _].
    destruct (2 - String.length (String c0 s0))%nat as [|k]; simpl.
    + now exists c0, (s0 ++ "_" ++ slugify subtopic).
    + eexists _, _. split; reflexivity.
Qed.

Lemma replaceFirst_stem (x : string) :
  allChars isSlugChar x = true ->
  replaceFirst ".md" ".pdf" (x ++ ".md") = x ++ ".pdf".
Proof.
  induction x as [|c x IH]; [reflexivity|].
  intros H. simpl in H. apply andb_true_iff in H as [Hc Hx].
  cbn [append replaceFirst prefix].
  destruct (ascii_dec "." c) as [<-|_]; [discriminate Hc|].
  now rewrite IH.
Qed.

Lemma replaceFirst_dir (dir x : string) :
  occurs ".md" dir = false ->
  allChars isSlugChar x = true ->
  (exists c rest, x = String c rest /\ isNumericChar c = true) ->
  replaceFirst ".md" ".pdf" (dir ++ x ++ ".md") = dir ++ x ++ ".pdf".
Proof.
  intros Hocc Hx (c0 & rest & Ex & Hc0).
  destruct (numeric_is_slug c0 Hc0) as (_ & Hm & Hd & _).
  induction dir as [|c dir IH]; [now apply replaceFirst_stem|].
  cbn [occurs] in Hocc. apply orb_false_iff in Hocc as [Hp Ho].
  cbn [append replaceFirst].
  assert (Hpre : prefix ".md" (String c (dir ++ x ++ ".md")) = false).
  { cbn [prefix] in *.
    destruct (ascii_dec "." c) as [<-|_]; [|reflexivity].
    destruct dir as [|c2 dir]; cbn [append prefix] in *.
    - subst x. cbn [append prefix].
      destruct (ascii_dec "m" c0) as [E|_]; [now destruct Hm|reflexivity].
    - destruct (ascii_dec "m" c2) as [<-|_]; [|reflexivity].
      destruct dir as [|c3 dir]; cbn [append prefix] in *.
      + subst x. cbn [append prefix].
        destruct (ascii_dec "d" c0) as [E|_]; [now destruct Hd|reflexivity].
      + destruct (ascii_dec "d" c3) as [<-|_]; [|reflexivity].
        destruct dir; discriminate Hp. }
  rewrite Hpre. now rewrite (IH Ho).
Qed.

(** X14.  The PDF of a report is written next to it: when the directory
    path holds no ".md", the default PDF path of a report file is the
    report's own path with the extension [.md] replaced by [.pdf]. *)
Theorem pdf_is_written_next_to_report
    (dir : string) (sectionNumber : Z) (subtopic : string) :
  occurs ".md" dir = false ->
  defaultPdfPath (reportPath dir sectionNumber subtopic)
  = dir ++ reportStem sectionNumber subtopic ++ ".pdf".
Proof.
  intros Hocc. unfold defaultPdfPath, reportPath, reportFileName.
  destruct (reportStem_shape sectionNumber subtopic) as [Hs Hc].
  now apply replaceFirst_dir.
Qed.

Lemma pdf_is_written_next_to_report_witness :
  occurs ".md" "research-output/electric-vehicles/" = false /\
  defaultPdfPath
    (reportPath "research-output/electric-vehicles/" 3 "Battery chemistry")
  = "research-output/electric-vehicles/03_battery-chemistry.pdf".
Proof.
  assert (H : occurs ".md" "research-output/electric-vehicles/" = false)
    by reflexivity.
  split; [exact H|].
  exact (pdf_is_written_next_to_report "research-output/electric-vehicles/" 3
           "Battery chemistry" H).
Defined.

(** * The server logger: redaction *)

Lemma map_ext_Forall' {A B : Type} (f g : A -> B) (l : list A) :
  Forall (fun x => f x = g x) l -> map f l = map g l.
Proof.
  induction 1 as [|x l Hx _ IH]; simpl; [reflexivity|]. now rewrite Hx, IH.
Qed.

Lemma withoutProto_protoFree (v : JsValue) :
  protoFree v = true -> withoutProto v = v.
Proof.
  induction v as [| | | | |items IH|entries IH] using JsValue_induction;
    try reflexivity.
  - cbn [protoFree withoutProto]. intros H. f_equal.
    induction IH as [|x l Hx _ IHl]; [reflexivity|].
    cbn [forallb] in H. apply andb_prop in H as [H1 H2].
    cbn [map]. now rewrite (Hx H1), (IHl H2).
  - cbn [protoFree withoutProto]. intros H. f_equal.
    induction IH as [|[key value] l Hx _ IHl]; [reflexivity|].
    cbn [forallb] in H. apply andb_prop in H as [H1 H2].
    apply andb_prop in H1 as [Hk Hv].
    cbn [flat_map snd] in *. rewrite (IHl H2). unfold assigned.
    destruct (String.eqb key "__proto__"); [discriminate Hk|].
    cbn [app]. now rewrite (Hx Hv).
Qed.

Lemma redactSecrets_secretStrings (v : JsValue) :
  secretStrings (redactSecrets v)
  = map (fun _ => REDACTED) (secretStrings (withoutProto v)).
Proof.
  induction v as [| | | | |items IH|entries IH] using JsValue_induction;
    try reflexivity.
  - cbn [redactSecrets secretStrings withoutProto].
    induction IH as [|x l Hx _ IHl]; [reflexivity|].
    cbn [map flat_map]. now rewrite map_app, Hx, IHl.
  - cbn [redactSecrets secretStrings withoutProto].
    induction IH as [|[key value] l Hx _ IHl]; [reflexivity|].
    cbn [flat_map]. rewrite !flat_map_app, map_app, IHl. f_equal.
    unfold assigned. destruct (String.eqb key "__proto__"); [reflexivity|].
    cbn [flat_map snd] in *. rewrite !app_nil_r.
    destruct value; try reflexivity; try exact Hx.
    destruct (isSecretKey key) eqn:Hk; cbn; now rewrite ?Hk.
Qed.

(** X15.  Redaction reaches every secret of the redacted payload and
    only rewrites it: after [redactSecrets], the strings stored under a
    key that matches the secret pattern -- in an object at any depth,
    also inside arrays -- are all "[REDACTED]", one for each such string
    of the input that is not below a [__proto__] key (those entries do
    not reach the output at all); for a payload without [__proto__]
    keys, one for each such string of the input. *)
Theorem redactSecrets_hides_every_secret (v : JsValue) :
  secretStrings (redactSecrets v)
  = map (fun _ => REDACTED) (secretStrings (withoutProto v)) /\
  Forall (eq REDACTED) (secretStrings (redactSecrets v)) /\
  (protoFree v = true ->
   secretStrings (redactSecrets v)
   = map (fun _ => REDACTED) (secretStrings v)).
Proof.
  pose proof (redactSecrets_secretStrings v) as H.
  split; [exact H|]. split.
  - rewrite H. apply Forall_forall. intros s Hs.
    apply in_map_iff in Hs. destruct Hs as (s0 & <- & _). reflexivity.
  - intros Hp. rewrite H. now rewrite (withoutProto_protoFree v Hp).
Qed.

Lemma redactSecrets_hides_every_secret_witness :
  let payload :=
    JsObjectOf
      [ ("headers",
          JsObjectOf [ ("Authorization", JsString "Bearer sk-test") ]);
        ("apiKey", JsString "sk-test");
        ("attempt", JsNumber 2) ]
  in
  protoFree payload = true /\
  secretStrings (redactSecrets payload)
  = map (fun _ => REDACTED) (secretStrings payload).
Proof.
  intros payload.
  assert (H : protoFree payload = true) by reflexivity.
  split; [exact H|].
  exact (proj2 (proj2 (redactSecrets_hides_every_secret payload)) H).
Defined.

(** X16.  [redactSecrets] is idempotent: redacting a redacted payload
    changes nothing. *)
Theorem redactSecrets_idempotent (v : JsValue) :
  redactSecrets (redactSecrets v) = redactSecrets v.
Proof.
  induction v as [| | | | |items IH|entries IH] using JsValue_induction;
    try reflexivity.
  - cbn [redactSecrets]. f_equal. rewrite map_map.
    now apply map_ext_Forall'.
  - cbn [redactSecrets]. f_equal.
    induction IH as [|[key value] l Hx _ IHl]; [reflexivity|].
    cbn [flat_map]. rewrite flat_map_app, IHl. f_equal.
    unfold assigned. destruct (String.eqb key "__proto__") eqn:Hp;
      [reflexivity|].
    cbn [flat_map snd] in *. unfold assigned. rewrite Hp, app_nil_r.
    destruct value; try reflexivity.
    + destruct (isSecretKey key) eqn:Hk; cbn; rewrite ?Hk; reflexivity.
    + cbn [redactSecrets] in *. now rewrite Hx.
    + cbn [redactSecrets] in *. now rewrite Hx.
Qed.

(** X17.  Redaction touches nothing else: a payload in which no string
    sits under a secret key comes back without its [__proto__] entries
    and otherwise unchanged; if it has no [__proto__] key either, it
    comes back unchanged. *)
Theorem redactSecrets_keeps_other_data (v : JsValue) :
  secretStrings v = [] ->
  redactSecrets v = withoutProto v /\
  (protoFree v = true -> redactSecrets v = v).
Proof.
  intros Hs.
  assert (H : redactSecrets v = withoutProto v).
  { revert Hs.
    induction v as [| | | | |items IH|entries IH] using JsValue_induction;
      try reflexivity.
    - cbn [redactSecrets secretStrings withoutProto]. intros H. f_equal.
      induction IH as [|x l Hx _ IHl]; [reflexivity|].
      cbn [flat_map] in H. apply app_eq_nil in H as [H1 H2].
      cbn [map]. now rewrite (Hx H1), (IHl H2).
    - cbn [redactSecrets secretStrings withoutProto]. intros H. f_equal.
      induction IH as [|[key value] l Hx _ IHl]; [reflexivity|].
      cbn [flat_map] in H. apply app_eq_nil in H as [H1 H2].
      cbn [flat_map snd] in *. rewrite (IHl H2). f_equal. f_equal.
      destruct value; try reflexivity.
      + destruct (isSecretKey key); [discriminate H1 | reflexivity].
      + exact (Hx H1).
      + exact (Hx H1). }
  split; [exact H|].
  intros Hp. now rewrite H, (withoutProto_protoFree v Hp).
Qed.

Lemma redactSecrets_keeps_other_data_witness :
  let payload :=
    JsObjectOf
      [ ("toolName", JsString "deepResearch");
        ("attempt", JsNumber 2);
        ("requestMeta",
          JsObjectOf [ ("model", JsString "o4-mini-deep-research-2025-06-26") ]) ]
  in
  (secretStrings payload = [] /\ protoFree payload = true) /\
  redactSecrets payload = payload.
Proof.
  intros payload.
  assert (H : secretStrings payload = []) by reflexivity.
  assert (Hp : protoFree payload = true) by reflexivity.
  split; [split; assumption|].
  exact (proj2 (redactSecrets_keeps_other_data payload H) Hp).
Defined.

(** * The progress state of the client *)

Lemma mapSet_keys {V : Type} (k : string) (v : V) (m : list (string * V))
    (x : string) :
  In x (map fst (mapSet k v m)) -> x = k \/ In x (map fst m).
Proof.
  induction m as [|[k' v'] m IH]; simpl.
  - intros [<-|[]]. now left.
  - destruct (String.eqb_spec k' k) as [->|Hne]; simpl.
    + intros [<-|H]; auto.
    + intros [<-|H]; auto. destruct (IH H); auto.
Qed.

Lemma mapSet_NoDup {V : Type} (k : string) (v : V) (m : list (string * V)) :
  NoDup (map fst m) -> NoDup (map fst (mapSet k v m)).
Proof.
  induction m as [|[k' v'] m IH]; simpl; intros H.
  - constructor; [intros [] | constructor].
  - inversion H as [|? ? Hnotin Hnd]; subst.
    destruct (String.eqb_spec k' k) as [->|Hne]; simpl.
    + now constructor.
    + constructor; [|now apply IH].
      intros Hin. destruct (mapSet_keys k v m k' Hin); congruence.
Qed.

Lemma mapSet_Forall {V : Type} (P : string * V -> Prop) (k : string) (v : V)
    (m : list (string * V)) :
  P (k, v) -> Forall P m -> Forall P (mapSet k v m).
Proof.
  intros Hkv. induction 1 as [|[k' v'] m Hx Hm IH]; simpl.
  - now constructor.
  - destruct (String.eqb k' k); now constructor.
Qed.

Lemma mapSet_length {V : Type} (k : string) (v : V) (m : list (string * V)) :
  (List.length (mapSet k v m) <= S (List.length m))%nat.
Proof.
  induction m as [|[k' v'] m IH]; simpl; [lia|].
  destruct (String.eqb k' k); simpl; lia.
Qed.

#[local] Arguments showZ : simpl never.
#[local] Arguments trim : simpl never.

Lemma clientStep_invariant (st : ClientState) (ev : ClientEvent) :
  clientInvariant st -> clientInvariant (clientStep st ev).
Proof.
  intros [Hnd Hrs]. destruct ev as [text|isLoading uuid ts|toolName args ts|];
    cbn [clientStep].
  - split; assumption.
  - unfold handleSubmit.
    destruct (String.eqb (trim (input st)) "" || isLoading);
      [split; assumption|].
    split; cbn [sections runStatus map]; [constructor|].
    cbn [rs_totalSections rs_completedSections rs_phase].
    repeat split; auto. now left.
  - unfold onToolCall.
    destruct (String.eqb toolName "deepResearch"); [|split; assumption].
    split; [now apply mapSet_NoDup|].
    destruct (runStatus st) as [rs|].
    + destruct Hrs as (Ht & Hc & Hp & Hs).
      destruct (negb (String.eqb (rs_phase rs) "researching")); simpl;
        (split; [exact Ht|]); (split; [exact Hc|]);
        (split; [first [exact Hp | right; left; reflexivity]|]);
        (apply mapSet_Forall; [repeat split | exact Hs]).
    + simpl. apply mapSet_Forall; [repeat split | exact Hrs].
  - split; cbn [sections runStatus]; [assumption|].
    destruct (runStatus st) as [rs|]; cbn [onFinishClient]; [|assumption].
    destruct Hrs as (Ht & Hc & Hp & Hs).
    cbn [rs_totalSections rs_completedSections rs_phase rs_runId].
    repeat split; trivial; [now right | right; right; left; reflexivity].
Qed.

(** X18.  Whatever the user and the chat do, the progress state of the
    client keeps its shape: section ids are unique and are the keys of
    their entries, every section shown is [running] with no progress
    and no error -- the client never marks a section done or failed,
    not even once the run is [complete] --, each section belongs to the
    current run, and the run status counts 0 or 5 of 5 sections in
    phase [planning], [researching] or [complete]. *)
Theorem client_progress_invariant (events : list ClientEvent) :
  clientInvariant (clientRun events).
Proof.
  unfold clientRun.
  assert (H0 : clientInvariant initialClient).
  { split; cbn; constructor. }
  revert H0. generalize initialClient.
  induction events as [|ev events IH]; intros st Hst; cbn [fold_left];
    [exact Hst|].
  apply IH. now apply clientStep_invariant.
Qed.

(** X19.  The client shows at most one section for each [deepResearch]
    tool call it has seen. *)
Theorem client_sections_bounded_by_tool_calls (events : list ClientEvent) :
  (List.length (sections (clientRun events))
   <= List.length (filter isDeepResearchCall events))%nat.
Proof.
  unfold clientRun.
  assert (H : forall st,
            (List.length (sections (fold_left clientStep events st))
             <= List.length (sections st)
                + List.length (filter isDeepResearchCall events))%nat).
  { induction events as [|ev events IH]; intros st; cbn [fold_left filter];
      [lia|].
    specialize (IH (clientStep st ev)).
    assert (Hstep : (List.length (sections (clientStep st ev))
                     <= List.length (sections st)
                        + (if isDeepResearchCall ev then 1 else 0))%nat).
    { destruct ev as [text|isLoading uuid ts|toolName args ts|];
        cbn [clientStep isDeepResearchCall sections]; try lia.
      - unfold handleSubmit.
        destruct (String.eqb (trim (input st)) "" || isLoading);
          cbn [sections List.length]; lia.
      - unfold onToolCall.
        destruct (String.eqb toolName "deepResearch"); cbn [sections];
          [|lia].
        match goal with
        | |- context [mapSet ?k ?v ?m] =>
            pose proof (mapSet_length k v m)
        end. lia. }
    destruct (isDeepResearchCall ev); cbn [List.length]; lia. }
  specialize (H initialClient). cbn [initialClient sections List.length] in H.
  exact H.
Qed.

(** * API keys, from the routes to the tool *)

Lemma truthyString_length (key : string) :
  truthyString key = Nat.ltb 0 (String.length key).
Proof. now destruct key. Qed.

(** X20.  The configuration check and the chat route agree, and an
    accepted chat request reaches the research service: [/api/config]
    reports [allConfigured] exactly when [/api/chat] does not refuse the
    request for missing keys; the chat route then has set the tool's
    key, so that a [deepResearch] call of that request starts its job
    (it sends a submit request) instead of raising the missing-key
    error. *)
Theorem accepted_chat_request_starts_the_job
    (openaiKey tavilyKey : string) (keys : ToolKeys)
    (env : Env) (toISOString : Z -> string)
    (saveMarkdownReport pdfGenerator : string -> string + JsError)
    (closeBrowser : string -> option JsError)
    (args : ToolArgs) (w : World) :
  let checked := chatKeyCheck openaiKey tavilyKey keys in
  (allConfigured (configGET openaiKey tavilyKey) = true <->
   snd checked = None) /\
  (snd checked = None ->
   openaiApiKey (fst checked) = Some openaiKey /\
   tavilyApiKey (fst checked) = Some tavilyKey /\
   (submitCount (trace w) <
    submitCount
      (trace (snd (execute env (openaiApiKey (fst checked)) toISOString
                     saveMarkdownReport pdfGenerator closeBrowser args
                     w))))%nat).
Proof.
  cbv zeta. unfold chatKeyCheck, configGET. cbn [allConfigured].
  rewrite <- !truthyString_length.
  destruct (truthyString openaiKey) eqn:Ho, (truthyString tavilyKey) eqn:Ht;
    cbn [negb orb andb fst snd];
    (split; [split; intros H; (reflexivity || discriminate H)|]);
    intros H; try discriminate H.
  cbn [setOpenAIApiKey setTavilyApiKey openaiApiKey tavilyApiKey].
  split; [reflexivity|]. split; [reflexivity|].
  rewrite execute_unfold. cbv zeta.
  assert (Hk : truthy (Some openaiKey) = true) by exact Ho.
  rewrite Hk.
  pose proof (retryLoop_submits env (Some openaiKey) (subtopic args) 2
                pollBudget 1 defaultMaxRetries
                (announced toISOString args w) ltac:(vm_compute; discriminate))
    as Hsub.
  assert (Ha : submitCount (trace (announced toISOString args w))
               = submitCount (trace w)).
  { unfold announced. cbn [trace]. rewrite submitCount_app. cbn. lia. }
  unfold executeDeepResearch.
  change (roundsFor defaultMaxRetries) with 3%nat.
  destruct (retryLoop _ _ _ _ _ _ _ _) as [[result| |] w1];
    cbn [snd] in *; try lia.
  assert (Hlog : forall a b : LogData,
            submitCount (trace w1 ++ [ALog a; ALog b]) = submitCount (trace w1)).
  { intros a b. rewrite submitCount_app. cbn. lia. }
  destruct (status result);
    try (destruct (saveMarkdownReport (content result)) as [filePath|e]);
    cbn [snd trace]; unfold errorStatusEvent, doneStatusEvent;
    rewrite ?app_assoc, ?Hlog, ?submitCount_app;
    try (destruct (pdfLogs_counts pdfGenerator closeBrowser args filePath)
           as (-> & _ & _));
    lia.
Qed.

Lemma accepted_chat_request_starts_the_job_witness :
  let checked := chatKeyCheck "sk-test" "tvly-test" (mkToolKeys None None) in
  snd checked = None /\
  openaiApiKey (fst checked) = Some "sk-test" /\
  tavilyApiKey (fst checked) = Some "tvly-test" /\
  (submitCount (trace initialWorld) <
   submitCount
     (trace (snd (execute alwaysUnavailable (openaiApiKey (fst checked))
                    isoOfClock
                    (savesTo "research-output/electric-vehicles/03_battery-chemistry.md")
                    noPdf closesQuietly sectionThree initialWorld))))%nat.
Proof.
  intros checked.
  assert (H : snd checked = None) by reflexivity.
  split; [exact H|].
  exact (proj2 (accepted_chat_request_starts_the_job "sk-test" "tvly-test"
                  (mkToolKeys None None) alwaysUnavailable isoOfClock
                  (savesTo "research-output/electric-vehicles/03_battery-chemistry.md")
                  noPdf closesQuietly sectionThree initialWorld) H).
Defined.
